(** * rio_tiler.reader: low level reader, embedded in Rocq

    A shallow embedding of [src/rio_tiler/reader.py] (functions [read],
    [part], [preview] and [point]) together with the properties of the
    natural-language specification that can be settled on it.

    Modelling conventions
    - Python [float] is IEEE-754 binary64, taken from the Standard
      Library's [SpecFloat] ([prec = 53], [emax = 1024]); numpy's
      [float32] is binary32 ([prec = 24], [emax = 128]).  Rounding is
      therefore the rounding of the program, not exact arithmetic.
    - Python [int] is [Z].  [Optional[T]] is [option T]; truthiness tests
      ([if x:], [x and y], [x or y]) are written out as [bool] functions.
    - A raised exception is the [Raise] branch of [result].
    - A [dict] with string keys is a [gmap string pyval];
      [d.update(e)] is the union in which [e] wins.
    - A numpy array is its shape with its items in row-major order; a
      masked array is a pair of arrays.
    - The raster library (rasterio / GDAL), the [affine] package's
      constructors and the helpers of [rio_tiler.utils], whose code is not
      part of [reader.py], are fields of the record [Collaborators].
    - [warnings.warn] only emits an advisory signal; it changes neither
      the control flow nor any computed value and is left out. *)

From Stdlib Require Import ZArith Lia Bool List.
From Stdlib Require Import SpecFloat.
From stdpp Require Import gmap strings list pretty.

Open Scope Z_scope.

(** ** Exceptions and the error monad *)

Inductive exn : Type :=
| TileOutsideBounds (msg : string)
| PointOutsideBounds (msg : string)
| ZeroDivisionError
| ValueError
| OverflowError
| IndexError.

Inductive result (A : Type) : Type :=
| Ok (a : A)
| Raise (e : exn).

Arguments Ok {A} a.
Arguments Raise {A} e.

#[global] Instance result_ret : MRet result := fun A a => Ok a.

#[global] Instance result_bind : MBind result := fun A B f r =>
  match r with
  | Ok a => f a
  | Raise e => Raise e
  end.

(** ** Python floats (binary64) *)

Module PyFloat.

Definition prec : Z := 53.
Definition emax : Z := 1024.

Definition zero : spec_float := S754_zero false.

(** [float(z)] for a Python int: exact below [2^53] in absolute value,
    rounded to nearest even beyond (an int too large for a float, for
    which Python raises OverflowError, gives an infinity here). *)
Definition of_int (z : Z) : spec_float := binary_normalize prec emax z 0 false.

Definition add (x y : spec_float) : spec_float := SFadd prec emax x y.
Definition sub (x y : spec_float) : spec_float := SFsub prec emax x y.
Definition mul (x y : spec_float) : spec_float := SFmul prec emax x y.

(** [x < y]; false as soon as one side is NaN. *)
Definition ltb (x y : spec_float) : bool := SFltb x y.

(** [bool(x)], that is [x != 0.0]. *)
Definition truthy (x : spec_float) : bool := negb (SFeqb x zero).

(** [x / y]: Python raises on a zero divisor instead of returning an
    infinity or a NaN. *)
Definition truediv (x y : spec_float) : result spec_float :=
  if SFeqb y zero then Raise ZeroDivisionError
  else Ok (SFdiv prec emax x y).

(** Two-argument [max(a, b)] and [min(a, b)]: the first argument is kept
    unless the second one is strictly greater (resp. smaller). *)
Definition max (a b : spec_float) : spec_float := if ltb a b then b else a.
Definition min (a b : spec_float) : spec_float := if ltb b a then b else a.

(** [math.ceil(x)]: an int; ValueError on NaN, OverflowError on an
    infinity. *)
Definition ceil (x : spec_float) : result Z :=
  match x with
  | S754_zero _ => Ok 0
  | S754_finite s m e =>
      let z := cond_Zopp s (Zpos m) in
      Ok (if 0 <=? e then z * 2 ^ e else - ((- z) / 2 ^ (- e)))
  | S754_nan => Raise ValueError
  | S754_infinity _ => Raise OverflowError
  end.

(** The integer nearest to [m * 2^e], ties to even. *)
Definition round_half_even (m : positive) (e : Z) : Z :=
  if 0 <=? e then Zpos m * 2 ^ e
  else
    let d := 2 ^ (- e) in
    let q := Zpos m / d in
    let r := Zpos m mod d in
    match 2 * r ?= d with
    | Lt => q
    | Gt => q + 1
    | Eq => if Z.even q then q else q + 1
    end.

(** ["{:.0f}".format(x)]. *)
Definition format_0f (x : spec_float) : string :=
  match x with
  | S754_nan => "nan"
  | S754_infinity s => if s then "-inf" else "inf"
  | S754_zero s => if s then "-0" else "0"
  | S754_finite s m e =>
      (if s then "-" else "") +:+ pretty (round_half_even m e)
  end.

End PyFloat.

(** ** numpy float32 (binary32) *)

Module Float32.

Definition prec : Z := 24.
Definition emax : Z := 128.

Definition of_int (z : Z) : spec_float := binary_normalize prec emax z 0 false.

(** Conversion of a binary64 value to the nearest binary32 value. *)
Definition of_float (x : spec_float) : spec_float :=
  match x with
  | S754_finite s m e => binary_normalize prec emax (cond_Zopp s (Zpos m)) e s
  | _ => x
  end.

Definition add (x y : spec_float) : spec_float := SFadd prec emax x y.
Definition mul (x y : spec_float) : spec_float := SFmul prec emax x y.

End Float32.

(** ** Data model *)

(** A coordinate reference system, by its definition string.  An empty
    CRS object is falsy in rasterio. *)
Definition CRS : Type := string.

Definition crs_truthy (c : CRS) : bool := negb (String.eqb c "").

(** [BBox]: the 4-tuple [(left, bottom, right, top)]; the source reads it
    as [bounds[0]], [bounds[1]], [bounds[2]], [bounds[3]]. *)
Record BBox : Type := mkBBox {
  left : spec_float;
  bottom : spec_float;
  right : spec_float;
  top : spec_float
}.

(** [affine.Affine(a, b, c, d, e, f)]: the matrix [[a b c] [d e f] [0 0 1]]. *)
Module Affine.

Record t : Type := mk {
  a : spec_float;
  b : spec_float;
  c : spec_float;
  d : spec_float;
  e : spec_float;
  f : spec_float
}.

(** [Affine.translation(xoff, yoff)]. *)
Definition translation (xoff yoff : spec_float) : t :=
  mk (PyFloat.of_int 1) PyFloat.zero xoff PyFloat.zero (PyFloat.of_int 1) yoff.

(** [self * other] for two transforms ([Affine.__mul__]). *)
Definition mul (s o : t) : t :=
  mk (PyFloat.add (PyFloat.mul (a s) (a o)) (PyFloat.mul (b s) (d o)))
     (PyFloat.add (PyFloat.mul (a s) (b o)) (PyFloat.mul (b s) (e o)))
     (PyFloat.add (PyFloat.add (PyFloat.mul (a s) (c o)) (PyFloat.mul (b s) (f o))) (c s))
     (PyFloat.add (PyFloat.mul (d s) (a o)) (PyFloat.mul (e s) (d o)))
     (PyFloat.add (PyFloat.mul (d s) (b o)) (PyFloat.mul (e s) (e o)))
     (PyFloat.add (PyFloat.add (PyFloat.mul (d s) (c o)) (PyFloat.mul (e s) (f o))) (f s)).

(** [self * (x, y)]: the image of a pixel coordinate. *)
Definition apply (s : t) (x y : spec_float) : spec_float * spec_float :=
  (PyFloat.add (PyFloat.add (PyFloat.mul x (a s)) (PyFloat.mul y (b s))) (c s),
   PyFloat.add (PyFloat.add (PyFloat.mul x (d s)) (PyFloat.mul y (e s))) (f s)).

End Affine.

(** [rasterio.windows.Window(col_off, row_off, width, height)]. *)
Record Window : Type := mkWindow {
  col_off : Z;
  row_off : Z;
  win_width : Z;
  win_height : Z
}.

(** [rasterio.enums.Resampling]; [Resampling[resampling_method]] is the
    member of that name (an unknown name raises KeyError in the first
    statement of [read] and [point], before anything modelled here). *)
Inductive Resampling : Type :=
| nearest | bilinear | cubic | cubic_spline | lanczos | average | mode | gauss.

(** [rasterio.enums.ColorInterp]. *)
Module ColorInterp.

Inductive t : Type :=
| undefined | gray | palette | red | green | blue | alpha.

Definition eqb (x y : t) : bool :=
  match x, y with
  | undefined, undefined | gray, gray | palette, palette | red, red
  | green, green | blue, blue | alpha, alpha => true
  | _, _ => false
  end.

End ColorInterp.

(** [NoData = Union[float, int, str]]. *)
Inductive NoData : Type :=
| NdInt (z : Z)
| NdFloat (x : spec_float)
| NdStr (s : string).

(** Values stored in the keyword dictionary handed to [WarpedVRT]. *)
Inductive pyval : Type :=
| VNone
| VBool (b : bool)
| VInt (z : Z)
| VFloat (x : spec_float)
| VStr (s : string)
| VResampling (r : Resampling)
| VCrs (c : CRS)
| VAffine (t : Affine.t).

Definition of_nodata (n : NoData) : pyval :=
  match n with
  | NdInt z => VInt z
  | NdFloat x => VFloat x
  | NdStr s => VStr s
  end.

(** [bool(v)]. *)
Definition py_truthy (v : pyval) : bool :=
  match v with
  | VNone => false
  | VBool b => b
  | VInt z => negb (z =? 0)
  | VFloat x => PyFloat.truthy x
  | VStr s => negb (String.eqb s "")
  | VResampling _ => true
  | VCrs c => crs_truthy c
  | VAffine _ => true
  end.

(** [d.update(e)]: the keys of [e] overwrite those of [d]. *)
Definition dict_update (d e : gmap string pyval) : gmap string pyval := e ∪ d.

(** [if vrt_options:] for an optional dict: neither [None] nor empty. *)
Definition dict_truthy (o : option (gmap string pyval)) : bool :=
  match o with
  | Some e => negb (Nat.eqb (size e) 0)
  | None => false
  end.

(** [if n:] for an optional int. *)
Definition int_truthy (o : option Z) : bool :=
  match o with
  | Some z => negb (z =? 0)
  | None => false
  end.

(** [x or y] for an optional int [x] and an int [y]. *)
Definition int_or (o : option Z) (y : Z) : Z :=
  match o with
  | Some z => if z =? 0 then y else z
  | None => y
  end.

(** A sample of a raster band, by numpy dtype family. *)
Inductive scalar : Type :=
| SInt (z : Z)
| SFloat32 (x : spec_float)
| SFloat64 (x : spec_float).

(** [v.astype("float32", casting="unsafe")]. *)
Definition astype_float32 (v : scalar) : spec_float :=
  match v with
  | SInt z => Float32.of_int z
  | SFloat32 x => x
  | SFloat64 x => Float32.of_float x
  end.

(** Truncation toward zero of a finite float (0 for the others). *)
Definition trunc (x : spec_float) : Z :=
  match x with
  | S754_finite s m e =>
      cond_Zopp s (if 0 <=? e then Zpos m * 2 ^ e else Zpos m / 2 ^ (- e))
  | _ => 0
  end.

(** [v.astype("uint8")]. *)
Definition astype_uint8 (v : scalar) : Z :=
  match v with
  | SInt z => z mod 256
  | SFloat32 x | SFloat64 x => trunc x mod 256
  end.

(** [Indexes = Union[Sequence[int], int]]. *)
Inductive Indexes : Type :=
| IdxInt (i : Z)
| IdxSeq (l : list Z).

(** A numpy array: its shape and its items in row-major order.  The data
    of a read is 3-dimensional [(bands, rows, cols)], its mask
    2-dimensional [(rows, cols)], the values of a point 1-dimensional. *)
Record ndarray (A : Type) : Type := mkArray {
  shape : list Z;
  items : list A
}.

Arguments mkArray {A} shape items.
Arguments shape {A} n.
Arguments items {A} n.

(** An element-wise operation: same shape, every item transformed. *)
Definition amap {A B : Type} (f : A -> B) (x : ndarray A) : ndarray B :=
  mkArray (shape x) (map f (items x)).

(** The number of items of an array of a given shape. *)
Definition size_of (s : list Z) : Z := fold_right Z.mul 1 s.

(** [x[0:-1]]: all the blocks along the first axis but the last. *)
Definition but_last {A : Type} (x : ndarray A) : ndarray A :=
  match shape x with
  | n :: rest =>
      let k := Z.max (n - 1) 0 in
      mkArray (k :: rest) (take (Z.to_nat (k * size_of rest)) (items x))
  | [] => x
  end.

(** [x[-1]]: the last block along the first axis; IndexError when there
    is none. *)
Definition last_block {A : Type} (x : ndarray A) : result (ndarray A) :=
  match shape x with
  | n :: rest =>
      if n <=? 0 then Raise IndexError
      else Ok (mkArray rest (drop (Z.to_nat ((n - 1) * size_of rest)) (items x)))
  | [] => Raise IndexError
  end.

(** [numpy.zeros(s)]: float64 zeros. *)
Definition zeros (s : list Z) : ndarray scalar :=
  mkArray s (repeat (SFloat64 PyFloat.zero) (Z.to_nat (size_of s))).

(** A numpy masked array: [values.data] and [values.mask].  In [numpy.ma]
    a mask entry is [True] where the value is masked out, that is where
    the sample is NOT valid. *)
Record MaskedArray : Type := mkMaskedArray {
  ma_data : ndarray scalar;
  ma_mask : ndarray bool
}.

(** The dataset attributes the reader consults. *)
Record Dataset : Type := mkDataset {
  ds_crs : CRS;
  ds_bounds : BBox;
  ds_nodata : option NoData;
  ds_height : Z;
  ds_width : Z;
  ds_indexes : list Z
}.

(** An opened [WarpedVRT]: what [read] and [point] ask of it. *)
Record VRT : Type := mkVRT {
  colorinterp : list ColorInterp.t;
  vrt_read : list Z -> option Window -> option (Z * Z * Z) -> Resampling -> ndarray scalar;
  dataset_mask : option Window -> option (Z * Z) -> Resampling -> ndarray Z;
  sample : spec_float * spec_float -> list Z -> bool -> MaskedArray;
  scales : list spec_float;
  offsets : list spec_float
}.

(** Everything [reader.py] imports: the helpers of [rio_tiler.utils]
    ([has_alpha_band], [non_alpha_indexes], [get_vrt_transform],
    [_requested_tile_aligned_with_internal_tile] as [is_aligned]) and
    rasterio's [transform_bounds] (with [densify_pts=21]), [transform]
    (as [transform_coords], on one point) and [WarpedVRT]. *)
Record Collaborators : Type := mkCollaborators {
  has_alpha_band : Dataset -> bool;
  non_alpha_indexes : Dataset -> list Z;
  get_vrt_transform : Dataset -> BBox -> option Z -> option Z -> CRS -> Affine.t * Z * Z;
  is_aligned : Dataset -> BBox -> Z -> Z -> CRS -> bool;
  transform_bounds : CRS -> CRS -> BBox -> BBox;
  transform_coords : CRS -> CRS -> spec_float -> spec_float -> spec_float * spec_float;
  WarpedVRT : Dataset -> gmap string pyval -> VRT
}.

(** The keyword options of [read] that [part] and [preview] forward
    unchanged ([**kwargs]), with the defaults of [read]'s signature. *)
Record ReadOptions : Type := mkReadOptions {
  indexes : option Indexes;
  force_binary_mask : bool;
  nodata : option NoData;
  unscale : bool;
  resampling_method : Resampling;
  post_process : option (ndarray scalar -> ndarray Z -> ndarray scalar * ndarray Z)
}.

Definition default_options : ReadOptions :=
  mkReadOptions None true None false nearest None.

(** ** The reader *)

Section Reader.

Variable env : Collaborators.

(** *** [read], lines 24-121 *)

(** Lines 58-59: [if isinstance(indexes, int): indexes = (indexes,)]. *)
Definition as_tuple (i : option Indexes) : option (list Z) :=
  match i with
  | Some (IdxInt n) => Some [n]
  | Some (IdxSeq l) => Some l
  | None => None
  end.

(** Lines 61-67 and 80-81: the keyword dictionary of the warped view. *)
Definition read_vrt_params (src_dst : Dataset) (nodata : option NoData)
    (resampling_method : Resampling)
    (vrt_options : option (gmap string pyval)) : gmap string pyval :=
  let vrt_params : gmap string pyval :=
    <["add_alpha" := VBool true]>
      (<["resampling" := VResampling resampling_method]> ∅) in
  let nodata := match nodata with Some n => Some n | None => ds_nodata src_dst end in
  let vrt_params :=
    match nodata with
    | Some n =>
        dict_update vrt_params
          (<["nodata" := of_nodata n]>
             (<["add_alpha" := VBool false]>
                (<["src_nodata" := of_nodata n]> ∅)))
    | None => vrt_params
    end in
  let vrt_params :=
    if has_alpha_band env src_dst
    then dict_update vrt_params (<["add_alpha" := VBool false]> ∅)
    else vrt_params in
  match vrt_options with
  | Some o => if dict_truthy vrt_options then dict_update vrt_params o else vrt_params
  | None => vrt_params
  end.

(** Lines 76-77: [(len(indexes), height, width) if height and width else
    None] and [(height, width) if height and width else None]. *)
Definition out_shape_of (n : Z) (height width : option Z) : option (Z * Z * Z) :=
  match height, width with
  | Some h, Some w =>
      if int_truthy height && int_truthy width then Some (n, h, w) else None
  | _, _ => None
  end.

Definition mask_out_shape_of (height width : option Z) : option (Z * Z) :=
  match height, width with
  | Some h, Some w =>
      if int_truthy height && int_truthy width then Some (h, w) else None
  | _, _ => None
  end.

(** [ColorInterp.alpha in vrt.colorinterp] and
    [vrt.colorinterp.index(ColorInterp.alpha)]. *)
Definition has_alpha (l : list ColorInterp.t) : bool :=
  existsb (ColorInterp.eqb ColorInterp.alpha) l.

Fixpoint alpha_index (l : list ColorInterp.t) : Z :=
  match l with
  | [] => 0
  | x :: r => if ColorInterp.eqb ColorInterp.alpha x then 0 else 1 + alpha_index r
  end.

(** Line 111: [numpy.where(mask != 0, numpy.uint8(255), numpy.uint8(0))]. *)
Definition binarize (mask : ndarray Z) : ndarray Z :=
  amap (fun v => if v =? 0 then 0 else 255) mask.

(** Lines 114-116 on one sample: the float32 value, times the scale, plus
    the offset; numpy computes in float32, the two Python floats being
    converted to it. *)
Definition unscale_value (scale offset : spec_float) (v : scalar) : scalar :=
  SFloat32
    (Float32.add
       (Float32.mul (astype_float32 v) (Float32.of_float scale))
       (Float32.of_float offset)).

(** Lines 113-116: [vrt.scales[0]] and [vrt.offsets[0]] for every band. *)
Definition unscale_data (vrt : VRT) (data : ndarray scalar) : result (ndarray scalar) :=
  match scales vrt, offsets vrt with
  | scale :: _, offset :: _ => Ok (amap (unscale_value scale offset) data)
  | _, _ => Raise IndexError
  end.

(** Lines 83-108: the windowed read and the mask, before any
    post-treatment. *)
Definition read_data_mask (vrt : VRT) (indexes : list Z) (height width : option Z)
    (window : option Window) (resampling : Resampling)
    : result (ndarray scalar * ndarray Z) :=
  let out_shape := out_shape_of (Z.of_nat (length indexes)) height width in
  let mask_out_shape := mask_out_shape_of height width in
  if has_alpha (colorinterp vrt) then
    let idx := alpha_index (colorinterp vrt) + 1 in
    let indexes := indexes ++ [idx] in
    let out_shape :=
      match out_shape with
      | Some _ => out_shape_of (Z.of_nat (length indexes)) height width
      | None => None
      end in
    let data := vrt_read vrt indexes window out_shape resampling in
    m ← last_block data;
    Ok (but_last data, amap astype_uint8 m)
  else
    let data := vrt_read vrt indexes window out_shape resampling in
    let mask := dataset_mask vrt window mask_out_shape resampling in
    Ok (data, mask).

(** Lines 118-119. *)
Definition apply_post_process
    (post_process : option (ndarray scalar -> ndarray Z -> ndarray scalar * ndarray Z))
    (data : ndarray scalar) (mask : ndarray Z) : ndarray scalar * ndarray Z :=
  match post_process with
  | Some f => f data mask
  | None => (data, mask)
  end.

Definition read (src_dst : Dataset) (height width : option Z)
    (window : option Window) (vrt_options : option (gmap string pyval))
    (kw : ReadOptions) : result (ndarray scalar * ndarray Z) :=
  let vrt_params :=
    read_vrt_params src_dst (nodata kw) (resampling_method kw) vrt_options in
  let indexes :=
    match as_tuple (indexes kw) with
    | Some l => l
    | None => non_alpha_indexes env src_dst
    end in
  let resampling := resampling_method kw in
  let vrt := WarpedVRT env src_dst vrt_params in
  '(data, mask) ← read_data_mask vrt indexes height width window resampling;
  let mask := if force_binary_mask kw then binarize mask else mask in
  data ← (if unscale kw then unscale_data vrt data else Ok data);
  Ok (apply_post_process (post_process kw) data mask).

(** *** [part], lines 124-235 *)

(** Lines 172-180: the share of the requested bounds that the dataset
    covers.  [max(0, v)] keeps the int [0] unless [v > 0]; the int [0]
    then behaves as [0.0] in the products and in the quotient. *)
Definition cover_ratio (src_bounds bounds : BBox) : result spec_float :=
  let x_overlap :=
    PyFloat.max PyFloat.zero
      (PyFloat.sub (PyFloat.min (right src_bounds) (right bounds))
                   (PyFloat.max (left src_bounds) (left bounds))) in
  let y_overlap :=
    PyFloat.max PyFloat.zero
      (PyFloat.sub (PyFloat.min (top src_bounds) (top bounds))
                   (PyFloat.max (bottom src_bounds) (bottom bounds))) in
  PyFloat.truediv
    (PyFloat.mul x_overlap y_overlap)
    (PyFloat.mul (PyFloat.sub (right bounds) (left bounds))
                 (PyFloat.sub (top bounds) (bottom bounds))).

(** Line 184: the message of the exception. *)
Definition overlap_message (cover_ratio : spec_float) : string :=
  "Dataset covers less than "
    +:+ PyFloat.format_0f (PyFloat.mul cover_ratio (PyFloat.of_int 100))
    +:+ "% of tile".

(** [if minimum_overlap:] for an optional float. *)
Definition overlap_truthy (minimum_overlap : option spec_float) : bool :=
  match minimum_overlap with
  | Some t => PyFloat.truthy t
  | None => false
  end.

(** Lines 168-185. *)
Definition overlap_check (src_dst : Dataset) (dst_crs : CRS) (bounds : BBox)
    (minimum_overlap : option spec_float) : result unit :=
  match minimum_overlap with
  | Some t =>
      if overlap_truthy minimum_overlap then
        let src_bounds :=
          transform_bounds env (ds_crs src_dst) dst_crs (ds_bounds src_dst) in
        cover_ratio ← cover_ratio src_bounds bounds;
        if PyFloat.ltb cover_ratio t
        then Raise (TileOutsideBounds (overlap_message cover_ratio))
        else Ok ()
      else Ok ()
  | None => Ok ()
  end.

(** Lines 195-201, shared word for word by [part] and [preview]: the two
    dimensions cut down to [max_size], from the ratio [h / w] of two
    ints.  Python's true division of two ints is the correctly rounded
    quotient; for ints below [2^53], which convert exactly, it is the
    binary64 quotient of their conversions.  In [height / ratio] and
    [width * ratio] the int is converted first. *)
Definition scale_to_max_size (h w max_size : Z) : result (Z * Z) :=
  ratio ← PyFloat.truediv (PyFloat.of_int h) (PyFloat.of_int w);
  if PyFloat.ltb (PyFloat.of_int 1) ratio then
    let height := max_size in
    q ← PyFloat.truediv (PyFloat.of_int height) ratio;
    width ← PyFloat.ceil q;
    Ok (height, width)
  else
    let width := max_size in
    height ← PyFloat.ceil (PyFloat.mul (PyFloat.of_int width) ratio);
    Ok (height, width).

(** Lines 193-201: [height] and [width] after the [max_size] block. *)
Definition clamp_max_size (max_size height width : option Z)
    (vrt_width vrt_height : Z) : result (option Z * option Z) :=
  match max_size with
  | Some m =>
      if int_truthy max_size && negb (int_truthy width && int_truthy height) then
        if m <? Z.max vrt_width vrt_height then
          '(h, w) ← scale_to_max_size vrt_height vrt_width m;
          Ok (Some h, Some w)
        else Ok (height, width)
      else Ok (height, width)
  | None => Ok (height, width)
  end.

(** Lines 156-157: [if not dst_crs: dst_crs = src_dst.crs]. *)
Definition part_dst_crs (src_dst : Dataset) (dst_crs : option CRS) : CRS :=
  match dst_crs with
  | Some c => if crs_truthy c then c else ds_crs src_dst
  | None => ds_crs src_dst
  end.

(** Lines 165-166: [if bounds_crs: bounds = transform_bounds(...)]. *)
Definition part_bounds (bounds : BBox) (dst_crs : CRS) (bounds_crs : option CRS) : BBox :=
  match bounds_crs with
  | Some c => if crs_truthy c then transform_bounds env c dst_crs bounds else bounds
  | None => bounds
  end.

(** What [part] hands to [read] on line 228. *)
Record ReadCall : Type := mkReadCall {
  rc_height : Z;
  rc_width : Z;
  rc_window : Window;
  rc_vrt_options : gmap string pyval
}.

(** Lines 156-226: everything [part] does before it calls [read]. *)
Definition part_call (src_dst : Dataset) (bounds : BBox) (height width : option Z)
    (padding : Z) (dst_crs bounds_crs : option CRS)
    (minimum_overlap : option spec_float)
    (vrt_options : option (gmap string pyval)) (max_size : option Z)
    : result ReadCall :=
  let dst_crs := part_dst_crs src_dst dst_crs in
  let bounds := part_bounds bounds dst_crs bounds_crs in
  _ ← overlap_check src_dst dst_crs bounds minimum_overlap;
  let '(vrt_transform, vrt_width, vrt_height) :=
    get_vrt_transform env src_dst bounds height width dst_crs in
  let window := mkWindow 0 0 vrt_width vrt_height in
  '(height, width) ← clamp_max_size max_size height width vrt_width vrt_height;
  let out_height := int_or height vrt_height in
  let out_width := int_or width vrt_width in
  let '(vrt_transform, vrt_width, vrt_height, window) :=
    if (0 <? padding) && negb (is_aligned env src_dst bounds out_height out_width dst_crs)
    then
      (Affine.mul vrt_transform
         (Affine.translation (PyFloat.of_int (- padding)) (PyFloat.of_int (- padding))),
       vrt_width + 2 * padding,
       vrt_height + 2 * padding,
       mkWindow padding padding vrt_width vrt_height)
    else (vrt_transform, vrt_width, vrt_height, window) in
  let vrt_options :=
    match vrt_options with
    | Some o => if dict_truthy vrt_options then o else ∅
    | None => ∅
    end in
  let vrt_options :=
    dict_update vrt_options
      (<["crs" := VCrs dst_crs]>
         (<["transform" := VAffine vrt_transform]>
            (<["width" := VInt vrt_width]>
               (<["height" := VInt vrt_height]> ∅)))) in
  Ok (mkReadCall out_height out_width window vrt_options).

Definition part (src_dst : Dataset) (bounds : BBox) (height width : option Z)
    (padding : Z) (dst_crs bounds_crs : option CRS)
    (minimum_overlap : option spec_float)
    (vrt_options : option (gmap string pyval)) (max_size : option Z)
    (kw : ReadOptions) : result (ndarray scalar * ndarray Z) :=
  rc ← part_call src_dst bounds height width padding dst_crs bounds_crs
         minimum_overlap vrt_options max_size;
  read src_dst (Some (rc_height rc)) (Some (rc_width rc)) (Some (rc_window rc))
    (Some (rc_vrt_options rc)) kw.

(** *** [preview], lines 238-270 *)

(** Lines 258-268: the [height] and [width] given to [read]. *)
Definition preview_size (src_dst : Dataset) (max_size : Z)
    (height width : option Z) : result (option Z * option Z) :=
  if negb (int_truthy height) && negb (int_truthy width) then
    if Z.max (ds_height src_dst) (ds_width src_dst) <? max_size then
      Ok (Some (ds_height src_dst), Some (ds_width src_dst))
    else
      '(h, w) ← scale_to_max_size (ds_height src_dst) (ds_width src_dst) max_size;
      Ok (Some h, Some w)
  else Ok (height, width).

Definition preview (src_dst : Dataset) (max_size : Z) (height width : option Z)
    (kw : ReadOptions) : result (ndarray scalar * ndarray Z) :=
  '(height, width) ← preview_size src_dst max_size height width;
  read src_dst height width None None kw.

(** *** [point], lines 273-352 *)

(** Lines 319-331: the same dictionary as in [read]. *)
Definition point_vrt_params (src_dst : Dataset) (nodata : option NoData)
    (resampling_method : Resampling)
    (vrt_options : option (gmap string pyval)) : gmap string pyval :=
  let vrt_params : gmap string pyval :=
    <["add_alpha" := VBool true]>
      (<["resampling" := VResampling resampling_method]> ∅) in
  let nodata := match nodata with Some n => Some n | None => ds_nodata src_dst end in
  let vrt_params :=
    match nodata with
    | Some n =>
        dict_update vrt_params
          (<["nodata" := of_nodata n]>
             (<["add_alpha" := VBool false]>
                (<["src_nodata" := of_nodata n]> ∅)))
    | None => vrt_params
    end in
  let vrt_params :=
    if has_alpha_band env src_dst
    then dict_update vrt_params (<["add_alpha" := VBool false]> ∅)
    else vrt_params in
  match vrt_options with
  | Some o => if dict_truthy vrt_options then dict_update vrt_params o else vrt_params
  | None => vrt_params
  end.

(** Lines 311-314: strictly inside the bounds of the dataset. *)
Definition inside_bounds (b : BBox) (lon lat : spec_float) : bool :=
  (PyFloat.ltb (left b) lon && PyFloat.ltb lon (right b))
  && (PyFloat.ltb (bottom b) lat && PyFloat.ltb lat (top b)).

(** Line 338: [values.mask * 255 if masked else
    numpy.zeros(point_values.shape)]. *)
Definition point_mask (values : MaskedArray) (masked : bool) : ndarray scalar :=
  if masked
  then amap (fun m : bool => SInt ((if m then 1 else 0) * 255)) (ma_mask values)
  else zeros (shape (ma_data values)).

(** Lines 340-347. *)
Definition unscale_point (vrt_dst : VRT) (point_values : ndarray scalar)
    : result (ndarray scalar) :=
  match scales vrt_dst, offsets vrt_dst with
  | scale :: _, offset :: _ => Ok (amap (unscale_value scale offset) point_values)
  | _, _ => Raise IndexError
  end.

Definition point (src_dst : Dataset) (coordinates : spec_float * spec_float)
    (indexes : option Indexes) (coord_crs : CRS) (masked : bool)
    (nodata : option NoData) (unscale : bool) (resampling_method : Resampling)
    (vrt_options : option (gmap string pyval))
    (post_process :
       option (ndarray scalar -> ndarray scalar -> ndarray scalar * ndarray scalar))
    : result (list scalar) :=
  let indexes := as_tuple indexes in
  let '(lon, lat) :=
    transform_coords env coord_crs (ds_crs src_dst) (fst coordinates) (snd coordinates) in
  if negb (inside_bounds (ds_bounds src_dst) lon lat) then
    Raise (PointOutsideBounds "Point is outside dataset bounds")
  else
    let indexes := match indexes with Some l => l | None => ds_indexes src_dst end in
    let vrt_params := point_vrt_params src_dst nodata resampling_method vrt_options in
    let vrt_dst := WarpedVRT env src_dst vrt_params in
    let values := sample vrt_dst (lon, lat) indexes masked in
    let point_values := ma_data values in
    let mask := point_mask values masked in
    point_values ← (if unscale then unscale_point vrt_dst point_values else Ok point_values);
    let point_values :=
      match post_process with
      | Some f => fst (f point_values mask)
      | None => point_values
      end in
    Ok (items point_values).

End Reader.

(** ** Reading the keyword dictionary of a view *)

(** [add_alpha] is set: present and truthy ([WarpedVRT] defaults to no
    alpha synthesis). *)
Definition add_alpha_set (d : gmap string pyval) : bool :=
  match d !! "add_alpha" with
  | Some v => py_truthy v
  | None => false
  end.

(** A nodata value is active: present and not [None]. *)
Definition nodata_active (d : gmap string pyval) : bool :=
  match d !! "nodata" with
  | Some VNone => false
  | Some _ => true
  | None => false
  end.

(** The caller's raw overrides leave the alpha / nodata policy alone:
    there are none, or they neither switch [add_alpha] on nor bring a
    nodata value. *)
Definition overrides_neutral (vrt_options : option (gmap string pyval)) : bool :=
  match vrt_options with
  | Some o => negb (add_alpha_set o) && negb (nodata_active o)
  | None => true
  end.

(** The exception is the OutOfBounds condition of [part]. *)
Definition is_tile_outside (e : exn) : bool :=
  match e with
  | TileOutsideBounds _ => true
  | _ => false
  end.

(** The raster library gives a windowed read the output shape it is
    asked for. *)
Definition honours_out_shape (env : Collaborators) : Prop :=
  forall src params indexes window n h w r,
    shape (vrt_read (WarpedVRT env src params) indexes window (Some (n, h, w)) r)
    = [n; h; w].

(** Every item of a mask is 0 or 255. *)
Definition binary_mask (mask : ndarray Z) : Prop :=
  Forall (fun v => v = 0 \/ v = 255) (items mask).

(** ** A small raster library on which the reader can be run *)

Module Demo.

Definition half : spec_float :=
  Eval vm_compute in SFdiv PyFloat.prec PyFloat.emax (PyFloat.of_int 1) (PyFloat.of_int 2).

Definition bounds : BBox :=
  mkBBox (PyFloat.of_int 0) (PyFloat.of_int 0) (PyFloat.of_int 10) (PyFloat.of_int 10).

(** A one-band dataset of [h] rows and [w] columns over [bounds]. *)
Definition dataset (h w : Z) (nodata : option NoData) : Dataset :=
  mkDataset "EPSG:3857" bounds nodata h w [1].

Definition transform : Affine.t :=
  Affine.mk (PyFloat.of_int 1) PyFloat.zero PyFloat.zero
            PyFloat.zero (PyFloat.of_int (-1)) (PyFloat.of_int 10).

Definition filled {A : Type} (s : list Z) (v : A) : ndarray A :=
  mkArray s (repeat v (Z.to_nat (size_of s))).

(** The size of a windowed read: the output shape if there is one, else
    the window, else the whole dataset. *)
Definition read_size (src_dst : Dataset) (window : option Window)
    (out : option (Z * Z)) : list Z :=
  match out, window with
  | Some (h, w), _ => [h; w]
  | None, Some win => [win_height win; win_width win]
  | None, None => [ds_height src_dst; ds_width src_dst]
  end.

(** A view in which every band reads 5 everywhere, the dataset mask holds
    the nonzero coverage 7 everywhere, every sample is valid (not masked
    out), and the first band has scale 2.0 and offset -10.0. *)
Definition vrt (bands : list ColorInterp.t) (src_dst : Dataset) : VRT :=
  mkVRT bands
    (fun indexes window out_shape _ =>
       match out_shape with
       | Some (n, h, w) => filled [n; h; w] (SInt 5)
       | None => filled (Z.of_nat (length indexes) :: read_size src_dst window None) (SInt 5)
       end)
    (fun window out_shape _ => filled (read_size src_dst window out_shape) 7)
    (fun _ indexes _ =>
       mkMaskedArray (filled [Z.of_nat (length indexes)] (SInt 5))
                     (filled [Z.of_nat (length indexes)] false))
    [PyFloat.of_int 2] [PyFloat.of_int (-10)].

(** The library: no reprojection, a computed grid of 100 rows by 200
    columns that is never aligned with the internal tiling. *)
Definition env (bands : list ColorInterp.t) : Collaborators :=
  mkCollaborators
    (fun _ => false)
    ds_indexes
    (fun _ _ _ _ _ => (transform, 200, 100))
    (fun _ _ _ _ _ => false)
    (fun _ _ b => b)
    (fun _ _ x y => (x, y))
    (fun src_dst _ => vrt bands src_dst).

Definition gray_env : Collaborators := env [ColorInterp.gray].

(** A view that carries an alpha band after its gray band. *)
Definition alpha_env : Collaborators := env [ColorInterp.gray; ColorInterp.alpha].

Definition small : Dataset := dataset 4 8 None.

Definition small_nodata : Dataset := dataset 4 8 (Some (NdInt 0)).

(** [{"add_alpha": True}] and [{"width": 256}]. *)
Definition add_alpha_override : gmap string pyval := <["add_alpha" := VBool true]> ∅.

Definition width_override : gmap string pyval := <["width" := VInt 256]> ∅.

(** Requested bounds that the dataset covers for one sixteenth. *)
Definition far_bounds : BBox :=
  mkBBox (PyFloat.of_int 5) (PyFloat.of_int 5) (PyFloat.of_int 25) (PyFloat.of_int 25).

(** Requested bounds of zero width. *)
Definition flat_bounds : BBox :=
  mkBBox (PyFloat.of_int 0) (PyFloat.of_int 0) (PyFloat.of_int 0) (PyFloat.of_int 10).

(** The centre of [bounds]. *)
Definition centre : spec_float * spec_float := (PyFloat.of_int 5, PyFloat.of_int 5).

(** A post-treatment of [point] that returns the mask it was given. *)
Definition expose_mask (data mask : ndarray scalar) : ndarray scalar * ndarray scalar :=
  (mask, mask).

(** A post-treatment of [read] that halves the mask. *)
Definition halve_mask (data : ndarray scalar) (mask : ndarray Z)
    : ndarray scalar * ndarray Z :=
  (data, amap (fun v => v / 2) mask).

(** A post-treatment of [read] that keeps the first item only. *)
Definition first_pixel (data : ndarray scalar) (mask : ndarray Z)
    : ndarray scalar * ndarray Z :=
  (mkArray [1; 1; 1] (take 1 (items data)), mkArray [1; 1] (take 1 (items mask))).

(** Post-treatments of [read] and of [point] that overwrite the data
    with the int 1. *)
Definition ones (data : ndarray scalar) (mask : ndarray Z)
    : ndarray scalar * ndarray Z :=
  (amap (fun _ => SInt 1) data, mask).

Definition point_ones (data mask : ndarray scalar)
    : ndarray scalar * ndarray scalar :=
  (amap (fun _ => SInt 1) data, mask).

(** [unscale=True], the other options at their defaults. *)
Definition unscale_options : ReadOptions :=
  mkReadOptions None true None true nearest None.

(** The default options with a post-treatment; [unscale=True] as well in
    the last one. *)
Definition halving_options : ReadOptions :=
  mkReadOptions None true None false nearest (Some halve_mask).

Definition cropping_options : ReadOptions :=
  mkReadOptions None true None false nearest (Some first_pixel).

Definition unscale_ones_options : ReadOptions :=
  mkReadOptions None true None true nearest (Some ones).

End Demo.

(** ** Notions used in the proofs about binary64 arithmetic *)

(** A mantissa of exactly 53 bits. *)
Definition normal53 (m : positive) : Prop := 2 ^ 52 <= Zpos m < 2 ^ 53.

(** The second, exact, pass of [binary_round_aux] on a mantissa that the
    first pass has brought to 53 bits, or to [2^53] by rounding up. *)
Definition renormalize (M e : Z) : spec_float :=
  if M =? 2 ^ 53 then S754_finite false (Z.to_pos (2 ^ 52)) (e + 1)
  else S754_finite false (Z.to_pos M) e.

(** The rounding position is not exact. *)
Definition inexact (l : location) : bool :=
  match l with
  | loc_Exact => false
  | loc_Inexact _ => true
  end.

(** Strictly negative, strictly positive. *)
Definition fneg (x : spec_float) : bool :=
  match x with
  | S754_finite true _ _ | S754_infinity true => true
  | _ => false
  end.

Definition fpos (x : spec_float) : bool :=
  match x with
  | S754_finite false _ _ | S754_infinity false => true
  | _ => false
  end.

(** Not a number. *)
Definition is_nan (x : spec_float) : bool :=
  match x with
  | S754_nan => true
  | _ => false
  end.

(** The value of a binary64 number that is not a NaN, in units of
    [2^-1074]; an infinity lies beyond every finite value. *)
Definition fval (x : spec_float) : Z :=
  match x with
  | S754_zero _ => 0
  | S754_finite s m e => cond_Zopp s (Zpos m * 2 ^ (e + 1074))
  | S754_infinity s => cond_Zopp s (2 ^ 2100)
  | S754_nan => 0
  end.

(** A well-formed binary64 number: every Python float is one. *)
Definition valid64 (x : spec_float) : bool := valid_binary 53 1024 x.

(** The four coordinates of a box are well-formed. *)
Definition bbox_valid (b : BBox) : bool :=
  valid64 (left b) && valid64 (bottom b) && valid64 (right b) && valid64 (top b).

(** ** Notions used in the further properties *)

(** The raster library returns one sample per requested band, and gives
    the dataset mask the output shape it is asked for. *)
Definition sample_per_index (env : Collaborators) : Prop :=
  forall src params xy indexes masked,
    length (items (ma_data (sample (WarpedVRT env src params) xy indexes masked)))
    = length indexes.

Definition honours_mask_shape (env : Collaborators) : Prop :=
  forall src params window h w r,
    shape (dataset_mask (WarpedVRT env src params) window (Some (h, w)) r) = [h; w].

(** A finite number: neither a zero, nor an infinity, nor a NaN. *)
Definition is_finite (x : spec_float) : bool :=
  match x with
  | S754_finite _ _ _ => true
  | _ => false
  end.

(** None of the four coordinates of a box is a NaN. *)
Definition bbox_numbers (b : BBox) : bool :=
  negb (is_nan (left b)) && negb (is_nan (bottom b))
  && negb (is_nan (right b)) && negb (is_nan (top b)).

(** The denominator of line 179: the area of the requested box. *)
Definition box_area (b : BBox) : spec_float :=
  PyFloat.mul (PyFloat.sub (right b) (left b)) (PyFloat.sub (top b) (bottom b)).

(** The boxes [s] and [b] share no area: along x or along y, the smaller
    of the two upper coordinates does not exceed the larger of the two
    lower ones. *)
Definition no_common_area (s b : BBox) : bool :=
  (Z.min (fval (right s)) (fval (right b)) <=? Z.max (fval (left s)) (fval (left b)))
  || (Z.min (fval (top s)) (fval (top b)) <=? Z.max (fval (bottom s)) (fval (bottom b))).

(** The same number, or a smaller one. *)
Definition not_above (x y : spec_float) : Prop := x = y \/ fval x < fval y.

(** The box [b] lies within the box [s]. *)
Definition box_within (b s : BBox) : Prop :=
  not_above (left s) (left b) /\ not_above (right b) (right s)
  /\ not_above (bottom s) (bottom b) /\ not_above (top b) (top s).

(** Inputs on which the further properties are run. *)
Module Cases.

(** A point on the left edge of [Demo.bounds]. *)
Definition edge : spec_float * spec_float := (PyFloat.of_int 0, PyFloat.of_int 5).

(** Requested bounds away from [Demo.bounds], and within them. *)
Definition outside_bounds : BBox :=
  mkBBox (PyFloat.of_int 20) (PyFloat.of_int 20) (PyFloat.of_int 30) (PyFloat.of_int 30).

Definition inner_bounds : BBox :=
  mkBBox (PyFloat.of_int 2) (PyFloat.of_int 2) (PyFloat.of_int 8) (PyFloat.of_int 8).

(** The threshold -1.0. *)
Definition minus_one : spec_float := PyFloat.of_int (-1).

(** A mask that holds 0 and 255 only. *)
Definition binary_pair : ndarray Z := mkArray [1; 2] [0; 255].

End Cases.

(** * Properties *)

(** ** Binary64 division of two normal numbers, compared with 1 *)

Lemma digits2_pos_bounds (p : positive) :
  2 ^ (Zpos (digits2_pos p) - 1) <= Zpos p < 2 ^ Zpos (digits2_pos p).
Proof.
  induction p as [p IH|p IH|]; simpl digits2_pos.
  - rewrite Pos2Z.inj_succ. replace (Z.succ (Zpos (digits2_pos p)) - 1) with (Z.succ (Zpos (digits2_pos p) - 1)) by lia.
    rewrite !Z.pow_succ_r by lia. lia.
  - rewrite Pos2Z.inj_succ. replace (Z.succ (Zpos (digits2_pos p)) - 1) with (Z.succ (Zpos (digits2_pos p) - 1)) by lia.
    rewrite !Z.pow_succ_r by lia. lia.
  - simpl. lia.
Qed.

Lemma digits2_pos_unique (p : positive) (k : Z) :
  2 ^ (k - 1) <= Zpos p < 2 ^ k -> Zpos (digits2_pos p) = k.
Proof.
  intros [Hl Hu]. pose proof (digits2_pos_bounds p) as [Hl' Hu'].
  assert (0 < k).
  { destruct (Z.lt_trichotomy k 0) as [Hk|[Hk|Hk]]; [|subst; simpl in Hu; lia|exact Hk].
    rewrite Z.pow_neg_r in Hu by lia. lia. }
  assert (Zpos (digits2_pos p) - 1 < k).
  { apply (Z.pow_lt_mono_r_iff 2); lia. }
  assert (k - 1 < Zpos (digits2_pos p)).
  { apply (Z.pow_lt_mono_r_iff 2); lia. }
  lia.
Qed.

Lemma Zpos_iter_xO (m k : positive) :
  Zpos (Pos.iter xO m k) = Zpos m * 2 ^ Zpos k.
Proof.
  revert m. induction k as [|k IH] using Pos.peano_ind; intros m.
  - simpl. lia.
  - rewrite Pos.iter_succ. rewrite Pos2Z.inj_succ, Z.pow_succ_r by lia.
    rewrite Pos2Z.inj_xO, IH. lia.
Qed.


Lemma normal53_digits m : normal53 m -> Zpos (digits2_pos m) = 53.
Proof. intros H. apply digits2_pos_unique. exact H. Qed.

Lemma binary_round_aux_exact s m e :
  normal53 m -> -1074 <= e <= 971 ->
  binary_round_aux 53 1024 s (Zpos m) e loc_Exact = S754_finite s m e.
Proof.
  intros Hm He. unfold binary_round_aux, shr_fexp. unfold Zdigits2.
  rewrite (normal53_digits m Hm).
  replace (fexp 53 1024 (53 + e) - e) with 0 by (unfold fexp, emin; lia).
  simpl shr. cbv beta iota. simpl shr_m. simpl loc_of_shr_record.
  simpl round_nearest_even. unfold Zdigits2. rewrite (normal53_digits m Hm).
  replace (fexp 53 1024 (53 + e) - e) with 0 by (unfold fexp, emin; lia).
  simpl. destruct (e <=? 1024 - 53) eqn:E; [reflexivity|]. apply Z.leb_gt in E. lia.
Qed.

Lemma of_int_normal z :
  0 < z < 2 ^ 53 ->
  exists m e,
    PyFloat.of_int z = S754_finite false m e
    /\ normal53 m /\ -52 <= e <= 0 /\ Zpos m = z * 2 ^ (- e).
Proof.
  intros Hz. destruct z as [|p|p]; try lia.
  unfold PyFloat.of_int, binary_normalize, binary_round.
  pose proof (digits2_pos_bounds p) as [Hl Hu].
  set (d := Zpos (digits2_pos p)) in *.
  assert (Hd : 1 <= d <= 53).
  { split; [unfold d; lia|].
    assert (d - 1 < 53); [|lia]. apply (Z.pow_lt_mono_r_iff 2); lia. }
  replace (fexp PyFloat.prec PyFloat.emax (d + 0)) with (d - 53)
    by (unfold fexp, emin, PyFloat.prec, PyFloat.emax; lia).
  unfold shl_align. destruct (d - 53 - 0) as [|k|k] eqn:Ek; try lia.
  - exists p, 0. assert (Hn : normal53 p).
    { unfold normal53. replace 52 with (d - 1) by lia. replace 53 with d by lia. lia. }
    split; [apply binary_round_aux_exact; [exact Hn|lia]|].
    split; [exact Hn|]. split; [lia|]. simpl. lia.
  - exists (Pos.iter xO p k), (d - 53).
    assert (Hk : Zpos k = 53 - d) by lia.
    assert (Hn : normal53 (Pos.iter xO p k)).
    { unfold normal53. rewrite Zpos_iter_xO, Hk.
      assert (H52 : 2 ^ 52 = 2 ^ (d - 1) * 2 ^ (53 - d)).
      { rewrite <- Z.pow_add_r by lia. f_equal. lia. }
      assert (H53 : 2 ^ 53 = 2 ^ d * 2 ^ (53 - d)).
      { rewrite <- Z.pow_add_r by lia. f_equal. lia. }
      rewrite H52, H53.
      assert (0 < 2 ^ (53 - d)) by (apply Z.pow_pos_nonneg; lia).
      split; [apply Z.mul_le_mono_nonneg_r; lia|apply Z.mul_lt_mono_pos_r; lia]. }
    split; [apply binary_round_aux_exact; [exact Hn|lia]|].
    split; [exact Hn|]. split; [lia|].
    rewrite Zpos_iter_xO, Hk. f_equal. f_equal. lia.
Qed.

Lemma shr_1_pos q r s :
  2 <= q ->
  shr_1 (Build_shr_record q r s) = Build_shr_record (q / 2) (Z.odd q) (r || s).
Proof.
  intros Hq. destruct q as [|p|p]; try lia.
  destruct p as [p|p|]; try lia; simpl shr_1; f_equal.
  - rewrite Pos2Z.inj_xI. apply Z.div_unique with 1; lia.
  - rewrite Pos2Z.inj_xO. apply Z.div_unique with 0; lia.
Qed.

Lemma loc_of_shr_record_of_loc m l : loc_of_shr_record (shr_record_of_loc m l) = l.
Proof. destruct l as [|[| |]]; reflexivity. Qed.

Lemma shr_m_of_loc m l : shr_m (shr_record_of_loc m l) = m.
Proof. destruct l as [|[| |]]; reflexivity. Qed.

Lemma Zdigits2_53 q : 2 ^ 52 <= q < 2 ^ 53 -> Zdigits2 q = 53.
Proof.
  intros H. destruct q as [|p|p]; try lia. simpl. apply digits2_pos_unique. exact H.
Qed.

Lemma Zdigits2_54 q : 2 ^ 53 <= q < 2 ^ 54 -> Zdigits2 q = 54.
Proof.
  intros H. destruct q as [|p|p]; try lia. simpl. apply digits2_pos_unique. exact H.
Qed.


Lemma second_pass M e :
  2 ^ 52 <= M <= 2 ^ 53 -> -1074 <= e <= 970 ->
  (let '(mrs, e') := shr_fexp 53 1024 M e loc_Exact in
   match shr_m mrs with
   | Z0 => S754_zero false
   | Zpos m => if e' <=? 1024 - 53 then S754_finite false m e' else S754_infinity false
   | Zneg _ => S754_nan
   end) = renormalize M e.
Proof.
  intros HM He. unfold renormalize, shr_fexp.
  destruct (M =? 2 ^ 53) eqn:E.
  - apply Z.eqb_eq in E. subst M. rewrite Zdigits2_54 by lia.
    replace (fexp 53 1024 (54 + e) - e) with 1 by (unfold fexp, emin; lia).
    unfold shr. simpl iter_pos. simpl shr_record_of_loc.
    rewrite shr_1_pos by lia. simpl shr_m.
    replace (2 ^ 53 / 2) with (2 ^ 52) by reflexivity.
    destruct (2 ^ 52) as [|p|p] eqn:Ep; try discriminate Ep.
    destruct (e + 1 <=? 1024 - 53) eqn:El; [reflexivity|]. apply Z.leb_gt in El. lia.
  - apply Z.eqb_neq in E. rewrite Zdigits2_53 by lia.
    replace (fexp 53 1024 (53 + e) - e) with 0 by (unfold fexp, emin; lia).
    unfold shr. simpl shr_record_of_loc. simpl shr_m.
    destruct M as [|p|p]; try lia. simpl Z.to_pos.
    destruct (e <=? 1024 - 53) eqn:El; [reflexivity|]. apply Z.leb_gt in El. lia.
Qed.

Lemma round_nearest_even_bounds m l :
  m <= round_nearest_even m l <= m + 1.
Proof.
  destruct l as [|[| |]]; simpl; try lia. destruct (Z.even m); lia.
Qed.


Lemma shr_1_of_loc q l :
  2 <= q ->
  shr_1 (shr_record_of_loc q l) = Build_shr_record (q / 2) (Z.odd q) (inexact l).
Proof.
  intros Hq. destruct l as [|[| |]]; simpl shr_record_of_loc;
    rewrite shr_1_pos by exact Hq; reflexivity.
Qed.

(** Rounding a quotient of 53 bits: no shift in the first pass. *)
Lemma binary_round_aux_53 q e l :
  2 ^ 52 <= q < 2 ^ 53 -> -1074 <= e <= 970 ->
  binary_round_aux 53 1024 false q e l = renormalize (round_nearest_even q l) e.
Proof.
  intros Hq He. unfold binary_round_aux. unfold shr_fexp at 1.
  rewrite Zdigits2_53 by exact Hq.
  replace (fexp 53 1024 (53 + e) - e) with 0 by (unfold fexp, emin; lia).
  unfold shr at 1. cbv beta iota.
  rewrite shr_m_of_loc, loc_of_shr_record_of_loc.
  apply second_pass; [|exact He].
  pose proof (round_nearest_even_bounds q l). lia.
Qed.

(** Rounding a quotient of 54 bits: one bit is shifted out. *)
Lemma binary_round_aux_54 q e l :
  2 ^ 53 <= q < 2 ^ 54 -> -1074 <= e <= 969 ->
  binary_round_aux 53 1024 false q e l
  = renormalize
      (round_nearest_even (q / 2)
         (loc_of_shr_record (Build_shr_record (q / 2) (Z.odd q) (inexact l))))
      (e + 1).
Proof.
  intros Hq He. unfold binary_round_aux. unfold shr_fexp at 1.
  rewrite Zdigits2_54 by exact Hq.
  replace (fexp 53 1024 (54 + e) - e) with 1 by (unfold fexp, emin; lia).
  unfold shr at 1. simpl iter_pos. rewrite shr_1_of_loc by lia.
  cbv beta iota. simpl shr_m.
  apply second_pass; [|lia].
  pose proof (round_nearest_even_bounds (q / 2)
                (loc_of_shr_record (Build_shr_record (q / 2) (Z.odd q) (inexact l)))).
  assert (2 ^ 52 <= q / 2 < 2 ^ 53).
  { split; [apply Z.div_le_lower_bound; lia|apply Z.div_lt_upper_bound; lia]. }
  lia.
Qed.

(** Comparison of 1.0 with a positive finite number. *)
Lemma ltb_one_finite m e :
  PyFloat.ltb (PyFloat.of_int 1) (S754_finite false m e)
  = (-52 <? e) || ((e =? -52) && (2 ^ 52 <? Zpos m)).
Proof.
  unfold PyFloat.ltb, SFltb.
  change (PyFloat.of_int 1) with (S754_finite false 4503599627370496 (-52)).
  change (2 ^ 52) with (Zpos 4503599627370496).
  unfold SFcompare.
  destruct (Z.compare_spec (-52) e) as [He|He|He].
  - subst e. rewrite Z.ltb_irrefl, Z.eqb_refl. cbn [orb andb].
    rewrite Pos.compare_cont_spec. cbn [Pos.switch_Eq].
    rewrite <- Pos2Z.inj_ltb. unfold Pos.ltb.
    destruct (4503599627370496 ?= m)%positive; reflexivity.
  - assert (H1 : (-52 <? e) = true) by (apply Z.ltb_lt; lia). rewrite H1. reflexivity.
  - assert (H1 : (-52 <? e) = false) by (apply Z.ltb_ge; lia).
    assert (H2 : (e =? -52) = false) by (apply Z.eqb_neq; lia).
    rewrite H1, H2. reflexivity.
Qed.

Lemma ltb_one_renormalize M e :
  2 ^ 52 <= M <= 2 ^ 53 ->
  PyFloat.ltb (PyFloat.of_int 1) (renormalize M e) = true
  <-> (-52 < e \/ (e = -52 /\ 2 ^ 52 < M)).
Proof.
  intros HM. unfold renormalize. destruct (M =? 2 ^ 53) eqn:E.
  - apply Z.eqb_eq in E. rewrite ltb_one_finite.
    rewrite Z2Pos.id by lia. rewrite Z.ltb_irrefl, andb_false_r, orb_false_r.
    rewrite Z.ltb_lt. lia.
  - apply Z.eqb_neq in E. rewrite ltb_one_finite.
    rewrite Z2Pos.id by lia.
    rewrite orb_true_iff, andb_true_iff, !Z.ltb_lt, Z.eqb_eq. lia.
Qed.

Lemma new_location_exact m : new_location m 0 = loc_Exact.
Proof. unfold new_location. destruct (Z.even m); reflexivity. Qed.

Lemma new_location_inexact m r : r <> 0 -> inexact (new_location m r) = true.
Proof.
  intros Hr. unfold new_location. apply Z.eqb_neq in Hr.
  destruct (Z.even m); unfold new_location_even, new_location_odd;
    rewrite Hr; reflexivity.
Qed.

Lemma new_location_above m r : 0 < r -> m < 2 * r -> new_location m r = loc_Inexact Gt.
Proof.
  intros Hr Hm. unfold new_location.
  assert (H0 : (r =? 0) = false) by (apply Z.eqb_neq; lia).
  destruct (Z.even m); unfold new_location_even, new_location_odd; rewrite H0.
  - assert (Hc : (2 * r ?= m) = Gt) by (apply Z.compare_gt_iff; lia). rewrite Hc. reflexivity.
  - assert (Hc : (2 * r + 1 ?= m) = Gt) by (apply Z.compare_gt_iff; lia). rewrite Hc. reflexivity.
Qed.

Lemma SFdiv_core_normal m1 e1 m2 e2 :
  normal53 m1 -> normal53 m2 -> -52 <= e1 <= 0 -> -52 <= e2 <= 0 ->
  SFdiv_core_binary 53 1024 (Zpos m1) e1 (Zpos m2) e2
  = (let '(q, r) := Z.div_eucl (Zpos m1 * 2 ^ 53) (Zpos m2) in
     (q, e1 - e2 - 53, new_location (Zpos m2) r)).
Proof.
  intros H1 H2 He1 He2. unfold SFdiv_core_binary. unfold Zdigits2.
  rewrite (normal53_digits m1 H1), (normal53_digits m2 H2).
  replace (Z.min (fexp 53 1024 (53 + e1 - (53 + e2))) (e1 - e2)) with (e1 - e2 - 53)
    by (unfold fexp, emin; lia).
  replace (e1 - e2 - (e1 - e2 - 53)) with 53 by lia.
  rewrite Z.shiftl_mul_pow2 by lia. reflexivity.
Qed.

(** The quotient of two normal binary64 numbers exceeds 1 exactly when
    the dividend exceeds the divisor. *)
Lemma div_normal_gt_one m1 e1 m2 e2 :
  normal53 m1 -> normal53 m2 -> -52 <= e1 <= 0 -> -52 <= e2 <= 0 ->
  PyFloat.ltb (PyFloat.of_int 1)
    (SFdiv 53 1024 (S754_finite false m1 e1) (S754_finite false m2 e2)) = true
  <-> (e2 < e1 \/ (e1 = e2 /\ Zpos m2 < Zpos m1)).
Proof.
  intros H1 H2 He1 He2. unfold SFdiv. rewrite (SFdiv_core_normal _ _ _ _ H1 H2 He1 He2).
  pose proof (Z_div_mod (Zpos m1 * 2 ^ 53) (Zpos m2) ltac:(lia)) as Hdiv.
  destruct (Z.div_eucl (Zpos m1 * 2 ^ 53) (Zpos m2)) as [q r].
  destruct Hdiv as [Heq Hr]. cbn [xorb].
  unfold normal53 in H1, H2.
  set (a := Zpos m1) in *. set (b := Zpos m2) in *.
  change (2 ^ 53) with 9007199254740992 in *.
  change (2 ^ 52) with 4503599627370496 in *.
  assert (Hq : 4503599627370496 <= q < 18014398509481984) by nia.
  destruct (Z_lt_le_dec q 9007199254740992) as [Hlt|Hge].
  - (* a quotient of 53 bits: the dividend has the smaller mantissa *)
    assert (Hab : a < b) by nia.
    change 9007199254740992 with (2 ^ 53) in *.
    change 4503599627370496 with (2 ^ 52) in *.
    rewrite binary_round_aux_53 by lia.
    pose proof (round_nearest_even_bounds q (new_location b r)) as HM.
    rewrite ltb_one_renormalize by lia.
    split.
    + intros [He|[He HMq]]; left; lia.
    + intros [He|[He Hba]]; [|lia].
      destruct (Z.eq_dec (e1 - e2) 1) as [E1|E1]; [|left; lia].
      right. split; [lia|].
      destruct (Z.eq_dec q (2 ^ 52)) as [Eq|Eq]; [|lia].
      rewrite new_location_above.
      * simpl round_nearest_even. lia.
      * change (2 ^ 53) with 9007199254740992 in *.
        change (2 ^ 52) with 4503599627370496 in *. lia.
      * change (2 ^ 53) with 9007199254740992 in *.
        change (2 ^ 52) with 4503599627370496 in *. lia.
  - (* a quotient of 54 bits *)
    assert (Hab : b <= a) by nia.
    change 9007199254740992 with (2 ^ 53) in *.
    change 4503599627370496 with (2 ^ 52) in *.
    rewrite binary_round_aux_54 by (change (2 ^ 54) with 18014398509481984; lia).
    set (l' := loc_of_shr_record
                 (Build_shr_record (q / 2) (Z.odd q) (inexact (new_location b r)))).
    pose proof (round_nearest_even_bounds (q / 2) l') as HM.
    assert (Hq2 : 2 ^ 52 <= q / 2 < 2 ^ 53).
    { split; [apply Z.div_le_lower_bound; lia|].
      apply Z.div_lt_upper_bound; [lia|]. change (2 * 2 ^ 53) with 18014398509481984. lia. }
    rewrite ltb_one_renormalize by lia.
    assert (Hkey : 2 ^ 52 < round_nearest_even (q / 2) l' <-> b < a).
    { split.
      - intros HMgt. destruct (Z.eq_dec a b) as [Eab|Eab]; [|lia]. exfalso.
        assert (q = 2 ^ 53 /\ r = 0) as [Eq Er].
        { change (2 ^ 53) with 9007199254740992 in *. nia. }
        subst q r. unfold l' in HMgt. rewrite new_location_exact in HMgt.
        vm_compute in HMgt. discriminate HMgt.
      - intros Hba.
        destruct (Z_lt_le_dec (2 ^ 52) (q / 2)) as [Hbig|Hsmall]; [lia|].
        assert (Eq2 : q / 2 = 2 ^ 52) by lia.
        assert (Hq1 : q = 2 ^ 53 + 1).
        { pose proof (Z.div_mod q 2 ltac:(lia)) as Hdm.
          pose proof (Z.mod_pos_bound q 2 ltac:(lia)) as Hmb.
          change (2 ^ 53) with 9007199254740992 in *.
          change (2 ^ 52) with 4503599627370496 in *.
          assert (9007199254740992 < q) by nia. lia. }
        assert (Hr0 : r <> 0).
        { change (2 ^ 53) with 9007199254740992 in *. intros ->. nia. }
        unfold l'. rewrite (new_location_inexact b r Hr0). rewrite Hq1.
        replace ((2 ^ 53 + 1) / 2) with (2 ^ 52) by reflexivity.
        simpl. lia. }
    split.
    + intros [He|[He HMq]]; [left; lia|]. right. split; [lia|]. apply Hkey. exact HMq.
    + intros [He|[He Hba]]; [left; lia|]. right. split; [lia|]. apply Hkey. exact Hba.
Qed.

(** Two positive ints scaled to 53 bits: the one that needs the larger
    scaling is the smaller. *)
Lemma normal_scale_lt a b x y :
  0 < b -> x < y -> y <= 0 ->
  a * 2 ^ (- x) < 2 ^ 53 -> 2 ^ 52 <= b * 2 ^ (- y) -> a < b.
Proof.
  intros Hb Hxy Hy Ha Hbm.
  assert (Hp : 2 ^ (- x) = 2 ^ (- y) * 2 ^ (y - x)).
  { rewrite <- Z.pow_add_r by lia. f_equal. lia. }
  assert (Ht : 2 <= 2 ^ (y - x)).
  { change 2 with (2 ^ 1) at 1. apply Z.pow_le_mono_r; lia. }
  assert (Hky : 0 < 2 ^ (- y)) by (apply Z.pow_pos_nonneg; lia).
  assert (Hkx : 0 < 2 ^ (- x)) by (apply Z.pow_pos_nonneg; lia).
  apply (Z.mul_lt_mono_pos_r (2 ^ (- x))); [exact Hkx|].
  apply Z.lt_le_trans with (2 ^ 53); [exact Ha|].
  rewrite Hp, Z.mul_assoc.
  change (2 ^ 53) with (2 ^ 52 * 2).
  apply Z.mul_le_mono_nonneg; lia.
Qed.

Lemma normal_order h w m1 e1 m2 e2 :
  0 < h -> 0 < w ->
  normal53 m1 -> normal53 m2 -> -52 <= e1 <= 0 -> -52 <= e2 <= 0 ->
  Zpos m1 = h * 2 ^ (- e1) -> Zpos m2 = w * 2 ^ (- e2) ->
  (e2 < e1 \/ (e1 = e2 /\ Zpos m2 < Zpos m1)) <-> w < h.
Proof.
  intros Hh Hw H1 H2 He1 He2 E1 E2. unfold normal53 in *. rewrite E1, E2 in *.
  split.
  - intros [He|[He Hm]].
    + apply (normal_scale_lt w h e2 e1); lia.
    + subst e2. apply (Z.mul_lt_mono_pos_r (2 ^ (- e1))); [|exact Hm].
      apply Z.pow_pos_nonneg; lia.
  - intros Hlt. destruct (Z.lt_trichotomy e1 e2) as [He|[He|He]].
    + exfalso. assert (h < w) by (apply (normal_scale_lt h w e1 e2); lia). lia.
    + right. split; [exact He|]. subst e2.
      apply Z.mul_lt_mono_pos_r; [apply Z.pow_pos_nonneg; lia|exact Hlt].
    + left. exact He.
Qed.

Lemma ltb_one_not_zero x :
  PyFloat.ltb (PyFloat.of_int 1) x = true -> SFeqb x PyFloat.zero = false.
Proof.
  unfold PyFloat.ltb, SFltb.
  change (PyFloat.of_int 1) with (S754_finite false 4503599627370496 (-52)).
  destruct x as [s|s| |s m e]; try destruct s; cbn; intros H;
    try discriminate H; reflexivity.
Qed.

(** The ratio [h / w] of two positive ints below [2^53] is computed
    without exception and exceeds 1 exactly when [h > w]. *)
Lemma int_ratio_gt_one h w :
  0 < h < 2 ^ 53 -> 0 < w < 2 ^ 53 ->
  exists ratio,
    PyFloat.truediv (PyFloat.of_int h) (PyFloat.of_int w) = Ok ratio
    /\ (PyFloat.ltb (PyFloat.of_int 1) ratio = true <-> w < h).
Proof.
  intros Hh Hw.
  destruct (of_int_normal h Hh) as (m1 & e1 & E1 & N1 & B1 & V1).
  destruct (of_int_normal w Hw) as (m2 & e2 & E2 & N2 & B2 & V2).
  rewrite E1, E2. unfold PyFloat.truediv. cbn [SFeqb SFcompare PyFloat.zero].
  eexists. split; [reflexivity|].
  unfold PyFloat.prec, PyFloat.emax.
  rewrite (div_normal_gt_one m1 e1 m2 e2 N1 N2 B1 B2).
  apply (normal_order h w m1 e1 m2 e2); try assumption; lia.
Qed.

(** ** Signs and order of binary64 numbers *)

Lemma ltb_zero_fpos x : PyFloat.ltb PyFloat.zero x = fpos x.
Proof. destruct x as [s|[|]| |[|] m e]; reflexivity. Qed.

Lemma ltb_zero_fneg x : PyFloat.ltb x PyFloat.zero = fneg x.
Proof. destruct x as [s|[|]| |[|] m e]; reflexivity. Qed.

Lemma ltb_neg_zero_fneg x : PyFloat.ltb x (S754_zero true) = fneg x.
Proof. destruct x as [s|[|]| |[|] m e]; reflexivity. Qed.

Lemma binary_round_aux_sign s m e l :
  match binary_round_aux 53 1024 s m e l with
  | S754_finite s' _ _ | S754_infinity s' | S754_zero s' => s' = s
  | S754_nan => True
  end.
Proof.
  unfold binary_round_aux.
  destruct (shr_fexp 53 1024 m e l) as [mrs' e'].
  destruct (shr_fexp 53 1024 _ e' loc_Exact) as [mrs'' e''].
  destruct (shr_m mrs''); [reflexivity| |exact I].
  destruct (e'' <=? 1024 - 53); reflexivity.
Qed.

Lemma binary_round_aux_not_fneg m e l : fneg (binary_round_aux 53 1024 false m e l) = false.
Proof.
  pose proof (binary_round_aux_sign false m e l) as H.
  destruct (binary_round_aux 53 1024 false m e l) as [s|s| |s m' e']; try reflexivity;
    subst; reflexivity.
Qed.

Lemma binary_round_aux_not_fpos m e l : fpos (binary_round_aux 53 1024 true m e l) = false.
Proof.
  pose proof (binary_round_aux_sign true m e l) as H.
  destruct (binary_round_aux 53 1024 true m e l) as [s|s| |s m' e']; try reflexivity;
    subst; reflexivity.
Qed.

(** Products and quotients of numbers that are not negative. *)
Lemma mul_not_fneg x y :
  fneg x = false -> fneg y = false -> fneg (PyFloat.mul x y) = false.
Proof.
  unfold PyFloat.mul, SFmul.
  destruct x as [[|]|[|]| |[|] mx ex], y as [[|]|[|]| |[|] my ey];
    try reflexivity; try discriminate; intros _ _; cbn [xorb].
  apply binary_round_aux_not_fneg.
Qed.

Lemma mul_fpos x y :
  fneg x = false -> fneg y = false -> fpos (PyFloat.mul x y) = true ->
  fpos x = true /\ fpos y = true.
Proof.
  unfold PyFloat.mul, SFmul.
  destruct x as [[|]|[|]| |[|] mx ex], y as [[|]|[|]| |[|] my ey];
    try discriminate; intros _ _ H; split; reflexivity.
Qed.

Lemma truediv_not_fneg x y r :
  PyFloat.truediv x y = Ok r ->
  fneg x = false -> fneg y = false -> fneg r = false.
Proof.
  unfold PyFloat.truediv. destruct (SFeqb y PyFloat.zero) eqn:Ez; [discriminate|].
  intros H. inversion H as [Hr]. clear H Hr. unfold SFdiv.
  destruct x as [[|]|[|]| |[|] mx ex], y as [[|]|[|]| |[|] my ey];
    try reflexivity; try discriminate; intros _ _; cbn [xorb].
  destruct (SFdiv_core_binary PyFloat.prec PyFloat.emax (Z.pos mx) ex (Z.pos my) ey)
    as [[mz ez] lz].
  apply binary_round_aux_not_fneg.
Qed.

Lemma truediv_zero_not_fneg x y r :
  PyFloat.truediv x y = Ok r ->
  fneg x = false -> fpos x = false -> fneg r = false.
Proof.
  unfold PyFloat.truediv. destruct (SFeqb y PyFloat.zero) eqn:Ez; [discriminate|].
  intros H. inversion H as [Hr]. clear H Hr. unfold SFdiv.
  destruct x as [[|]|[|]| |[|] mx ex], y as [[|]|[|]| |[|] my ey];
    try reflexivity; try discriminate.
Qed.

(** What validity says of a finite number. *)
Lemma bounded_facts m e :
  bounded 53 1024 m e = true ->
  -1074 <= e <= 971 /\ Zpos m < 2 ^ 53 /\ (-1074 < e -> 2 ^ 52 <= Zpos m).
Proof.
  unfold bounded, canonical_mantissa, fexp, emin. intros H.
  apply andb_true_iff in H as [Hc He]. apply Z.eqb_eq in Hc. apply Z.leb_le in He.
  pose proof (digits2_pos_bounds m) as [Hl Hu].
  set (d := Zpos (digits2_pos m)) in *.
  assert (Hd : 1 <= d <= 53) by (unfold d; lia).
  split; [lia|]. split.
  - apply Z.lt_le_trans with (2 ^ d); [exact Hu|]. apply Z.pow_le_mono_r; lia.
  - intros Hgt. assert (d = 53) by lia. replace 52 with (d - 1) by lia. exact Hl.
Qed.

Lemma pow2_pos k : 0 <= k -> 0 < 2 ^ k.
Proof. intros. apply Z.pow_pos_nonneg; lia. Qed.

(** A valid finite number with the smaller exponent is the smaller. *)
Lemma finite_lt_exp m1 e1 m2 e2 :
  bounded 53 1024 m1 e1 = true -> bounded 53 1024 m2 e2 = true -> e1 < e2 ->
  Zpos m1 * 2 ^ (e1 + 1074) < Zpos m2 * 2 ^ (e2 + 1074).
Proof.
  intros H1 H2 He.
  destruct (bounded_facts m1 e1 H1) as (B1 & U1 & _).
  destruct (bounded_facts m2 e2 H2) as (B2 & _ & L2).
  specialize (L2 ltac:(lia)).
  assert (Hp : 2 ^ (e2 + 1074) = 2 ^ (e1 + 1074) * 2 ^ (e2 - e1)).
  { rewrite <- Z.pow_add_r by lia. f_equal. lia. }
  assert (Ht : 2 <= 2 ^ (e2 - e1)).
  { change 2 with (2 ^ 1) at 1. apply Z.pow_le_mono_r; lia. }
  assert (Hk : 0 < 2 ^ (e1 + 1074)) by (apply pow2_pos; lia).
  rewrite Hp.
  apply Z.lt_le_trans with (2 ^ 53 * 2 ^ (e1 + 1074)).
  - apply Z.mul_lt_mono_pos_r; assumption.
  - rewrite (Z.mul_comm (2 ^ (e1 + 1074))), Z.mul_assoc.
    apply Z.mul_le_mono_nonneg_r; [lia|].
    change (2 ^ 53) with (2 ^ 52 * 2). apply Z.mul_le_mono_nonneg; lia.
Qed.

Lemma finite_bounds m e :
  bounded 53 1024 m e = true -> 0 < Zpos m * 2 ^ (e + 1074) < 2 ^ 2100.
Proof.
  intros H. destruct (bounded_facts m e H) as (B & U & _).
  assert (Hk : 0 < 2 ^ (e + 1074)) by (apply pow2_pos; lia).
  split; [apply Z.mul_pos_pos; lia|].
  apply Z.lt_le_trans with (2 ^ 53 * 2 ^ (e + 1074)).
  - apply Z.mul_lt_mono_pos_r; assumption.
  - rewrite <- Z.pow_add_r by lia. apply Z.pow_le_mono_r; lia.
Qed.

(** On valid numbers the comparison of the program follows the values. *)
Lemma ltb_of_fval_lt x y :
  valid64 x = true -> valid64 y = true -> is_nan x = false -> is_nan y = false ->
  fval x < fval y -> PyFloat.ltb x y = true.
Proof.
  unfold valid64, valid_binary, PyFloat.ltb, SFltb.
  destruct x as [sx|sx| |sx mx ex], y as [sy|sy| |sy my ey]; try discriminate;
    intros Vx Vy _ _ H; cbn [fval] in H;
    try (pose proof (finite_bounds mx ex Vx) as Bx);
    try (pose proof (finite_bounds my ey Vy) as By).
  - destruct sy; cbn [cond_Zopp] in H; [lia|reflexivity].
  - destruct sy; cbn [cond_Zopp] in H; [lia|reflexivity].
  - destruct sx; cbn [cond_Zopp] in H; [reflexivity|lia].
  - destruct sx, sy; cbn [cond_Zopp] in H; try reflexivity; lia.
  - destruct sx; cbn [cond_Zopp] in H; [reflexivity|].
    destruct sy; cbn [cond_Zopp] in H; lia.
  - destruct sx; cbn [cond_Zopp] in H; [reflexivity|lia].
  - destruct sy; cbn [cond_Zopp] in H; [|reflexivity].
    destruct sx; cbn [cond_Zopp] in H; lia.
  - destruct sx, sy; cbn [cond_Zopp SFcompare] in *; try reflexivity; try lia.
    + (* two negative numbers *)
      destruct (Z.compare_spec ex ey) as [He|He|He].
      * subst ey. rewrite Pos.compare_cont_spec. cbn [Pos.switch_Eq].
        assert (Hk : 0 < 2 ^ (ex + 1074)) by lia.
        assert (Hm : Zpos my < Zpos mx).
        { apply (Z.mul_lt_mono_pos_r (2 ^ (ex + 1074))); lia. }
        assert (Hc : (mx ?= my)%positive = Gt) by (apply Pos.compare_gt_iff; lia).
        rewrite Hc. reflexivity.
      * pose proof (finite_lt_exp mx ex my ey Vx Vy He). lia.
      * reflexivity.
    + (* two positive numbers *)
      destruct (Z.compare_spec ex ey) as [He|He|He].
      * subst ey. rewrite Pos.compare_cont_spec. cbn [Pos.switch_Eq].
        assert (Hk : 0 < 2 ^ (ex + 1074)) by lia.
        assert (Hm : Zpos mx < Zpos my).
        { apply (Z.mul_lt_mono_pos_r (2 ^ (ex + 1074))); lia. }
        assert (Hc : (mx ?= my)%positive = Lt) by (apply Pos.compare_lt_iff; lia).
        rewrite Hc. reflexivity.
      * reflexivity.
      * pose proof (finite_lt_exp my ey mx ex Vy Vx He). lia.
Qed.

Lemma shl_align_value m e e' :
  e' <= e -> Zpos (fst (shl_align m e e')) = Zpos m * 2 ^ (e - e').
Proof.
  intros He. unfold shl_align. destruct (e' - e) as [|d|d] eqn:Ed; try lia.
  - replace (e - e') with 0 by lia. simpl. lia.
  - simpl fst. rewrite Zpos_iter_xO. f_equal. f_equal. lia.
Qed.

(** The difference of two finite numbers, before rounding: an integer
    multiple of [2^(min ex ey)] with the sign of the exact difference. *)
Lemma aligned_difference sx mx ex sy my ey :
  -1074 <= ex -> -1074 <= ey ->
  (cond_Zopp sx (Zpos (fst (shl_align mx ex (Z.min ex ey))))
   - cond_Zopp sy (Zpos (fst (shl_align my ey (Z.min ex ey)))))
  * 2 ^ (Z.min ex ey + 1074)
  = fval (S754_finite sx mx ex) - fval (S754_finite sy my ey).
Proof.
  intros Hx Hy. rewrite !shl_align_value by lia. cbn [fval].
  assert (Px : 2 ^ (ex + 1074) = 2 ^ (ex - Z.min ex ey) * 2 ^ (Z.min ex ey + 1074)).
  { rewrite <- Z.pow_add_r by lia. f_equal. lia. }
  assert (Py : 2 ^ (ey + 1074) = 2 ^ (ey - Z.min ex ey) * 2 ^ (Z.min ex ey + 1074)).
  { rewrite <- Z.pow_add_r by lia. f_equal. lia. }
  rewrite Px, Py. destruct sx, sy; cbn [cond_Zopp]; ring.
Qed.

Lemma binary_normalize_sign D e :
  (fpos (binary_normalize 53 1024 D e false) = true -> 0 < D)
  /\ (0 <= D -> fneg (binary_normalize 53 1024 D e false) = false).
Proof.
  unfold binary_normalize, binary_round. destruct D as [|p|p].
  - split; [discriminate|reflexivity].
  - split; [lia|]. intros _.
    destruct (shl_align p e _) as [mz ez]. apply binary_round_aux_not_fneg.
  - split; [|lia]. intros H. exfalso.
    destruct (shl_align p e _) as [mz ez].
    rewrite binary_round_aux_not_fpos in H. discriminate H.
Qed.

(** The sign of a difference follows the values. *)
Lemma sub_sign x y :
  valid64 x = true -> valid64 y = true ->
  (fpos (PyFloat.sub x y) = true ->
   is_nan x = false /\ is_nan y = false /\ fval y < fval x)
  /\ (is_nan x = false -> is_nan y = false -> fval y <= fval x ->
      fneg (PyFloat.sub x y) = false).
Proof.
  unfold valid64, valid_binary, PyFloat.sub, SFsub.
  destruct x as [sx|sx| |sx mx ex], y as [sy|sy| |sy my ey]; intros Vx Vy;
    try (pose proof (finite_bounds mx ex Vx) as Bx);
    try (pose proof (finite_bounds my ey Vy) as By);
    try (split; [discriminate|intros; (reflexivity || discriminate)]).
  - destruct sx, sy; cbn [fval cond_Zopp fpos fneg];
      (split; [discriminate|reflexivity]).
  - destruct sy; cbn [fval cond_Zopp fpos fneg negb];
      (split; [intros; repeat split; (reflexivity || discriminate || lia)
              |intros; (reflexivity || lia)]).
  - destruct sy; cbn [fval cond_Zopp fpos fneg negb];
      (split; [intros; repeat split; (reflexivity || discriminate || lia)
              |intros; (reflexivity || lia)]).
  - destruct sx; cbn [fval cond_Zopp fpos fneg];
      (split; [intros; repeat split; (reflexivity || discriminate || lia)
              |intros; (reflexivity || lia)]).
  - destruct sx, sy; cbn [fval cond_Zopp fpos fneg];
      (split; [intros; repeat split; (reflexivity || discriminate || lia)
              |intros; (reflexivity || lia)]).
  - destruct sx; cbn [fval cond_Zopp fpos fneg];
      (split; [intros; repeat split; (reflexivity || discriminate || destruct sy; cbn [cond_Zopp]; lia)
              |intros; (reflexivity || (destruct sy; cbn [cond_Zopp] in *; lia))]).
  - destruct sx; cbn [fval cond_Zopp fpos fneg];
      (split; [intros; repeat split; (reflexivity || discriminate || lia)
              |intros; (reflexivity || lia)]).
  - destruct sy; cbn [fval cond_Zopp fpos fneg negb];
      (split; [intros; repeat split; (reflexivity || discriminate || destruct sx; cbn [cond_Zopp]; lia)
              |intros; (reflexivity || (destruct sx; cbn [cond_Zopp] in *; lia))]).
  - destruct (bounded_facts mx ex Vx) as (Ex & _ & _).
    destruct (bounded_facts my ey Vy) as (Ey & _ & _).
    pose proof (aligned_difference sx mx ex sy my ey ltac:(lia) ltac:(lia)) as Hd.
    set (D := cond_Zopp sx (Zpos (fst (shl_align mx ex (Z.min ex ey))))
              - cond_Zopp sy (Zpos (fst (shl_align my ey (Z.min ex ey))))) in *.
    assert (Hk : 0 < 2 ^ (Z.min ex ey + 1074)) by (apply pow2_pos; lia).
    destruct (binary_normalize_sign D (Z.min ex ey)) as [Hpos Hneg].
    split.
    + intros H. apply Hpos in H. repeat split; try reflexivity.
      assert (0 < D * 2 ^ (Z.min ex ey + 1074)) by (apply Z.mul_pos_pos; lia). lia.
    + intros _ _ H. apply Hneg.
      destruct (Z_lt_le_dec D 0) as [Hlt|Hge]; [|exact Hge]. exfalso.
      assert (D * 2 ^ (Z.min ex ey + 1074) < 0) by (apply Z.mul_neg_pos; lia). lia.
Qed.

Lemma sub_nan_not_fneg x y :
  is_nan x = true \/ is_nan y = true -> fneg (PyFloat.sub x y) = false.
Proof.
  unfold PyFloat.sub, SFsub.
  destruct x as [sx|sx| |sx mx ex], y as [sy|sy| |sy my ey];
    intros [H|H]; try discriminate H; reflexivity.
Qed.

Lemma fval_le_of_not_ltb x y :
  valid64 x = true -> valid64 y = true -> is_nan x = false -> is_nan y = false ->
  PyFloat.ltb x y = false -> fval y <= fval x.
Proof.
  intros Vx Vy Nx Ny H. destruct (Z_lt_le_dec (fval x) (fval y)) as [Hlt|Hle]; [|exact Hle].
  rewrite (ltb_of_fval_lt x y Vx Vy Nx Ny Hlt) in H. discriminate H.
Qed.

(** One axis of lines 172-177: if the overlap is positive, the extent of
    the requested bounds is not negative. *)
Lemma overlap_axis s0 s2 b0 b2 :
  valid64 s0 = true -> valid64 s2 = true -> valid64 b0 = true -> valid64 b2 = true ->
  fpos (PyFloat.max PyFloat.zero
          (PyFloat.sub (PyFloat.min s2 b2) (PyFloat.max s0 b0))) = true ->
  fneg (PyFloat.sub b2 b0) = false.
Proof.
  intros Vs0 Vs2 Vb0 Vb2 H.
  set (a := PyFloat.min s2 b2) in *. set (c := PyFloat.max s0 b0) in *.
  assert (Hv : fpos (PyFloat.sub a c) = true).
  { unfold PyFloat.max in H at 1. destruct (PyFloat.ltb PyFloat.zero _); [exact H|discriminate H]. }
  clear H.
  assert (Va : valid64 a = true) by (unfold a, PyFloat.min; destruct (PyFloat.ltb b2 s2); assumption).
  assert (Vc : valid64 c = true) by (unfold c, PyFloat.max; destruct (PyFloat.ltb s0 b0); assumption).
  destruct (sub_sign a c Va Vc) as [Hpos _].
  destruct (Hpos Hv) as (Na & Nc & Hac).
  destruct (is_nan b2) eqn:Nb2; [apply sub_nan_not_fneg; left; exact Nb2|].
  destruct (is_nan b0) eqn:Nb0; [apply sub_nan_not_fneg; right; exact Nb0|].
  assert (Ha : fval a <= fval b2).
  { unfold a, PyFloat.min in *. destruct (PyFloat.ltb b2 s2) eqn:E; [lia|].
    apply fval_le_of_not_ltb; assumption. }
  assert (Hc : fval b0 <= fval c).
  { unfold c, PyFloat.max in *. destruct (PyFloat.ltb s0 b0) eqn:E; [lia|].
    apply fval_le_of_not_ltb; assumption. }
  destruct (sub_sign b2 b0 Vb2 Vb0) as [_ Hneg]. apply Hneg; [exact Nb2|exact Nb0|lia].
Qed.

Lemma max_zero_not_fneg v : fneg (PyFloat.max PyFloat.zero v) = false.
Proof.
  unfold PyFloat.max. rewrite ltb_zero_fpos.
  destruct v as [s|[|]| |[|] m e]; reflexivity.
Qed.

(** Lines 172-180: on valid bounds the cover ratio is never negative. *)
Lemma cover_ratio_not_negative src_bounds bounds r :
  bbox_valid src_bounds = true -> bbox_valid bounds = true ->
  cover_ratio src_bounds bounds = Ok r -> fneg r = false.
Proof.
  unfold bbox_valid. intros Vs Vb.
  apply andb_true_iff in Vs as [Vs Vs3]. apply andb_true_iff in Vs as [Vs Vs2].
  apply andb_true_iff in Vs as [Vs0 Vs1].
  apply andb_true_iff in Vb as [Vb Vb3]. apply andb_true_iff in Vb as [Vb Vb2].
  apply andb_true_iff in Vb as [Vb0 Vb1].
  unfold cover_ratio.
  set (xo := PyFloat.max PyFloat.zero
               (PyFloat.sub (PyFloat.min (right src_bounds) (right bounds))
                            (PyFloat.max (left src_bounds) (left bounds)))).
  set (yo := PyFloat.max PyFloat.zero
               (PyFloat.sub (PyFloat.min (top src_bounds) (top bounds))
                            (PyFloat.max (bottom src_bounds) (bottom bounds)))).
  intros Hr.
  assert (Nx : fneg xo = false) by apply max_zero_not_fneg.
  assert (Ny : fneg yo = false) by apply max_zero_not_fneg.
  pose proof (mul_not_fneg xo yo Nx Ny) as Nn.
  destruct (fpos (PyFloat.mul xo yo)) eqn:Pn.
  - destruct (mul_fpos xo yo Nx Ny Pn) as [Px Py].
    apply (truediv_not_fneg _ _ _ Hr Nn). apply mul_not_fneg.
    + apply (overlap_axis (left src_bounds) (right src_bounds)); assumption.
    + apply (overlap_axis (bottom src_bounds) (top src_bounds)); assumption.
  - exact (truediv_zero_not_fneg _ _ _ Hr Nn Pn).
Qed.

(** A threshold that fails the test [if minimum_overlap:] is a zero, and
    no cover ratio is below it. *)
Lemma falsy_threshold_not_below src_bounds bounds t r :
  PyFloat.truthy t = false ->
  bbox_valid src_bounds = true -> bbox_valid bounds = true ->
  cover_ratio src_bounds bounds = Ok r -> PyFloat.ltb r t = false.
Proof.
  intros Ht Vs Vb Hr. pose proof (cover_ratio_not_negative _ _ _ Vs Vb Hr) as Hn.
  unfold PyFloat.truthy in Ht. apply negb_false_iff in Ht.
  destruct t as [[|]|st| |st mt et]; try discriminate Ht;
    try (destruct st; discriminate Ht).
  - rewrite ltb_neg_zero_fneg. exact Hn.
  - rewrite ltb_zero_fneg. exact Hn.
Qed.

(** ** The keyword dictionary of the warped view *)

Lemma lookup_dict_update (d e : gmap string pyval) (k : string) :
  dict_update d e !! k = match e !! k with Some v => Some v | None => d !! k end.
Proof.
  unfold dict_update. rewrite lookup_union.
  destruct (e !! k), (d !! k); reflexivity.
Qed.

Lemma dict_truthy_false_empty (o : gmap string pyval) :
  dict_truthy (Some o) = false -> o = ∅.
Proof.
  unfold dict_truthy. intros H. apply negb_false_iff, Nat.eqb_eq in H.
  by apply map_size_empty_iff.
Qed.

(** [read] and [point] build the dictionary with the same statements. *)
Lemma point_vrt_params_eq env src nd rm vo :
  point_vrt_params env src nd rm vo = read_vrt_params env src nd rm vo.
Proof. reflexivity. Qed.

(** The overrides are merged last: a key they hold wins, any other key
    keeps the value computed without them. *)
Lemma read_vrt_params_lookup env src nd rm vo k :
  read_vrt_params env src nd rm vo !! k =
  match vo with
  | Some o =>
      match o !! k with
      | Some v => Some v
      | None => read_vrt_params env src nd rm None !! k
      end
  | None => read_vrt_params env src nd rm None !! k
  end.
Proof.
  destruct vo as [o|]; [|reflexivity].
  unfold read_vrt_params at 1.
  destruct (dict_truthy (Some o)) eqn:Ht.
  - rewrite lookup_dict_update. reflexivity.
  - apply dict_truthy_false_empty in Ht. subst o.
    rewrite lookup_empty. reflexivity.
Qed.

(** Without overrides the policy of lines 61-67 keeps [add_alpha] and an
    active nodata apart. *)
Lemma read_vrt_params_computed env src nd rm :
  add_alpha_set (read_vrt_params env src nd rm None)
  && nodata_active (read_vrt_params env src nd rm None) = false.
Proof.
  unfold read_vrt_params, add_alpha_set, nodata_active.
  destruct nd as [n|]; [|destruct (ds_nodata src) as [n|]];
    destruct (has_alpha_band env src);
    rewrite ?lookup_dict_update; simplify_map_eq; reflexivity.
Qed.

(** C1, as stated, fails: with a nodata value of 0 and the raw override
    [{"add_alpha": True}], the dictionary given to the warped view by
    [read] and by [point] has [add_alpha] set together with an active
    nodata. *)
Lemma vrt_params_overrides_break_exclusion :
  (add_alpha_set
     (read_vrt_params Demo.gray_env Demo.small (Some (NdInt 0)) nearest
        (Some Demo.add_alpha_override))
   && nodata_active
        (read_vrt_params Demo.gray_env Demo.small (Some (NdInt 0)) nearest
           (Some Demo.add_alpha_override)) = true)
  /\ (add_alpha_set
        (point_vrt_params Demo.gray_env Demo.small (Some (NdInt 0)) nearest
           (Some Demo.add_alpha_override))
      && nodata_active
           (point_vrt_params Demo.gray_env Demo.small (Some (NdInt 0)) nearest
              (Some Demo.add_alpha_override)) = true).
Proof. split; vm_compute; reflexivity. Qed.

(** C1, amended: when the caller's raw overrides are neutral (absent, or
    setting neither a truthy [add_alpha] nor a nodata value), the
    dictionary built by [read] and by [point] never has [add_alpha] set
    together with an active nodata; in particular this holds for the
    policy itself, before any override is merged. *)
Theorem vrt_params_exclusive env src nd rm vo :
  overrides_neutral vo = true ->
  (add_alpha_set (read_vrt_params env src nd rm vo)
   && nodata_active (read_vrt_params env src nd rm vo) = false)
  /\ (add_alpha_set (point_vrt_params env src nd rm vo)
      && nodata_active (point_vrt_params env src nd rm vo) = false).
Proof.
  intros Hn.
  assert (H : add_alpha_set (read_vrt_params env src nd rm vo)
              && nodata_active (read_vrt_params env src nd rm vo) = false);
    [|split; [|rewrite point_vrt_params_eq]; exact H].
  pose proof (read_vrt_params_computed env src nd rm) as Hc.
  destruct vo as [o|]; [|exact Hc].
  unfold overrides_neutral in Hn. apply andb_true_iff in Hn as [Ha Hd].
  apply negb_true_iff in Ha, Hd.
  unfold add_alpha_set, nodata_active in *.
  rewrite (read_vrt_params_lookup env src nd rm (Some o) "add_alpha"),
    (read_vrt_params_lookup env src nd rm (Some o) "nodata").
  destruct (o !! "add_alpha") as [va|] eqn:Ea.
  - rewrite Ha. reflexivity.
  - destruct (o !! "nodata") as [vn|] eqn:En.
    + destruct vn; simpl in Hd; try discriminate Hd. apply andb_false_r.
    + exact Hc.
Qed.

Lemma vrt_params_exclusive_witness :
  overrides_neutral (Some Demo.width_override) = true
  /\ (add_alpha_set
        (read_vrt_params Demo.gray_env Demo.small_nodata None nearest
           (Some Demo.width_override))
      && nodata_active
           (read_vrt_params Demo.gray_env Demo.small_nodata None nearest
              (Some Demo.width_override)) = false)
  /\ (add_alpha_set
        (point_vrt_params Demo.gray_env Demo.small_nodata None nearest
           (Some Demo.width_override))
      && nodata_active
           (point_vrt_params Demo.gray_env Demo.small_nodata None nearest
              (Some Demo.width_override)) = false).
Proof.
  assert (H : overrides_neutral (Some Demo.width_override) = true)
    by (vm_compute; reflexivity).
  split; [exact H|].
  exact (vrt_params_exclusive Demo.gray_env Demo.small_nodata None nearest
           (Some Demo.width_override) H).
Defined.

(** ** Which exceptions the stages can raise *)

Ltac run_bind := unfold mbind, result_bind, mret, result_ret in *.

Ltac split_match :=
  match goal with
  | |- context [match ?x with _ => _ end] => destruct x eqn:?
  end.

Lemma truediv_raise x y e : PyFloat.truediv x y = Raise e -> e = ZeroDivisionError.
Proof. unfold PyFloat.truediv. destruct (SFeqb y PyFloat.zero); congruence. Qed.

Lemma ceil_raise x e : PyFloat.ceil x = Raise e -> is_tile_outside e = false.
Proof. destruct x; simpl; intros H; inversion H; reflexivity. Qed.

Lemma cover_ratio_raise a b e : cover_ratio a b = Raise e -> e = ZeroDivisionError.
Proof. unfold cover_ratio. apply truediv_raise. Qed.

Lemma scale_to_max_size_raise h w m e :
  scale_to_max_size h w m = Raise e -> is_tile_outside e = false.
Proof.
  unfold scale_to_max_size. run_bind.
  repeat split_match; intros H; inversion H; subst;
    repeat match goal with
    | H : PyFloat.truediv _ _ = Raise _ |- _ => apply truediv_raise in H; subst
    | H : PyFloat.ceil _ = Raise _ |- _ => apply ceil_raise in H
    end; auto.
Qed.

Lemma clamp_max_size_raise ms h w vw vh e :
  clamp_max_size ms h w vw vh = Raise e -> is_tile_outside e = false.
Proof.
  unfold clamp_max_size. run_bind.
  repeat split_match; intros H; inversion H; subst.
  eapply scale_to_max_size_raise; eauto.
Qed.

Lemma last_block_raise {A} (x : ndarray A) e : last_block x = Raise e -> e = IndexError.
Proof. unfold last_block. repeat split_match; congruence. Qed.

Lemma read_data_mask_raise vrt idx h w win r e :
  read_data_mask vrt idx h w win r = Raise e -> e = IndexError.
Proof.
  unfold read_data_mask. run_bind.
  repeat split_match; intros H; inversion H; subst.
  eapply last_block_raise; eauto.
Qed.

Lemma unscale_data_raise vrt d e : unscale_data vrt d = Raise e -> e = IndexError.
Proof. unfold unscale_data. repeat split_match; congruence. Qed.

Lemma read_raise env src h w win vo kw e :
  read env src h w win vo kw = Raise e -> e = IndexError.
Proof.
  unfold read. run_bind.
  repeat split_match; intros H; inversion H; subst;
    repeat match goal with
    | H : (if ?b then _ else _) = Raise _ |- _ => destruct b; try discriminate H
    end;
    eauto using unscale_data_raise, read_data_mask_raise.
Qed.

Lemma part_call_check_raise env src bounds h w p dst bcrs mo vo ms e :
  overlap_check env src (part_dst_crs src dst)
    (part_bounds env bounds (part_dst_crs src dst) bcrs) mo = Raise e ->
  part_call env src bounds h w p dst bcrs mo vo ms = Raise e.
Proof. intros H. unfold part_call. rewrite H. reflexivity. Qed.

Lemma part_call_after_check env src bounds h w p dst bcrs mo vo ms e :
  overlap_check env src (part_dst_crs src dst)
    (part_bounds env bounds (part_dst_crs src dst) bcrs) mo = Ok () ->
  part_call env src bounds h w p dst bcrs mo vo ms = Raise e ->
  is_tile_outside e = false.
Proof.
  intros H. unfold part_call. rewrite H. run_bind.
  repeat split_match; intros H1; inversion H1; subst.
  eapply clamp_max_size_raise; eauto.
Qed.

Lemma part_raise env src bounds h w p dst bcrs mo vo ms kw e :
  part env src bounds h w p dst bcrs mo vo ms kw = Raise e ->
  part_call env src bounds h w p dst bcrs mo vo ms = Raise e \/ e = IndexError.
Proof.
  unfold part. run_bind. destruct (part_call _ _ _ _ _ _ _ _ _ _ _) as [rc|e1].
  - intros H. right. eapply read_raise; eauto.
  - intros H. left. inversion H. reflexivity.
Qed.

(** The overlap test of lines 168-185, case by case. *)
Lemma overlap_check_truthy env src dst_crs bounds t :
  PyFloat.truthy t = true ->
  overlap_check env src dst_crs bounds (Some t) =
  match cover_ratio (transform_bounds env (ds_crs src) dst_crs (ds_bounds src)) bounds with
  | Ok r => if PyFloat.ltb r t then Raise (TileOutsideBounds (overlap_message r)) else Ok ()
  | Raise e => Raise e
  end.
Proof. intros Ht. unfold overlap_check, overlap_truthy. rewrite Ht. reflexivity. Qed.

Lemma overlap_check_skipped env src dst_crs bounds mo :
  overlap_truthy mo = false -> overlap_check env src dst_crs bounds mo = Ok ().
Proof. intros Ht. unfold overlap_check. destruct mo; [rewrite Ht|]; reflexivity. Qed.


(** C2: with a threshold that passes the test [if minimum_overlap:],
    [part] fails with the OutOfBounds exception exactly when the computed
    cover ratio is below the threshold, and the message then carries the
    ratio as a percentage; at or above the threshold the overlap test
    passes.  With no threshold the test is skipped and [part] cannot fail
    with OutOfBounds; a threshold of zero takes the same path, and on
    well-formed bounds no cover ratio is below it. *)
Theorem part_minimum_overlap env src bounds h w p dst bcrs mo vo ms kw :
  let dst_crs := part_dst_crs src dst in
  let bounds' := part_bounds env bounds dst_crs bcrs in
  let ratio :=
    cover_ratio (transform_bounds env (ds_crs src) dst_crs (ds_bounds src)) bounds' in
  (forall t, mo = Some t -> PyFloat.truthy t = true ->
     (forall msg,
        part env src bounds h w p dst bcrs mo vo ms kw = Raise (TileOutsideBounds msg)
        <-> exists r, ratio = Ok r /\ PyFloat.ltb r t = true
             /\ msg = "Dataset covers less than "
                        +:+ PyFloat.format_0f (PyFloat.mul r (PyFloat.of_int 100))
                        +:+ "% of tile")
     /\ (forall r, ratio = Ok r -> PyFloat.ltb r t = false ->
           overlap_check env src dst_crs bounds' mo = Ok ()))
  /\ (overlap_truthy mo = false ->
       overlap_check env src dst_crs bounds' mo = Ok ()
       /\ forall msg,
            part env src bounds h w p dst bcrs mo vo ms kw <> Raise (TileOutsideBounds msg))
  /\ (forall t r, mo = Some t -> PyFloat.truthy t = false ->
        bbox_valid (transform_bounds env (ds_crs src) dst_crs (ds_bounds src)) = true ->
        bbox_valid bounds' = true ->
        ratio = Ok r -> PyFloat.ltb r t = false).
Proof.
  intros dst_crs bounds' ratio.
  assert (Hafter : overlap_check env src dst_crs bounds' mo = Ok () ->
            forall msg, part env src bounds h w p dst bcrs mo vo ms kw
                        <> Raise (TileOutsideBounds msg)).
  { intros Hc msg Hp. apply part_raise in Hp as [Hp|Hp]; [|discriminate Hp].
    apply (part_call_after_check _ _ _ _ _ _ _ _ _ _ _ _ Hc) in Hp. discriminate Hp. }
  split; [|split].
  - intros t -> Ht.
    pose proof (overlap_check_truthy env src dst_crs bounds' t Ht) as Hc.
    fold ratio in Hc. split.
    + intros msg. split.
      * intros Hp. destruct ratio as [r|e] eqn:Er.
        -- destruct (PyFloat.ltb r t) eqn:El.
           ++ exists r. repeat split; trivial.
              pose proof (part_call_check_raise env src bounds h w p dst bcrs (Some t) vo ms _ Hc) as Hpc.
              unfold part in Hp. rewrite Hpc in Hp. inversion Hp. reflexivity.
           ++ exfalso. exact (Hafter Hc msg Hp).
        -- apply cover_ratio_raise in Er as ->.
           pose proof (part_call_check_raise env src bounds h w p dst bcrs (Some t) vo ms _ Hc) as Hpc.
           unfold part in Hp. rewrite Hpc in Hp. discriminate Hp.
      * intros (r & Er & El & ->). rewrite Er, El in Hc.
        pose proof (part_call_check_raise env src bounds h w p dst bcrs (Some t) vo ms _ Hc) as Hpc.
        unfold part. rewrite Hpc. reflexivity.
    + intros r Er El. rewrite Er, El in Hc. exact Hc.
  - intros Ht. pose proof (overlap_check_skipped env src dst_crs bounds' mo Ht) as Hc.
    split; [exact Hc|]. exact (Hafter Hc).
  - intros t r _ Ht Vs Vb Hr.
    exact (falsy_threshold_not_below _ _ t r Ht Vs Vb Hr).
Qed.

Lemma part_minimum_overlap_witness :
  (PyFloat.truthy Demo.half = true
   /\ part Demo.gray_env Demo.small Demo.far_bounds None None 0 None None
        (Some Demo.half) None None default_options
      = Raise (TileOutsideBounds "Dataset covers less than 6% of tile"))
  /\ (overlap_truthy None = false
      /\ forall msg,
           part Demo.gray_env Demo.small Demo.far_bounds None None 0 None None
             None None None default_options
           <> Raise (TileOutsideBounds msg))
  /\ (PyFloat.truthy PyFloat.zero = false
      /\ bbox_valid Demo.bounds = true /\ bbox_valid Demo.far_bounds = true
      /\ exists r,
           cover_ratio Demo.bounds Demo.far_bounds = Ok r
           /\ PyFloat.ltb r PyFloat.zero = false).
Proof.
  split; [|split].
  - assert (Ht : PyFloat.truthy Demo.half = true) by (vm_compute; reflexivity).
    split; [exact Ht|].
    destruct (part_minimum_overlap Demo.gray_env Demo.small Demo.far_bounds None None 0
                None None (Some Demo.half) None None default_options) as [HA _].
    destruct (HA Demo.half eq_refl Ht) as [Hiff _].
    apply Hiff. eexists. split; [vm_compute; reflexivity|].
    split; vm_compute; reflexivity.
  - split; [reflexivity|].
    destruct (part_minimum_overlap Demo.gray_env Demo.small Demo.far_bounds None None 0
                None None None None None default_options) as [_ [HB _]].
    exact (proj2 (HB eq_refl)).
  - assert (Ht : PyFloat.truthy PyFloat.zero = false) by reflexivity.
    assert (Vs : bbox_valid Demo.bounds = true) by (vm_compute; reflexivity).
    assert (Vb : bbox_valid Demo.far_bounds = true) by (vm_compute; reflexivity).
    split; [exact Ht|]. split; [exact Vs|]. split; [exact Vb|].
    eexists. split; [vm_compute; reflexivity|].
    destruct (part_minimum_overlap Demo.gray_env Demo.small Demo.far_bounds None None 0
                None None (Some PyFloat.zero) None None default_options) as [_ [_ HC]].
    exact (HC PyFloat.zero _ eq_refl Ht Vs Vb eq_refl).
Defined.

(** ** The mask of [point] *)

(** C3, as stated, fails: on a sample that the raster library reports as
    valid (its numpy mask entry is [False]) the mask that [point] builds
    with [masked=True], seen through a post-treatment that returns it, is
    0 and not 255. *)
Lemma point_mask_valid_sample_is_zero :
  items (ma_mask (sample (WarpedVRT Demo.gray_env Demo.small
                            (point_vrt_params Demo.gray_env Demo.small None nearest None))
                         Demo.centre [1] true)) = [false]
  /\ point Demo.gray_env Demo.small Demo.centre None "EPSG:3857" true None false nearest None
       (Some Demo.expose_mask) = Ok [SInt 0].
Proof. split; vm_compute; reflexivity. Qed.

Lemma zeros_all_zero s : Forall (eq (SFloat64 PyFloat.zero)) (items (zeros s)).
Proof.
  unfold zeros. simpl. generalize (Z.to_nat (size_of s)). intros n.
  induction n; simpl; constructor; auto.
Qed.

(** C3, amended: with masked mode on, the mask that [point] builds and
    hands to the post-treatment is 255 for each band whose sample the
    raster library reports as masked out (not valid) and 0 for each valid
    one; with masked mode off it is all-zero, of the shape of the
    values. *)
Theorem point_internal_mask env src coords idx crs masked nd us rm vo f :
  let lonlat := transform_coords env crs (ds_crs src) (fst coords) (snd coords) in
  let vrt_dst := WarpedVRT env src (point_vrt_params env src nd rm vo) in
  let indexes := match as_tuple idx with Some l => l | None => ds_indexes src end in
  let values := sample vrt_dst lonlat indexes masked in
  inside_bounds (ds_bounds src) (fst lonlat) (snd lonlat) = true ->
  exists mask,
    point env src coords idx crs masked nd us rm vo (Some f)
    = (point_values ← (if us then unscale_point vrt_dst (ma_data values)
                        else Ok (ma_data values));
       Ok (items (fst (f point_values mask))))
    /\ (masked = true ->
        shape mask = shape (ma_mask values)
        /\ items mask
           = map (fun m : bool => SInt (if m then 255 else 0)) (items (ma_mask values)))
    /\ (masked = false ->
        shape mask = shape (ma_data values)
        /\ Forall (eq (SFloat64 PyFloat.zero)) (items mask)).
Proof.
  intros lonlat vrt_dst indexes values Hin.
  exists (point_mask values masked). split; [|split].
  - unfold point. fold lonlat. destruct lonlat as [lon lat] eqn:El. simpl in Hin.
    rewrite Hin. simpl. reflexivity.
  - intros ->. unfold point_mask, amap. simpl. split; [reflexivity|].
    apply map_ext. intros []; reflexivity.
  - intros ->. unfold point_mask. split; [reflexivity|]. apply zeros_all_zero.
Qed.

Lemma point_internal_mask_witness :
  inside_bounds (ds_bounds Demo.small)
    (fst (transform_coords Demo.gray_env "EPSG:3857" (ds_crs Demo.small)
            (fst Demo.centre) (snd Demo.centre)))
    (snd (transform_coords Demo.gray_env "EPSG:3857" (ds_crs Demo.small)
            (fst Demo.centre) (snd Demo.centre))) = true
  /\ exists mask,
       point Demo.gray_env Demo.small Demo.centre None "EPSG:3857" true None false nearest
         None (Some Demo.expose_mask) = Ok (items mask)
       /\ items mask = [SInt 0].
Proof.
  assert (Hin : inside_bounds (ds_bounds Demo.small)
                  (fst (transform_coords Demo.gray_env "EPSG:3857" (ds_crs Demo.small)
                          (fst Demo.centre) (snd Demo.centre)))
                  (snd (transform_coords Demo.gray_env "EPSG:3857" (ds_crs Demo.small)
                          (fst Demo.centre) (snd Demo.centre))) = true)
    by (vm_compute; reflexivity).
  split; [exact Hin|].
  destruct (point_internal_mask Demo.gray_env Demo.small Demo.centre None "EPSG:3857"
              true None false nearest None Demo.expose_mask Hin)
    as (mask & Hp & Hm & _).
  exists mask. split; [exact Hp|].
  destruct (Hm eq_refl) as [_ Hi]. rewrite Hi. vm_compute. reflexivity.
Defined.

(** ** The output size of [part] *)

(** C4, as stated, fails: with [height=100] given, [width] left unset and
    [max_size=50], on a computed grid of 100 rows by 200 columns, the
    clamping is applied and the output has 25 rows: the explicit height is
    not the final dimension. *)
Lemma part_explicit_height_overwritten :
  (exists rc,
     part_call Demo.gray_env Demo.small Demo.bounds (Some 100) None 0 None None None None
       (Some 50) = Ok rc
     /\ rc_height rc = 25 /\ rc_width rc = 50)
  /\ match part Demo.gray_env Demo.small Demo.bounds (Some 100) None 0 None None None None
             (Some 50) default_options with
     | Ok (data, mask) => shape data = [1; 25; 50]
     | Raise _ => False
     end.
Proof.
  split.
  - eexists. split; [vm_compute; reflexivity|]. split; reflexivity.
  - vm_compute. reflexivity.
Qed.

(** [part_call] once the overlap test has passed and the grid is known. *)
Lemma part_call_sizes env src bounds h w p dst bcrs mo vo ms T vw vh :
  let dst_crs := part_dst_crs src dst in
  let bounds' := part_bounds env bounds dst_crs bcrs in
  overlap_check env src dst_crs bounds' mo = Ok () ->
  get_vrt_transform env src bounds' h w dst_crs = (T, vw, vh) ->
  match clamp_max_size ms h w vw vh with
  | Ok (h', w') =>
      exists rc,
        part_call env src bounds h w p dst bcrs mo vo ms = Ok rc
        /\ rc_height rc = int_or h' vh /\ rc_width rc = int_or w' vw
  | Raise e => part_call env src bounds h w p dst bcrs mo vo ms = Raise e
  end.
Proof.
  intros dst_crs bounds' Hc Hg. unfold part_call.
  fold dst_crs. fold bounds'. rewrite Hc, Hg.
  unfold mbind, result_bind.
  destruct (clamp_max_size ms h w vw vh) as [[h' w']|e]; [|reflexivity].
  destruct (_ && _); eexists; (split; [reflexivity|split; reflexivity]).
Qed.

(** C4, amended: once the overlap test has passed, (1) when [height] and
    [width] are both given, they are the final output dimensions, whatever
    [max_size]; (2) when [max_size] is not given, or the larger computed
    dimension does not exceed it, each final dimension is the explicit
    value if given, else the computed one; (3) when [max_size] is given,
    [height] and [width] are not both given and the larger computed
    dimension exceeds [max_size], both final dimensions come from the
    clamping of the computed grid ([max_size] on one axis, the ceiling of
    the scaled value on the other), an explicit value included. *)
Theorem part_output_size env src bounds h w p dst bcrs mo vo ms T vw vh :
  let dst_crs := part_dst_crs src dst in
  let bounds' := part_bounds env bounds dst_crs bcrs in
  overlap_check env src dst_crs bounds' mo = Ok () ->
  get_vrt_transform env src bounds' h w dst_crs = (T, vw, vh) ->
  (int_truthy h = true -> int_truthy w = true ->
     exists rc,
       part_call env src bounds h w p dst bcrs mo vo ms = Ok rc
       /\ h = Some (rc_height rc) /\ w = Some (rc_width rc))
  /\ (int_truthy ms = false \/ (exists m, ms = Some m /\ Z.max vw vh <= m) ->
      exists rc,
        part_call env src bounds h w p dst bcrs mo vo ms = Ok rc
        /\ rc_height rc = int_or h vh /\ rc_width rc = int_or w vw)
  /\ (forall m, ms = Some m -> m <> 0 ->
        int_truthy w && int_truthy h = false -> m < Z.max vw vh ->
        match scale_to_max_size vh vw m with
        | Ok (h', w') =>
            exists rc,
              part_call env src bounds h w p dst bcrs mo vo ms = Ok rc
              /\ rc_height rc = int_or (Some h') vh
              /\ rc_width rc = int_or (Some w') vw
        | Raise e => part_call env src bounds h w p dst bcrs mo vo ms = Raise e
        end).
Proof.
  intros dst_crs bounds' Hc Hg.
  pose proof (part_call_sizes env src bounds h w p dst bcrs mo vo ms T vw vh Hc Hg) as Hs.
  split; [|split].
  - intros Hh Hw.
    assert (Hk : clamp_max_size ms h w vw vh = Ok (h, w)).
    { unfold clamp_max_size. rewrite Hh, Hw. destruct ms; [rewrite andb_false_r|]; reflexivity. }
    rewrite Hk in Hs. destruct Hs as (rc & Hrc & Hh' & Hw'). exists rc.
    split; [exact Hrc|]. rewrite Hh', Hw'.
    destruct h as [hv|]; [|discriminate Hh]. destruct w as [wv|]; [|discriminate Hw].
    simpl in *. apply negb_true_iff in Hh, Hw. rewrite Hh, Hw. split; reflexivity.
  - intros Hm.
    assert (Hk : clamp_max_size ms h w vw vh = Ok (h, w)).
    { unfold clamp_max_size. destruct Hm as [Hm|(m & -> & Hm)].
      - destruct ms; [rewrite Hm|]; reflexivity.
      - destruct (_ && _); [|reflexivity].
        apply Z.ltb_ge in Hm. rewrite Hm. reflexivity. }
    rewrite Hk in Hs. exact Hs.
  - intros m -> Hm Hb Hlt.
    assert (Hk : clamp_max_size (Some m) h w vw vh
                 = ('(h', w') ← scale_to_max_size vh vw m; Ok (Some h', Some w'))).
    { unfold clamp_max_size. rewrite Hb. simpl.
      apply Z.eqb_neq in Hm. rewrite Hm. simpl.
      apply Z.ltb_lt in Hlt. rewrite Hlt. reflexivity. }
    rewrite Hk in Hs. unfold mbind, result_bind in Hs.
    destruct (scale_to_max_size vh vw m) as [[h' w']|e]; exact Hs.
Qed.

Lemma part_output_size_witness :
  overlap_check Demo.gray_env Demo.small
    (part_dst_crs Demo.small None)
    (part_bounds Demo.gray_env Demo.bounds (part_dst_crs Demo.small None) None) None
  = Ok ()
  /\ get_vrt_transform Demo.gray_env Demo.small
       (part_bounds Demo.gray_env Demo.bounds (part_dst_crs Demo.small None) None)
       (Some 100) None (part_dst_crs Demo.small None)
     = (Demo.transform, 200, 100)
  /\ exists rc,
       part_call Demo.gray_env Demo.small Demo.bounds (Some 100) None 0 None None None
         None (Some 50) = Ok rc
       /\ rc_height rc = 25 /\ rc_width rc = 50.
Proof.
  split; [reflexivity|]. split; [reflexivity|].
  destruct (part_output_size Demo.gray_env Demo.small Demo.bounds (Some 100) None 0
              None None None None (Some 50) Demo.transform 200 100 eq_refl eq_refl)
    as (_ & _ & H).
  exact (H 50 eq_refl ltac:(discriminate) eq_refl eq_refl).
Defined.

(** ** Padding in [part] *)

Lemma PyFloat_mul_comm x y : PyFloat.mul x y = PyFloat.mul y x.
Proof.
  unfold PyFloat.mul, SFmul.
  destruct x as [sx|sx| |sx mx ex], y as [sy|sy| |sy my ey];
    try reflexivity; rewrite ?(xorb_comm sx sy); try reflexivity.
  rewrite (Pos.mul_comm mx my), (Z.add_comm ex ey). reflexivity.
Qed.

(** The origin of [t * Affine.translation(x, y)] is the image by [t] of
    the pixel [(x, y)]. *)
Lemma translation_origin t x y :
  (Affine.c (Affine.mul t (Affine.translation x y)),
   Affine.f (Affine.mul t (Affine.translation x y)))
  = Affine.apply t x y.
Proof.
  unfold Affine.mul, Affine.translation, Affine.apply. simpl.
  rewrite (PyFloat_mul_comm (Affine.a t) x), (PyFloat_mul_comm (Affine.b t) y),
    (PyFloat_mul_comm (Affine.d t) x), (PyFloat_mul_comm (Affine.e t) y).
  reflexivity.
Qed.

Lemma int_or_nonzero o y : y <> 0 -> int_or o y <> 0.
Proof.
  unfold int_or. destruct o as [z|]; [|auto].
  destruct (z =? 0) eqn:E; [auto|]. intros _. apply Z.eqb_neq. exact E.
Qed.

Lemma out_shape_of_nonzero n h w :
  h <> 0 -> w <> 0 -> out_shape_of n (Some h) (Some w) = Some (n, h, w).
Proof.
  intros Hh Hw. unfold out_shape_of, int_truthy.
  apply Z.eqb_neq in Hh, Hw. rewrite Hh, Hw. reflexivity.
Qed.

Lemma amap_shape {A B} (f : A -> B) x : shape (amap f x) = shape x.
Proof. reflexivity. Qed.

(** With an output shape, the data of the windowed read has that shape,
    alpha band or not. *)
Lemma read_data_mask_shape env src params idx h w win r :
  honours_out_shape env -> h <> 0 -> w <> 0 ->
  exists data mask,
    read_data_mask (WarpedVRT env src params) idx (Some h) (Some w) win r = Ok (data, mask)
    /\ shape data = [Z.of_nat (length idx); h; w].
Proof.
  intros Hs Hh Hw. unfold read_data_mask.
  rewrite !out_shape_of_nonzero by assumption.
  destruct (has_alpha _).
  - unfold last_block, but_last. rewrite Hs.
    rewrite length_app. simpl.
    destruct (_ <=? 0) eqn:E; [apply Z.leb_le in E; lia|].
    unfold mbind, result_bind. eexists _, _. split; [reflexivity|]. simpl.
    f_equal. lia.
  - eexists _, _. split; [reflexivity|]. apply Hs.
Qed.

Lemma unscale_data_shape vrt data data' :
  unscale_data vrt data = Ok data' -> shape data' = shape data.
Proof.
  unfold unscale_data. destruct (scales vrt); [discriminate|].
  destruct (offsets vrt); [discriminate|]. intros H. inversion H. reflexivity.
Qed.

(** C5, as stated, fails: in a call of [part] with a padding of 2 on a
    grid that is not aligned, for an output of 100 rows by 200 columns,
    a post-treatment that keeps one pixel makes the returned data a
    [1 x 1 x 1] array: [read] returns verbatim what the caller's
    [post_process] returns. *)
Lemma part_post_process_changes_shape :
  (exists rc,
     part_call Demo.gray_env Demo.small Demo.bounds None None 2 None None None None None
     = Ok rc
     /\ rc_height rc = 100 /\ rc_width rc = 200)
  /\ part Demo.gray_env Demo.small Demo.bounds None None 2 None None None None None
       Demo.cropping_options
     = Ok (mkArray [1; 1; 1] [SInt 5], mkArray [1; 1] [255]).
Proof.
  split.
  - eexists. split; [vm_compute; reflexivity|]. split; reflexivity.
  - vm_compute. reflexivity.
Qed.

(** C5, amended: in a call of [part] with a padding [p > 0] on a grid
    that is not aligned, whose overlap test and size computation have
    passed, the transform of the view is the computed one times the
    translation by [-p] pixels (its origin is the image of the pixel
    [(-p, -p)]), the width and height of the view are the computed ones
    plus [2 p], the read window starts at [(p, p)] with the computed size,
    and, the raster library giving a read the output shape asked for, the
    data array has the unpadded output height and width; it is the
    returned array when no post-treatment is supplied, and otherwise the
    array that the post-treatment receives.  Without unscaling the call
    does return. *)
Theorem part_padding env src bounds h w p dst bcrs mo vo ms kw T vw vh h' w' :
  let dst_crs := part_dst_crs src dst in
  let bounds' := part_bounds env bounds dst_crs bcrs in
  let out_height := int_or h' vh in
  let out_width := int_or w' vw in
  let idx :=
    match as_tuple (indexes kw) with
    | Some l => l
    | None => non_alpha_indexes env src
    end in
  let shift := PyFloat.of_int (- p) in
  overlap_check env src dst_crs bounds' mo = Ok () ->
  get_vrt_transform env src bounds' h w dst_crs = (T, vw, vh) ->
  clamp_max_size ms h w vw vh = Ok (h', w') ->
  0 < p ->
  is_aligned env src bounds' out_height out_width dst_crs = false ->
  honours_out_shape env -> 0 < vw -> 0 < vh ->
  (exists rc T',
     part_call env src bounds h w p dst bcrs mo vo ms = Ok rc
     /\ rc_height rc = out_height /\ rc_width rc = out_width
     /\ rc_window rc = mkWindow p p vw vh
     /\ rc_vrt_options rc !! "transform" = Some (VAffine T')
     /\ T' = Affine.mul T (Affine.translation shift shift)
     /\ (Affine.c T', Affine.f T') = Affine.apply T shift shift
     /\ rc_vrt_options rc !! "width" = Some (VInt (vw + 2 * p))
     /\ rc_vrt_options rc !! "height" = Some (VInt (vh + 2 * p)))
  /\ (forall r,
        part env src bounds h w p dst bcrs mo vo ms kw = Ok r ->
        exists data mask,
          r = apply_post_process (post_process kw) data mask
          /\ shape data = [Z.of_nat (length idx); out_height; out_width]
          /\ (post_process kw = None ->
              shape (fst r) = [Z.of_nat (length idx); out_height; out_width]))
  /\ (unscale kw = false ->
      exists r, part env src bounds h w p dst bcrs mo vo ms kw = Ok r).
Proof.
  intros dst_crs bounds' out_height out_width idx shift Hc Hg Hk Hp Ha Hs Hvw Hvh.
  assert (Hcall : exists rc,
            part_call env src bounds h w p dst bcrs mo vo ms = Ok rc
            /\ rc_height rc = out_height /\ rc_width rc = out_width
            /\ rc_window rc = mkWindow p p vw vh
            /\ rc_vrt_options rc !! "transform"
               = Some (VAffine (Affine.mul T (Affine.translation shift shift)))
            /\ rc_vrt_options rc !! "width" = Some (VInt (vw + 2 * p))
            /\ rc_vrt_options rc !! "height" = Some (VInt (vh + 2 * p))).
  { unfold part_call. fold dst_crs. fold bounds'. rewrite Hc, Hg, Hk.
    unfold mbind, result_bind. fold out_height. fold out_width. rewrite Ha.
    apply Z.ltb_lt in Hp. rewrite Hp. simpl.
    eexists. split; [reflexivity|]. simpl.
    rewrite !lookup_dict_update. simplify_map_eq. repeat split; reflexivity. }
  destruct Hcall as (rc & Hrc & Hh & Hw & Hwin & Ht & Hwd & Hht).
  assert (Hoh : out_height <> 0) by (apply int_or_nonzero; lia).
  assert (How : out_width <> 0) by (apply int_or_nonzero; lia).
  split; [|split].
  - exists rc, (Affine.mul T (Affine.translation shift shift)).
    repeat split; try assumption. apply translation_origin.
  - intros r. unfold part. rewrite Hrc. unfold mbind at 1, result_bind at 1.
    rewrite Hh, Hw. unfold read.
    destruct (read_data_mask_shape env src
                (read_vrt_params env src (nodata kw) (resampling_method kw)
                   (Some (rc_vrt_options rc)))
                idx out_height out_width (Some (rc_window rc)) (resampling_method kw)
                Hs Hoh How) as (data & mask & Hr & Hsh).
    fold idx. rewrite Hr. unfold mbind, result_bind.
    destruct (unscale kw).
    + destruct (unscale_data _ data) as [data'|e] eqn:Eu; [|discriminate].
      intros H. inversion H. eexists _, _. split; [reflexivity|].
      rewrite (unscale_data_shape _ _ _ Eu). split; [exact Hsh|].
      intros ->. simpl. rewrite (unscale_data_shape _ _ _ Eu). exact Hsh.
    + intros H. inversion H. eexists _, _. split; [reflexivity|].
      split; [exact Hsh|]. intros ->. exact Hsh.
  - intros Hu. unfold part. rewrite Hrc. unfold mbind at 1, result_bind at 1.
    rewrite Hh, Hw. unfold read.
    destruct (read_data_mask_shape env src
                (read_vrt_params env src (nodata kw) (resampling_method kw)
                   (Some (rc_vrt_options rc)))
                idx out_height out_width (Some (rc_window rc)) (resampling_method kw)
                Hs Hoh How) as (data & mask & Hr & Hsh).
    fold idx. rewrite Hr, Hu. unfold mbind, result_bind. eexists. reflexivity.
Qed.

Lemma demo_honours_out_shape bands : honours_out_shape (Demo.env bands).
Proof. intros src params indexes window n h w r. reflexivity. Qed.

Lemma part_padding_witness :
  (overlap_check Demo.gray_env Demo.small
     (part_dst_crs Demo.small None)
     (part_bounds Demo.gray_env Demo.bounds (part_dst_crs Demo.small None) None) None
   = Ok ()
   /\ get_vrt_transform Demo.gray_env Demo.small
        (part_bounds Demo.gray_env Demo.bounds (part_dst_crs Demo.small None) None)
        None None (part_dst_crs Demo.small None)
      = (Demo.transform, 200, 100)
   /\ clamp_max_size None None None 200 100 = Ok (None, None)
   /\ 0 < 2
   /\ is_aligned Demo.gray_env Demo.small
        (part_bounds Demo.gray_env Demo.bounds (part_dst_crs Demo.small None) None)
        (int_or None 100) (int_or None 200) (part_dst_crs Demo.small None) = false
   /\ honours_out_shape Demo.gray_env /\ 0 < 200 /\ 0 < 100)
  /\ exists data mask,
       part Demo.gray_env Demo.small Demo.bounds None None 2 None None None None None
         default_options = Ok (data, mask)
       /\ shape data = [1; 100; 200].
Proof.
  assert (Hs : honours_out_shape Demo.gray_env) by apply demo_honours_out_shape.
  assert (H2 : 0 < 2) by lia.
  assert (H200 : 0 < 200) by lia.
  assert (H100 : 0 < 100) by lia.
  split; [repeat split; try reflexivity; assumption|].
  destruct (part_padding Demo.gray_env Demo.small Demo.bounds None None 2 None None None
              None None default_options Demo.transform 200 100 None None
              eq_refl eq_refl eq_refl H2 eq_refl Hs H200 H100)
    as (_ & Hshape & Hret).
  destruct (Hret eq_refl) as [[data mask] Hr].
  destruct (Hshape _ Hr) as (_ & _ & _ & _ & Hnone).
  exists data, mask. split; [exact Hr|exact (Hnone eq_refl)].
Defined.

(** ** The output size of [preview] *)

(** Lines 195-201 on two positive ints below [2^53]: the longer axis
    gets [max_size], the other one the ceiling of the scaled value. *)
Lemma scale_to_max_size_longer h w m :
  0 < h < 2 ^ 53 -> 0 < w < 2 ^ 53 ->
  exists ratio,
    PyFloat.truediv (PyFloat.of_int h) (PyFloat.of_int w) = Ok ratio
    /\ (w < h ->
        scale_to_max_size h w m
        = (width ← PyFloat.ceil (SFdiv PyFloat.prec PyFloat.emax (PyFloat.of_int m) ratio);
           Ok (m, width)))
    /\ (h <= w ->
        scale_to_max_size h w m
        = (height ← PyFloat.ceil (PyFloat.mul (PyFloat.of_int m) ratio);
           Ok (height, m))).
Proof.
  intros Hh Hw. destruct (int_ratio_gt_one h w Hh Hw) as (ratio & Hr & Hgt).
  exists ratio. split; [exact Hr|].
  unfold scale_to_max_size. rewrite Hr. unfold mbind, result_bind. cbv beta iota.
  split.
  - intros Hlt. apply Hgt in Hlt. rewrite Hlt.
    unfold PyFloat.truediv. rewrite (ltb_one_not_zero ratio Hlt). reflexivity.
  - intros Hle. destruct (PyFloat.ltb (PyFloat.of_int 1) ratio) eqn:E; [|reflexivity].
    assert (w < h) by (apply Hgt; reflexivity). lia.
Qed.

(** The ceiling is that of the rounded product: for a dataset of 98 rows
    by 173 columns and [max_size=173], [173 * (98 / 173)] is
    98.00000000000001 in binary64 and the height becomes 99. *)
Example preview_size_rounding :
  preview_size (Demo.dataset 98 173 None) 173 None None = Ok (Some 99, Some 173).
Proof. vm_compute. reflexivity. Qed.

(** C6: in a call of [preview] with neither [height] nor [width], if the
    larger native dimension is below [max_size], the native height and
    width are used unchanged; otherwise (native dimensions positive and
    below [2^53]) the longer axis is set to [max_size] and the other one
    to the ceiling of the scaled value, computed in binary64 from the
    ratio height / width: [max_size / ratio] for a tall dataset,
    [max_size * ratio] for a wide or square one.  With [max_size=512], a
    dataset of 2048 by 1024 gives 512 by 256, in either orientation. *)
Theorem preview_output_size src max_size h w :
  int_truthy h = false -> int_truthy w = false ->
  (Z.max (ds_height src) (ds_width src) < max_size ->
   preview_size src max_size h w = Ok (Some (ds_height src), Some (ds_width src)))
  /\ (max_size <= Z.max (ds_height src) (ds_width src) ->
      0 < ds_height src < 2 ^ 53 -> 0 < ds_width src < 2 ^ 53 ->
      exists ratio,
        PyFloat.truediv (PyFloat.of_int (ds_height src)) (PyFloat.of_int (ds_width src))
        = Ok ratio
        /\ (ds_width src < ds_height src ->
            preview_size src max_size h w
            = (width ← PyFloat.ceil
                         (SFdiv PyFloat.prec PyFloat.emax (PyFloat.of_int max_size) ratio);
               Ok (Some max_size, Some width)))
        /\ (ds_height src <= ds_width src ->
            preview_size src max_size h w
            = (height ← PyFloat.ceil (PyFloat.mul (PyFloat.of_int max_size) ratio);
               Ok (Some height, Some max_size))))
  /\ preview_size (Demo.dataset 1024 2048 None) 512 None None = Ok (Some 256, Some 512)
  /\ preview_size (Demo.dataset 2048 1024 None) 512 None None = Ok (Some 512, Some 256).
Proof.
  intros Hh Hw. unfold preview_size at 1 2 3. rewrite Hh, Hw. cbn [negb andb].
  split; [|split; [|split; vm_compute; reflexivity]].
  - intros Hlt. apply Z.ltb_lt in Hlt. rewrite Hlt. reflexivity.
  - intros Hge HH HW. apply Z.ltb_ge in Hge. rewrite Hge.
    destruct (scale_to_max_size_longer (ds_height src) (ds_width src) max_size HH HW)
      as (ratio & Hr & Htall & Hwide).
    exists ratio. split; [exact Hr|]. split.
    + intros Hlt. rewrite (Htall Hlt). clear Htall Hwide. unfold mbind, result_bind.
      destruct (PyFloat.ceil _); reflexivity.
    + intros Hle. rewrite (Hwide Hle). clear Htall Hwide. unfold mbind, result_bind.
      destruct (PyFloat.ceil _); reflexivity.
Qed.

Lemma preview_output_size_witness :
  (int_truthy None = false /\ int_truthy (Some 0) = false
   /\ Z.max (ds_height Demo.small) (ds_width Demo.small) < 16
   /\ 6 <= Z.max (ds_height Demo.small) (ds_width Demo.small)
   /\ 0 < ds_height Demo.small < 2 ^ 53 /\ 0 < ds_width Demo.small < 2 ^ 53
   /\ ds_height Demo.small <= ds_width Demo.small)
  /\ preview_size Demo.small 16 None (Some 0) = Ok (Some 4, Some 8)
  /\ preview_size Demo.small 6 None (Some 0) = Ok (Some 3, Some 6).
Proof.
  assert (HH : 0 < ds_height Demo.small < 2 ^ 53) by (vm_compute; split; reflexivity).
  assert (HW : 0 < ds_width Demo.small < 2 ^ 53) by (vm_compute; split; reflexivity).
  assert (Hfits : Z.max (ds_height Demo.small) (ds_width Demo.small) < 16)
    by (vm_compute; reflexivity).
  assert (Hcut : 6 <= Z.max (ds_height Demo.small) (ds_width Demo.small))
    by (vm_compute; discriminate).
  assert (Hle : ds_height Demo.small <= ds_width Demo.small)
    by (vm_compute; discriminate).
  split; [repeat split; try reflexivity; try assumption; lia|].
  destruct (preview_output_size Demo.small 16 None (Some 0) eq_refl eq_refl)
    as (Hnative & _).
  destruct (preview_output_size Demo.small 6 None (Some 0) eq_refl eq_refl)
    as (_ & Hscaled & _).
  split; [exact (Hnative Hfits)|].
  destruct (Hscaled Hcut HH HW) as (ratio & Hr & _ & Hwide).
  rewrite (Hwide Hle).
  assert (Er : ratio = Demo.half).
  { assert (E : PyFloat.truediv (PyFloat.of_int (ds_height Demo.small))
                  (PyFloat.of_int (ds_width Demo.small)) = Ok Demo.half)
      by (vm_compute; reflexivity).
    rewrite E in Hr. inversion Hr. reflexivity. }
  rewrite Er. vm_compute. reflexivity.
Defined.

(** ** Unscaling *)

(** C7, as stated, fails: with [unscale] requested and a post-treatment
    that overwrites the data with the int 1, [read] and [point] return
    that int, not the float32 value [5 * 2.0 - 10.0]: what the caller's
    [post_process] returns is returned verbatim. *)
Lemma unscale_post_process_replaces_data :
  read Demo.gray_env Demo.small None None None None Demo.unscale_ones_options
  = Ok (Demo.filled [1; 4; 8] (SInt 1), Demo.filled [4; 8] 255)
  /\ point Demo.gray_env Demo.small Demo.centre None "EPSG:3857" true None true nearest
       None (Some Demo.point_ones)
     = Ok [SInt 1].
Proof. split; vm_compute; reflexivity. Qed.

(** C7, amended: with [unscale] requested, the data that [read] obtained
    from the windowed read, and the values that [point] sampled, are
    converted to float32 and every item becomes [item * scale + offset]
    for the scale and the offset of the first band of the view, whatever
    its band; the result is returned when no post-treatment is supplied,
    and is otherwise what the post-treatment receives.  A raw 5 with scale
    2.0 and offset -10.0 becomes +0.0. *)
Theorem unscale_first_band env src h w win vo kw coords idx crs masked nd rm pp :
  let vrt := WarpedVRT env src (read_vrt_params env src (nodata kw) (resampling_method kw) vo) in
  let indexes :=
    match as_tuple (indexes kw) with
    | Some l => l
    | None => non_alpha_indexes env src
    end in
  let lonlat := transform_coords env crs (ds_crs src) (fst coords) (snd coords) in
  let vrt_dst := WarpedVRT env src (point_vrt_params env src nd rm vo) in
  let pidx := match as_tuple idx with Some l => l | None => ds_indexes src end in
  let values := sample vrt_dst lonlat pidx masked in
  (forall data mask scale ss offset os,
     unscale kw = true ->
     read_data_mask vrt indexes h w win (resampling_method kw) = Ok (data, mask) ->
     scales vrt = scale :: ss -> offsets vrt = offset :: os ->
     read env src h w win vo kw
     = Ok (apply_post_process (post_process kw)
             (mkArray (shape data)
                (map (fun v =>
                        SFloat32
                          (Float32.add
                             (Float32.mul (astype_float32 v) (Float32.of_float scale))
                             (Float32.of_float offset)))
                     (items data)))
             (if force_binary_mask kw then binarize mask else mask)))
  /\ (forall scale ss offset os,
        inside_bounds (ds_bounds src) (fst lonlat) (snd lonlat) = true ->
        scales vrt_dst = scale :: ss -> offsets vrt_dst = offset :: os ->
        let unscaled :=
          mkArray (shape (ma_data values))
            (map (fun v =>
                    SFloat32
                      (Float32.add
                         (Float32.mul (astype_float32 v) (Float32.of_float scale))
                         (Float32.of_float offset)))
                 (items (ma_data values))) in
        point env src coords idx crs masked nd true rm vo pp
        = Ok (items (match pp with
                     | Some f => fst (f unscaled (point_mask values masked))
                     | None => unscaled
                     end)))
  /\ unscale_value (PyFloat.of_int 2) (PyFloat.of_int (-10)) (SInt 5)
     = SFloat32 (S754_zero false).
Proof.
  intros vrt indexes lonlat vrt_dst pidx values. split; [|split].
  - intros data mask scale ss offset os Hu Hr Hs Ho.
    unfold read. fold vrt. fold indexes. rewrite Hr, Hu.
    unfold unscale_data. rewrite Hs, Ho. reflexivity.
  - intros scale ss offset os Hin Hs Ho unscaled.
    unfold point. fold lonlat. destruct lonlat as [lon lat] eqn:El. simpl in Hin.
    rewrite Hin. cbv beta iota zeta. unfold negb.
    fold vrt_dst. fold pidx. fold values.
    unfold unscale_point. rewrite Hs, Ho. reflexivity.
  - vm_compute. reflexivity.
Qed.

Lemma unscale_first_band_witness :
  unscale Demo.unscale_options = true
  /\ read Demo.gray_env Demo.small None None None None Demo.unscale_options
     = Ok (Demo.filled [1; 4; 8] (SFloat32 (S754_zero false)), Demo.filled [4; 8] 255)
  /\ point Demo.gray_env Demo.small Demo.centre None "EPSG:3857" true None true nearest
       None None
     = Ok [SFloat32 (S754_zero false)].
Proof.
  split; [reflexivity|].
  destruct (unscale_first_band Demo.gray_env Demo.small None None None None
              Demo.unscale_options Demo.centre None "EPSG:3857" true None nearest None)
    as (Hread & Hpoint & _).
  split.
  - exact (Hread (Demo.filled [1; 4; 8] (SInt 5)) (Demo.filled [4; 8] 7)
             (PyFloat.of_int 2) [] (PyFloat.of_int (-10)) []
             eq_refl eq_refl eq_refl eq_refl).
  - exact (Hpoint (PyFloat.of_int 2) [] (PyFloat.of_int (-10)) []
             eq_refl eq_refl eq_refl).
Defined.

(** ** The binary mask *)

Lemma binarize_binary mask : binary_mask (binarize mask).
Proof.
  unfold binary_mask, binarize, amap. simpl.
  induction (items mask) as [|v l IH]; simpl; constructor; [|exact IH].
  destruct (v =? 0); auto.
Qed.

Lemma binarize_items mask :
  items (binarize mask) = map (fun v => if v =? 0 then 0 else 255) (items mask)
  /\ shape (binarize mask) = shape mask.
Proof. split; reflexivity. Qed.

(** What [read] returns when it returns: the post-treatment applied to the
    data and to the mask of the pipeline, binarized on request. *)
Lemma read_returns env src h w win vo kw r :
  read env src h w win vo kw = Ok r ->
  exists data raw_mask,
    r = apply_post_process (post_process kw) data
          (if force_binary_mask kw then binarize raw_mask else raw_mask).
Proof.
  unfold read. unfold mbind, result_bind.
  destruct (read_data_mask _ _ _ _ _ _) as [[data mask]|e]; [|discriminate].
  destruct (if unscale kw then _ else _) as [data'|e]; [|discriminate].
  intros H. inversion H. eexists _, _. reflexivity.
Qed.

(** With an alpha band in the view, the mask is the last band read. *)
Example read_alpha_band :
  read Demo.alpha_env Demo.small (Some 2) (Some 3) None None default_options
  = Ok (Demo.filled [1; 2; 3] (SInt 5), Demo.filled [2; 3] 255).
Proof. vm_compute. reflexivity. Qed.

(** C8, as stated, fails: with [force_binary_mask] enabled and a
    post-treatment that halves the mask, [read] returns a mask of 127s:
    what the caller's [post_process] returns is returned verbatim. *)
Lemma binary_mask_post_process_halved :
  force_binary_mask Demo.halving_options = true
  /\ read Demo.gray_env Demo.small None None None None Demo.halving_options
     = Ok (Demo.filled [1; 4; 8] (SInt 5), Demo.filled [4; 8] 127)
  /\ ~ binary_mask (Demo.filled [4; 8] 127).
Proof.
  split; [reflexivity|]. split; [vm_compute; reflexivity|].
  intros H. unfold binary_mask in H. vm_compute in H.
  inversion H as [|x l [H0|H0] _]; discriminate H0.
Qed.

(** C8, amended: in a call of [read], [part] or [preview] with
    [force_binary_mask] enabled that returns, the mask is binarized (every
    nonzero item becomes 255, zero stays 0), so that each of its items is
    0 or 255; it is the returned mask when no post-treatment is supplied,
    and otherwise the mask that the post-treatment receives. *)
Theorem force_binary_mask_values env src h w win vo kw bounds p dst bcrs mo ms max_size :
  force_binary_mask kw = true ->
  let binary_result (r : ndarray scalar * ndarray Z) :=
    exists data raw_mask,
      r = apply_post_process (post_process kw) data (binarize raw_mask)
      /\ binary_mask (binarize raw_mask)
      /\ items (binarize raw_mask)
         = map (fun v => if v =? 0 then 0 else 255) (items raw_mask)
      /\ (post_process kw = None -> binary_mask (snd r)) in
  (forall r, read env src h w win vo kw = Ok r -> binary_result r)
  /\ (forall r, part env src bounds h w p dst bcrs mo vo ms kw = Ok r -> binary_result r)
  /\ (forall r, preview env src max_size h w kw = Ok r -> binary_result r).
Proof.
  intros Hf binary_result.
  assert (Hread : forall h w win vo r,
            read env src h w win vo kw = Ok r -> binary_result r).
  { intros h0 w0 win0 vo0 r Hr. apply read_returns in Hr as (data & raw & ->).
    rewrite Hf. exists data, raw. split; [reflexivity|].
    split; [apply binarize_binary|]. split; [reflexivity|].
    intros ->. simpl. apply binarize_binary. }
  split; [|split].
  - apply Hread.
  - intros r. unfold part. unfold mbind, result_bind.
    destruct (part_call _ _ _ _ _ _ _ _ _ _ _) as [rc|e]; [|discriminate].
    apply Hread.
  - intros r. unfold preview. unfold mbind, result_bind.
    destruct (preview_size _ _ _ _) as [[h' w']|e]; [|discriminate].
    apply Hread.
Qed.

Lemma force_binary_mask_values_witness :
  force_binary_mask default_options = true
  /\ exists r,
       read Demo.gray_env Demo.small None None None None default_options = Ok r
       /\ binary_mask (snd r).
Proof.
  split; [reflexivity|].
  eexists. split; [vm_compute; reflexivity|].
  destruct (force_binary_mask_values Demo.gray_env Demo.small None None None None
              default_options Demo.bounds 0 None None None None 16 eq_refl)
    as (Hread & _).
  destruct (Hread _ eq_refl) as (data & raw & _ & _ & _ & Hb).
  exact (Hb eq_refl).
Defined.

(** ** Degenerate bounds *)

(** C9 fails on the code: with requested bounds of zero width and a
    minimum overlap of 0.5, the quotient of line 178 divides by zero and
    [part] ends with ZeroDivisionError. *)
Theorem part_zero_width_bounds_crash :
  part Demo.gray_env Demo.small Demo.flat_bounds None None 0 None None
    (Some Demo.half) None None default_options
  = Raise ZeroDivisionError.
Proof. vm_compute. reflexivity. Qed.

(** ** One dimension only *)

(** C10: when exactly one of [height] and [width] is supplied, [read]
    computes no output shape, neither for the data nor for the mask, so
    that its windowed read is the one of a call without any size, and
    [preview] leaves the pair as it is, skipping the [max_size] branch: it
    is [read] on the same arguments. *)
Theorem one_dimension_no_resize env src max_size h w kw vrt idx win r n :
  xorb (int_truthy h) (int_truthy w) = true ->
  out_shape_of n h w = None
  /\ mask_out_shape_of h w = None
  /\ read_data_mask vrt idx h w win r = read_data_mask vrt idx None None win r
  /\ (has_alpha (colorinterp vrt) = false ->
      read_data_mask vrt idx h w win r
      = Ok (vrt_read vrt idx win None r, dataset_mask vrt win None r))
  /\ preview_size src max_size h w = Ok (h, w)
  /\ preview env src max_size h w kw = read env src h w None None kw.
Proof.
  intros Hx.
  assert (H1 : forall k, out_shape_of k h w = None).
  { intros k. unfold out_shape_of. destruct h, w; try reflexivity.
    destruct (int_truthy (Some z)), (int_truthy (Some z0)); try discriminate Hx; reflexivity. }
  assert (H2 : mask_out_shape_of h w = None).
  { unfold mask_out_shape_of. destruct h, w; try reflexivity.
    destruct (int_truthy (Some z)), (int_truthy (Some z0)); try discriminate Hx; reflexivity. }
  assert (H3 : preview_size src max_size h w = Ok (h, w)).
  { unfold preview_size.
    destruct (int_truthy h), (int_truthy w); try discriminate Hx; reflexivity. }
  split; [apply H1|]. split; [exact H2|].
  split; [|split; [|split; [exact H3|]]].
  - unfold read_data_mask. rewrite !H1, H2. reflexivity.
  - intros Ha. unfold read_data_mask. rewrite Ha, !H1, H2. reflexivity.
  - unfold preview. rewrite H3. reflexivity.
Qed.

Lemma one_dimension_no_resize_witness :
  xorb (int_truthy None) (int_truthy (Some 3)) = true
  /\ preview Demo.gray_env Demo.small 2 None (Some 3) default_options
     = Ok (Demo.filled [1; 4; 8] (SInt 5), Demo.filled [4; 8] 255).
Proof.
  split; [reflexivity|].
  destruct (one_dimension_no_resize Demo.gray_env Demo.small 2 None (Some 3)
              default_options
              (WarpedVRT Demo.gray_env Demo.small ∅) [1] None nearest 1 eq_refl)
    as (_ & _ & _ & _ & _ & Hp).
  rewrite Hp. vm_compute. reflexivity.
Defined.

(** * Further properties *)

(** ** Comparison of binary64 numbers *)

Lemma ltb_irrefl x : PyFloat.ltb x x = false.
Proof.
  unfold PyFloat.ltb, SFltb.
  destruct x as [s|[|]| |[|] m e]; cbn [SFcompare]; try reflexivity.
  - rewrite Z.compare_refl, Pos.compare_cont_refl. reflexivity.
  - rewrite Z.compare_refl, Pos.compare_cont_refl. reflexivity.
Qed.

Lemma ltb_nan_r x y : is_nan y = true -> PyFloat.ltb x y = false.
Proof. destruct y; try discriminate. destruct x; reflexivity. Qed.

Lemma ltb_true_not_nan x y :
  PyFloat.ltb x y = true -> is_nan x = false /\ is_nan y = false.
Proof. destruct x, y; try discriminate; split; reflexivity. Qed.

(** On valid numbers a comparison that holds in the program holds of the
    values. *)
Lemma fval_lt_of_ltb x y :
  valid64 x = true -> valid64 y = true ->
  PyFloat.ltb x y = true -> fval x < fval y.
Proof.
  unfold valid64, valid_binary, PyFloat.ltb, SFltb.
  destruct x as [sx|sx| |sx mx ex], y as [sy|sy| |sy my ey]; try discriminate;
    intros Vx Vy H; cbn [fval SFcompare] in *;
    try (pose proof (finite_bounds mx ex Vx) as Bx);
    try (pose proof (finite_bounds my ey Vy) as By).
  - destruct sy; [discriminate H|]. cbn [cond_Zopp]. lia.
  - destruct sy; [discriminate H|]. cbn [cond_Zopp]. lia.
  - destruct sx; [|discriminate H]. cbn [cond_Zopp]. lia.
  - destruct sx, sy; try discriminate H. cbn [cond_Zopp]. lia.
  - destruct sx; [|discriminate H]. destruct sy; cbn [cond_Zopp]; lia.
  - destruct sx; [|discriminate H]. cbn [cond_Zopp]. lia.
  - destruct sy; [discriminate H|]. destruct sx; cbn [cond_Zopp]; lia.
  - destruct sx, sy; cbn [cond_Zopp]; try discriminate H; try lia.
    + destruct (Z.compare_spec ex ey) as [He|He|He]; try discriminate H.
      * subst ey. rewrite Pos.compare_cont_spec in H. cbn [Pos.switch_Eq] in H.
        destruct (Pos.compare_spec mx my) as [Hm|Hm|Hm]; try discriminate H.
        assert (Hk : 0 < 2 ^ (ex + 1074)) by lia.
        assert (Zpos my * 2 ^ (ex + 1074) < Zpos mx * 2 ^ (ex + 1074)).
        { apply Z.mul_lt_mono_pos_r; lia. }
        lia.
      * pose proof (finite_lt_exp my ey mx ex Vy Vx He). lia.
    + destruct (Z.compare_spec ex ey) as [He|He|He]; try discriminate H.
      * subst ey. rewrite Pos.compare_cont_spec in H. cbn [Pos.switch_Eq] in H.
        destruct (Pos.compare_spec mx my) as [Hm|Hm|Hm]; try discriminate H.
        assert (Hk : 0 < 2 ^ (ex + 1074)) by lia.
        apply Z.mul_lt_mono_pos_r; lia.
      * exact (finite_lt_exp mx ex my ey Vx Vy He).
Qed.

(** ** The bounds test and the values of [point] *)

(** [point] raises for a point outside the bounds, or an IndexError of
    the unscaling. *)
Lemma point_raise env src coords idx crs masked nd us rm vo pp e :
  point env src coords idx crs masked nd us rm vo pp = Raise e ->
  (inside_bounds (ds_bounds src)
     (fst (transform_coords env crs (ds_crs src) (fst coords) (snd coords)))
     (snd (transform_coords env crs (ds_crs src) (fst coords) (snd coords))) = false
   /\ e = PointOutsideBounds "Point is outside dataset bounds")
  \/ (inside_bounds (ds_bounds src)
        (fst (transform_coords env crs (ds_crs src) (fst coords) (snd coords)))
        (snd (transform_coords env crs (ds_crs src) (fst coords) (snd coords))) = true
      /\ e = IndexError).
Proof.
  unfold point.
  destruct (transform_coords env crs (ds_crs src) (fst coords) (snd coords)) as [lon lat].
  cbn [fst snd].
  destruct (inside_bounds (ds_bounds src) lon lat); cbn [negb].
  - intros H. right. split; [reflexivity|]. run_bind.
    destruct us.
    + unfold unscale_point in H.
      destruct (scales _); [inversion H; reflexivity|].
      destruct (offsets _); [inversion H; reflexivity|]. discriminate H.
    + discriminate H.
  - intros H. left. split; [reflexivity|]. inversion H. reflexivity.
Qed.

(** X1 ([point], lines 308-315): [point] fails with PointOutsideBounds,
    and then with the message "Point is outside dataset bounds", exactly
    when the transformed point is not strictly inside the bounds of the
    dataset, whatever the other arguments.  A point on an edge of the
    bounds and a point with a NaN coordinate are outside.  On well-formed
    numbers the test of the program agrees with the values: the point is
    accepted exactly when no number involved is a NaN and
    [left < lon < right] and [bottom < lat < top]. *)
Theorem point_outside_bounds env src coords idx crs masked nd us rm vo pp :
  let lonlat := transform_coords env crs (ds_crs src) (fst coords) (snd coords) in
  let lon := fst lonlat in
  let lat := snd lonlat in
  let b := ds_bounds src in
  (forall msg,
     point env src coords idx crs masked nd us rm vo pp = Raise (PointOutsideBounds msg)
     <-> inside_bounds b lon lat = false /\ msg = "Point is outside dataset bounds")
  /\ (lon = left b \/ lon = right b \/ lat = bottom b \/ lat = top b
      \/ is_nan lon = true \/ is_nan lat = true ->
      inside_bounds b lon lat = false)
  /\ (bbox_valid b = true -> valid64 lon = true -> valid64 lat = true ->
      (inside_bounds b lon lat = true
       <-> (is_nan (left b) = false /\ is_nan (right b) = false
            /\ is_nan (bottom b) = false /\ is_nan (top b) = false
            /\ is_nan lon = false /\ is_nan lat = false)
           /\ fval (left b) < fval lon < fval (right b)
           /\ fval (bottom b) < fval lat < fval (top b))).
Proof.
  intros lonlat lon lat b. split; [|split].
  - intros msg. split.
    + intros H. apply point_raise in H as [[Hi He]|[Hi He]].
      * inversion He. split; [exact Hi|reflexivity].
      * discriminate He.
    + intros [Hi ->]. unfold point.
      fold lonlat. destruct lonlat as [x y] eqn:E. unfold lon, lat, b in Hi.
      cbn [fst snd] in Hi. rewrite Hi. reflexivity.
  - unfold inside_bounds.
    intros [H|[H|[H|[H|[H|H]]]]].
    + rewrite H, ltb_irrefl. reflexivity.
    + rewrite H, ltb_irrefl. rewrite andb_false_r. reflexivity.
    + rewrite H, ltb_irrefl. rewrite andb_false_r. reflexivity.
    + rewrite H, ltb_irrefl. rewrite !andb_false_r. reflexivity.
    + rewrite (ltb_nan_r _ lon H). reflexivity.
    + rewrite (ltb_nan_r _ lat H). rewrite andb_false_r. reflexivity.
  - unfold bbox_valid. intros Vb Vlon Vlat.
    apply andb_true_iff in Vb as [Vb V3]. apply andb_true_iff in Vb as [Vb V2].
    apply andb_true_iff in Vb as [V0 V1].
    unfold inside_bounds. split.
    + intros H. apply andb_true_iff in H as [Hx Hy].
      apply andb_true_iff in Hx as [Hx0 Hx2]. apply andb_true_iff in Hy as [Hy1 Hy3].
      destruct (ltb_true_not_nan _ _ Hx0) as [N0 Nlon].
      destruct (ltb_true_not_nan _ _ Hx2) as [_ N2].
      destruct (ltb_true_not_nan _ _ Hy1) as [N1 Nlat].
      destruct (ltb_true_not_nan _ _ Hy3) as [_ N3].
      pose proof (fval_lt_of_ltb _ _ V0 Vlon Hx0).
      pose proof (fval_lt_of_ltb _ _ Vlon V2 Hx2).
      pose proof (fval_lt_of_ltb _ _ V1 Vlat Hy1).
      pose proof (fval_lt_of_ltb _ _ Vlat V3 Hy3).
      repeat split; assumption.
    + intros [(N0 & N2 & N1 & N3 & Nlon & Nlat) [[Hx0 Hx2] [Hy1 Hy3]]].
      rewrite (ltb_of_fval_lt _ _ V0 Vlon N0 Nlon Hx0).
      rewrite (ltb_of_fval_lt _ _ Vlon V2 Nlon N2 Hx2).
      rewrite (ltb_of_fval_lt _ _ V1 Vlat N1 Nlat Hy1).
      rewrite (ltb_of_fval_lt _ _ Vlat V3 Nlat N3 Hy3).
      reflexivity.
Qed.

Lemma point_outside_bounds_witness :
  inside_bounds (ds_bounds Demo.small) (fst Cases.edge) (snd Cases.edge) = false
  /\ point Demo.gray_env Demo.small Cases.edge None "EPSG:3857" true None false nearest
       None None
     = Raise (PointOutsideBounds "Point is outside dataset bounds").
Proof.
  assert (Hi : inside_bounds (ds_bounds Demo.small) (fst Cases.edge) (snd Cases.edge) = false)
    by (vm_compute; reflexivity).
  split; [exact Hi|].
  destruct (point_outside_bounds Demo.gray_env Demo.small Cases.edge None "EPSG:3857" true
              None false nearest None None) as [Hiff _].
  apply Hiff. split; [exact Hi|reflexivity].
Defined.

Lemma demo_sample_per_index bands : sample_per_index (Demo.env bands).
Proof.
  intros src params xy indexes masked.
  cbn [Demo.env WarpedVRT Demo.vrt sample ma_data Demo.filled items size_of fold_right].
  rewrite repeat_length. lia.
Qed.

(** X2 ([point], lines 305-306, 317 and 333-352): for a point inside the
    bounds and a raster library that returns one sample per requested
    band, [point] without post-treatment returns a list with one value
    per band: one value for an int index, as many as the sequence has for
    a sequence, and one per band of the dataset (an alpha band included)
    when no index is given.  With [unscale] every value is a float32;
    [point] does return as soon as the view has a scale and an offset. *)
Theorem point_one_value_per_band env src coords idx crs masked nd us rm vo :
  let lonlat := transform_coords env crs (ds_crs src) (fst coords) (snd coords) in
  let vrt_dst := WarpedVRT env src (point_vrt_params env src nd rm vo) in
  sample_per_index env ->
  inside_bounds (ds_bounds src) (fst lonlat) (snd lonlat) = true ->
  (us = true -> scales vrt_dst <> [] /\ offsets vrt_dst <> []) ->
  exists values,
    point env src coords idx crs masked nd us rm vo None = Ok values
    /\ length values = match idx with
                       | Some (IdxInt _) => 1%nat
                       | Some (IdxSeq l) => length l
                       | None => length (ds_indexes src)
                       end
    /\ (us = true -> Forall (fun v => exists x, v = SFloat32 x) values).
Proof.
  intros lonlat vrt_dst Hs Hi Hu. unfold point. fold lonlat.
  destruct lonlat as [lon lat] eqn:E. cbn [fst snd] in Hi. rewrite Hi. cbn [negb].
  fold vrt_dst.
  set (indexes := match as_tuple idx with Some l => l | None => ds_indexes src end).
  assert (Hlen : length indexes = match idx with
                                  | Some (IdxInt _) => 1%nat
                                  | Some (IdxSeq l) => length l
                                  | None => length (ds_indexes src)
                                  end).
  { unfold indexes. destruct idx as [[i|l]|]; reflexivity. }
  rewrite <- Hlen.
  pose proof (Hs src (point_vrt_params env src nd rm vo) (lon, lat) indexes masked) as Hn.
  fold vrt_dst in Hn.
  destruct us.
  - destruct (Hu eq_refl) as [Hsc Hof]. unfold unscale_point.
    destruct (scales vrt_dst) as [|scale ss]; [congruence|].
    destruct (offsets vrt_dst) as [|offset os]; [congruence|].
    run_bind. eexists. split; [reflexivity|]. cbn [amap items]. split.
    + rewrite length_map. exact Hn.
    + intros _. apply Forall_map. apply Forall_true. intros v. eexists. reflexivity.
  - run_bind. eexists. split; [reflexivity|]. split; [exact Hn|discriminate].
Qed.

Lemma point_one_value_per_band_witness :
  (sample_per_index Demo.gray_env
   /\ inside_bounds (ds_bounds Demo.small) (fst Demo.centre) (snd Demo.centre) = true)
  /\ exists values,
       point Demo.gray_env Demo.small Demo.centre (Some (IdxSeq [1; 1; 1])) "EPSG:3857"
         true None false nearest None None = Ok values
       /\ length values = 3%nat.
Proof.
  assert (Hs : sample_per_index Demo.gray_env) by apply demo_sample_per_index.
  assert (Hi : inside_bounds (ds_bounds Demo.small) (fst Demo.centre) (snd Demo.centre) = true)
    by (vm_compute; reflexivity).
  split; [split; assumption|].
  assert (Hu : false = true ->
               scales (WarpedVRT Demo.gray_env Demo.small
                         (point_vrt_params Demo.gray_env Demo.small None nearest None)) <> []
               /\ offsets (WarpedVRT Demo.gray_env Demo.small
                             (point_vrt_params Demo.gray_env Demo.small None nearest None)) <> [])
    by discriminate.
  destruct (point_one_value_per_band Demo.gray_env Demo.small Demo.centre
              (Some (IdxSeq [1; 1; 1])) "EPSG:3857" true None false nearest None Hs Hi Hu)
    as (values & Hp & Hl & _).
  exists values. split; assumption.
Defined.

(** ** The data and the mask of [read] *)

Lemma out_shape_of_length n n' h w :
  match out_shape_of n h w with
  | Some _ => out_shape_of n' h w
  | None => None
  end = out_shape_of n' h w.
Proof.
  unfold out_shape_of. destruct h as [h|], w as [w|]; try reflexivity.
  destruct (int_truthy (Some h) && int_truthy (Some w)); reflexivity.
Qed.

(** [colorinterp.index(ColorInterp.alpha)] is the position of the first
    alpha band. *)
Lemma alpha_index_first l :
  has_alpha l = true ->
  0 <= alpha_index l < Z.of_nat (length l)
  /\ l !! Z.to_nat (alpha_index l) = Some ColorInterp.alpha
  /\ forall j, (j < Z.to_nat (alpha_index l))%nat -> l !! j <> Some ColorInterp.alpha.
Proof.
  unfold has_alpha. induction l as [|x l IH]; [discriminate|].
  cbn [existsb alpha_index length]. destruct (ColorInterp.eqb ColorInterp.alpha x) eqn:E.
  - intros _. split; [lia|]. split.
    + destruct x; try discriminate E. reflexivity.
    + intros j Hj. simpl in Hj. lia.
  - cbn [orb]. intros H. destruct (IH H) as (Hb & Hl & Hf). split; [lia|]. split.
    + replace (Z.to_nat (1 + alpha_index l)) with (S (Z.to_nat (alpha_index l))) by lia.
      exact Hl.
    + intros j Hj. destruct j as [|j].
      * cbn. intros Hx. inversion Hx. subst x. discriminate E.
      * cbn. apply Hf. lia.
Qed.

(** X3 ([read], lines 84-96): when the view carries an alpha band, [read]
    asks for the requested bands followed by one extra band, the first
    alpha band of the view (1-based), with one more band in the output
    shape.  If the array read has [n > 0] blocks and as many items as its
    shape says, the windowed read succeeds and splits that array without
    loss: the data are its first [n - 1] blocks, the mask is the last
    block cast to uint8 (every item within 0..255), and data and last
    block together are the items read. *)
Theorem read_alpha_band_split vrt idx h w win r n rest :
  let position := alpha_index (colorinterp vrt) in
  let asked := idx ++ [position + 1] in
  let full := vrt_read vrt asked win (out_shape_of (Z.of_nat (length asked)) h w) r in
  has_alpha (colorinterp vrt) = true ->
  shape full = n :: rest -> 0 < n ->
  length (items full) = Z.to_nat (n * size_of rest) ->
  (colorinterp vrt !! Z.to_nat position = Some ColorInterp.alpha
   /\ forall j, (j < Z.to_nat position)%nat -> colorinterp vrt !! j <> Some ColorInterp.alpha)
  /\ exists data mask band,
       read_data_mask vrt idx h w win r = Ok (data, mask)
       /\ shape data = (n - 1) :: rest
       /\ shape mask = rest
       /\ items full = items data ++ band
       /\ items mask = map astype_uint8 band
       /\ length (items data) = Z.to_nat ((n - 1) * size_of rest)
       /\ length band = Z.to_nat (size_of rest)
       /\ Forall (fun v => 0 <= v < 256) (items mask).
Proof.
  intros position asked full Ha Hshape Hn Hlen.
  destruct (alpha_index_first _ Ha) as (_ & Hat & Hfirst).
  split; [split; assumption|].
  unfold read_data_mask. rewrite Ha. rewrite out_shape_of_length.
  fold position. fold asked. fold full.
  unfold last_block, but_last. rewrite Hshape.
  destruct (n <=? 0) eqn:En; [apply Z.leb_le in En; lia|].
  run_bind.
  replace (Z.max (n - 1) 0) with (n - 1) by lia.
  set (k := Z.to_nat ((n - 1) * size_of rest)).
  exists (mkArray ((n - 1) :: rest) (take k (items full))),
         (amap astype_uint8 (mkArray rest (drop k (items full)))),
         (drop k (items full)).
  cbn [shape items amap].
  split; [reflexivity|]. split; [reflexivity|]. split; [reflexivity|].
  split; [symmetry; apply take_drop|]. split; [reflexivity|].
  assert (Hk : (k <= length (items full))%nat).
  { rewrite Hlen. unfold k. destruct (Z_lt_le_dec (size_of rest) 0) as [Hs|Hs].
    - assert ((n - 1) * size_of rest <= 0) by nia. lia.
    - apply Z2Nat.inj_le; nia. }
  split; [rewrite length_take; lia|]. split.
  - rewrite length_drop, Hlen. unfold k.
    destruct (Z_lt_le_dec (size_of rest) 0) as [Hs|Hs].
    + assert ((n - 1) * size_of rest <= 0) by nia.
      assert (n * size_of rest <= 0) by nia. lia.
    + rewrite <- Z2Nat.inj_sub by nia. f_equal. ring.
  - apply Forall_map. apply Forall_true. intros v. unfold astype_uint8.
    destruct v; apply Z.mod_pos_bound; lia.
Qed.

Lemma read_alpha_band_split_witness :
  has_alpha (colorinterp (Demo.vrt [ColorInterp.gray; ColorInterp.alpha] Demo.small)) = true
  /\ exists data mask,
       read_data_mask (Demo.vrt [ColorInterp.gray; ColorInterp.alpha] Demo.small) [1]
         (Some 2) (Some 3) None nearest = Ok (data, mask)
       /\ shape data = [1; 2; 3] /\ shape mask = [2; 3]
       /\ Forall (fun v => 0 <= v < 256) (items mask).
Proof.
  assert (Ha : has_alpha (colorinterp (Demo.vrt [ColorInterp.gray; ColorInterp.alpha]
                                         Demo.small)) = true) by reflexivity.
  split; [exact Ha|].
  assert (Hn : 0 < 2) by lia.
  destruct (read_alpha_band_split (Demo.vrt [ColorInterp.gray; ColorInterp.alpha] Demo.small)
              [1] (Some 2) (Some 3) None nearest 2 [2; 3] Ha eq_refl Hn eq_refl)
    as (_ & data & mask & band & Hr & Hd & Hm & _ & _ & _ & _ & Hb).
  exists data, mask. repeat split; assumption.
Defined.

Lemma read_data_mask_shapes env src params idx h w win r :
  honours_out_shape env -> honours_mask_shape env -> h <> 0 -> w <> 0 ->
  exists data mask,
    read_data_mask (WarpedVRT env src params) idx (Some h) (Some w) win r = Ok (data, mask)
    /\ shape data = [Z.of_nat (length idx); h; w]
    /\ shape mask = [h; w].
Proof.
  intros Hs Hmsk Hh Hw. unfold read_data_mask.
  unfold mask_out_shape_of. rewrite !out_shape_of_nonzero by assumption.
  assert (Ht : int_truthy (Some h) && int_truthy (Some w) = true).
  { unfold int_truthy. apply Z.eqb_neq in Hh, Hw. rewrite Hh, Hw. reflexivity. }
  rewrite Ht.
  destruct (has_alpha _).
  - unfold last_block, but_last. rewrite Hs. rewrite length_app. cbn [length].
    destruct (_ <=? 0) eqn:E; [apply Z.leb_le in E; lia|].
    run_bind. eexists _, _. split; [reflexivity|]. cbn [shape amap]. split; [|reflexivity].
    f_equal. lia.
  - eexists _, _. split; [reflexivity|]. split; [apply Hs|apply Hmsk].
Qed.

Lemma demo_honours_mask_shape bands : honours_mask_shape (Demo.env bands).
Proof. intros src params window h w r. reflexivity. Qed.

(** X4 ([read], lines 76-116, and [part], line 228): with a raster
    library that gives the windowed read and the dataset mask the output
    shape they are asked for, and no post-treatment, a [read] with
    non-zero [height] and [width] that returns gives data of shape
    (number of requested bands, height, width) and a mask of shape
    (height, width), whether the mask comes from an alpha band of the
    view or from the dataset mask, and with or without [unscale] and
    [force_binary_mask]; so does [part], for the height and width it
    hands to [read]. *)
Theorem read_output_shapes env src bounds h w p dst bcrs mo win vo ms kw r :
  let idx :=
    match as_tuple (indexes kw) with
    | Some l => l
    | None => non_alpha_indexes env src
    end in
  honours_out_shape env -> honours_mask_shape env ->
  post_process kw = None ->
  (forall height width,
     height <> 0 -> width <> 0 ->
     read env src (Some height) (Some width) win vo kw = Ok r ->
     shape (fst r) = [Z.of_nat (length idx); height; width]
     /\ shape (snd r) = [height; width])
  /\ (forall rc,
        part_call env src bounds h w p dst bcrs mo vo ms = Ok rc ->
        rc_height rc <> 0 -> rc_width rc <> 0 ->
        part env src bounds h w p dst bcrs mo vo ms kw = Ok r ->
        shape (fst r) = [Z.of_nat (length idx); rc_height rc; rc_width rc]
        /\ shape (snd r) = [rc_height rc; rc_width rc]).
Proof.
  intros idx Hs Hmsk Hpp.
  assert (Hread : forall height width win' vo',
            height <> 0 -> width <> 0 ->
            read env src (Some height) (Some width) win' vo' kw = Ok r ->
            shape (fst r) = [Z.of_nat (length idx); height; width]
            /\ shape (snd r) = [height; width]).
  { intros height width win' vo' Hh Hw. unfold read. fold idx.
    destruct (read_data_mask_shapes env src
                (read_vrt_params env src (nodata kw) (resampling_method kw) vo')
                idx height width win' (resampling_method kw) Hs Hmsk Hh Hw)
      as (data & mask & Hr & Hd & Hm).
    rewrite Hr, Hpp. run_bind. cbn [apply_post_process].
    assert (Hbm : shape (if force_binary_mask kw then binarize mask else mask)
                  = [height; width]).
    { destruct (force_binary_mask kw); [unfold binarize; rewrite amap_shape|]; exact Hm. }
    destruct (unscale kw).
    - destruct (unscale_data _ data) as [data'|e] eqn:Eu; [|discriminate].
      intros H. inversion H. cbn [fst snd].
      rewrite (unscale_data_shape _ _ _ Eu). split; assumption.
    - intros H. inversion H. cbn [fst snd]. split; assumption. }
  split.
  - intros height width. apply Hread.
  - intros rc Hrc Hh Hw. unfold part. rewrite Hrc. run_bind. apply Hread; assumption.
Qed.

Lemma read_output_shapes_witness :
  (honours_out_shape Demo.alpha_env /\ honours_mask_shape Demo.alpha_env
   /\ post_process default_options = None)
  /\ exists r,
       read Demo.alpha_env Demo.small (Some 2) (Some 3) None None default_options = Ok r
       /\ shape (fst r) = [1; 2; 3] /\ shape (snd r) = [2; 3].
Proof.
  assert (Ho : honours_out_shape Demo.alpha_env) by apply demo_honours_out_shape.
  assert (Hm : honours_mask_shape Demo.alpha_env) by apply demo_honours_mask_shape.
  split; [repeat split; assumption|].
  exists (Demo.filled [1; 2; 3] (SInt 5), Demo.filled [2; 3] 255).
  assert (Hr : read Demo.alpha_env Demo.small (Some 2) (Some 3) None None default_options
               = Ok (Demo.filled [1; 2; 3] (SInt 5), Demo.filled [2; 3] 255))
    by (vm_compute; reflexivity).
  split; [exact Hr|].
  destruct (read_output_shapes Demo.alpha_env Demo.small Demo.bounds None None 0 None None
              None None None None default_options
              (Demo.filled [1; 2; 3] (SInt 5), Demo.filled [2; 3] 255) Ho Hm eq_refl)
    as [Hread _].
  assert (H2 : 2 <> 0) by lia. assert (H3 : 3 <> 0) by lia.
  exact (Hread 2 3 H2 H3 Hr).
Defined.

(** X5 ([read], line 111): binarising a mask twice is binarising it once,
    and a mask that holds only 0 and 255 is left as it is. *)
Theorem binarize_idempotent mask :
  binarize (binarize mask) = binarize mask
  /\ (binary_mask mask -> binarize mask = mask).
Proof.
  destruct mask as [s l]. unfold binarize, amap, binary_mask. cbn [shape items]. split.
  - f_equal. rewrite map_map. apply map_ext. intros v.
    destruct (v =? 0) eqn:E; reflexivity.
  - intros H. f_equal. induction H as [|v l Hv Hl IH]; [reflexivity|].
    cbn [map]. rewrite IH. destruct Hv as [-> | ->]; reflexivity.
Qed.

Lemma binarize_idempotent_witness :
  binary_mask Cases.binary_pair /\ binarize Cases.binary_pair = Cases.binary_pair.
Proof.
  assert (Hb : binary_mask Cases.binary_pair).
  { unfold binary_mask, Cases.binary_pair. cbn [items].
    constructor; [left; reflexivity|]. constructor; [right; reflexivity|]. constructor. }
  split; [exact Hb|]. exact (proj2 (binarize_idempotent Cases.binary_pair) Hb).
Defined.

(** ** The keyword dictionary of the view, key by key *)

(** X6 ([read], lines 61-67 and 80-81; [point], lines 319-331): the
    dictionary handed to the warped view, key by key.  A key of the
    caller's raw overrides keeps the caller's value.  Otherwise
    [resampling] is the requested method; [nodata] and [src_nodata] both
    hold the effective nodata value, the argument if given, else the one
    of the dataset, and are absent when there is none; [add_alpha] is
    true exactly when there is no effective nodata value and the dataset
    has no alpha band; and no other key is present.  [point] builds the
    same dictionary as [read]. *)
Theorem vrt_params_policy env src nd rm vo :
  let effective := match nd with Some n => Some n | None => ds_nodata src end in
  let override k := match vo with Some o => o !! k | None => None end in
  let view := read_vrt_params env src nd rm vo in
  point_vrt_params env src nd rm vo = view
  /\ (forall k v, override k = Some v -> view !! k = Some v)
  /\ (override "resampling" = None -> view !! "resampling" = Some (VResampling rm))
  /\ (override "add_alpha" = None ->
      view !! "add_alpha"
      = Some (VBool (match effective with
                     | Some _ => false
                     | None => negb (has_alpha_band env src)
                     end)))
  /\ (override "nodata" = None -> view !! "nodata" = of_nodata <$> effective)
  /\ (override "src_nodata" = None -> view !! "src_nodata" = of_nodata <$> effective)
  /\ (forall k, k <> "resampling" -> k <> "add_alpha" -> k <> "nodata" -> k <> "src_nodata" ->
        override k = None -> view !! k = None).
Proof.
  intros effective override view. split; [reflexivity|].
  assert (Hview : forall k, override k = None ->
            view !! k = read_vrt_params env src nd rm None !! k).
  { intros k Hk. unfold view. rewrite read_vrt_params_lookup. unfold override in Hk.
    destruct vo as [o|]; [rewrite Hk|]; reflexivity. }
  split.
  { intros k v Hk. unfold view. rewrite read_vrt_params_lookup. unfold override in Hk.
    destruct vo as [o|]; [rewrite Hk; reflexivity|discriminate Hk]. }
  repeat split.
  - intros Hk. rewrite (Hview _ Hk). unfold read_vrt_params. fold effective.
    destruct effective; destruct (has_alpha_band env src);
      rewrite ?lookup_dict_update; simplify_map_eq; reflexivity.
  - intros Hk. rewrite (Hview _ Hk). unfold read_vrt_params. fold effective.
    destruct effective; destruct (has_alpha_band env src);
      rewrite ?lookup_dict_update; simplify_map_eq; reflexivity.
  - intros Hk. rewrite (Hview _ Hk). unfold read_vrt_params. fold effective.
    destruct effective; destruct (has_alpha_band env src);
      rewrite ?lookup_dict_update; simplify_map_eq; reflexivity.
  - intros Hk. rewrite (Hview _ Hk). unfold read_vrt_params. fold effective.
    destruct effective; destruct (has_alpha_band env src);
      rewrite ?lookup_dict_update; simplify_map_eq; reflexivity.
  - intros k K1 K2 K3 K4 Hk. rewrite (Hview _ Hk). unfold read_vrt_params. fold effective.
    destruct effective; destruct (has_alpha_band env src);
      rewrite ?lookup_dict_update; simplify_map_eq; reflexivity.
Qed.

Lemma vrt_params_policy_witness :
  (Demo.width_override !! "add_alpha" = None /\ Demo.width_override !! "nodata" = None)
  /\ read_vrt_params Demo.gray_env Demo.small_nodata None nearest (Some Demo.width_override)
       !! "add_alpha" = Some (VBool false)
  /\ read_vrt_params Demo.gray_env Demo.small_nodata None nearest (Some Demo.width_override)
       !! "nodata" = Some (VInt 0).
Proof.
  assert (Ea : Demo.width_override !! "add_alpha" = None) by (vm_compute; reflexivity).
  assert (En : Demo.width_override !! "nodata" = None) by (vm_compute; reflexivity).
  split; [split; assumption|].
  destruct (vrt_params_policy Demo.gray_env Demo.small_nodata None nearest
              (Some Demo.width_override)) as (_ & _ & _ & Ha & Hn & _).
  split; [exact (Ha Ea)|exact (Hn En)].
Defined.

(** The four keys that [part] computes. *)
Lemma computed_keys_lookup (c : CRS) (T : Affine.t) (W H : Z) (k : string) :
  let d : gmap string pyval :=
    <["crs" := VCrs c]>
      (<["transform" := VAffine T]> (<["width" := VInt W]> (<["height" := VInt H]> ∅))) in
  d !! "crs" = Some (VCrs c)
  /\ d !! "transform" = Some (VAffine T)
  /\ d !! "width" = Some (VInt W)
  /\ d !! "height" = Some (VInt H)
  /\ (k <> "crs" -> k <> "transform" -> k <> "width" -> k <> "height" -> d !! k = None).
Proof.
  intros d. unfold d. repeat split; try (simplify_map_eq; reflexivity).
  intros. simplify_map_eq. reflexivity.
Qed.

(** [vrt_options or {}]. *)
Lemma or_empty_lookup (vo : option (gmap string pyval)) k :
  match vo with
  | Some o => if dict_truthy vo then o else ∅
  | None => ∅
  end !! k
  = match vo with Some o => o !! k | None => None end.
Proof.
  destruct vo as [o|]; [|apply lookup_empty].
  destruct (dict_truthy (Some o)) eqn:E; [reflexivity|].
  apply dict_truthy_false_empty in E. subst o. reflexivity.
Qed.

(** What [part_call] returns depends on the caller's raw options through
    the last update only. *)
Lemma part_call_options env src bounds h w p dst bcrs mo vo ms rc :
  part_call env src bounds h w p dst bcrs mo vo ms = Ok rc ->
  exists T W H,
    forall vo',
      part_call env src bounds h w p dst bcrs mo vo' ms
      = Ok (mkReadCall (rc_height rc) (rc_width rc) (rc_window rc)
              (dict_update
                 match vo' with
                 | Some o => if dict_truthy vo' then o else ∅
                 | None => ∅
                 end
                 (<["crs" := VCrs (part_dst_crs src dst)]>
                    (<["transform" := VAffine T]>
                       (<["width" := VInt W]> (<["height" := VInt H]> ∅)))))).
Proof.
  unfold part_call.
  destruct (overlap_check _ _ _ _ _) as [[]|e]; [|discriminate].
  destruct (get_vrt_transform _ _ _ _ _ _) as [[T vw] vh].
  run_bind.
  destruct (clamp_max_size ms h w vw vh) as [[h' w']|e]; [|discriminate].
  destruct (_ && _); intros H; inversion H; subst rc; cbn [rc_height rc_width rc_window];
    eexists _, _, _; intros vo'; reflexivity.
Qed.

(** X7 ([part], lines 218-235, with [read], lines 80-81): the caller of
    [part] cannot override the grid of the view.  Whatever the raw
    options hold, the output size, the window and the values that the
    view receives under [crs], [transform], [width] and [height] are
    those that [part] computes without raw options; [crs] is the target
    CRS.  Under every other key the view receives what [read] alone
    would build from the same raw options. *)
Theorem part_computed_keys_win env src bounds h w p dst bcrs mo vo ms nd rm rc :
  part_call env src bounds h w p dst bcrs mo vo ms = Ok rc ->
  let view := read_vrt_params env src nd rm (Some (rc_vrt_options rc)) in
  exists rc0,
    part_call env src bounds h w p dst bcrs mo None ms = Ok rc0
    /\ rc_height rc = rc_height rc0 /\ rc_width rc = rc_width rc0
    /\ rc_window rc = rc_window rc0
    /\ rc_vrt_options rc0 !! "crs" = Some (VCrs (part_dst_crs src dst))
    /\ (forall k, k = "crs" \/ k = "transform" \/ k = "width" \/ k = "height" ->
          is_Some (rc_vrt_options rc0 !! k) /\ view !! k = rc_vrt_options rc0 !! k)
    /\ (forall k, k <> "crs" -> k <> "transform" -> k <> "width" -> k <> "height" ->
          view !! k = read_vrt_params env src nd rm vo !! k).
Proof.
  intros Hrc view.
  destruct (part_call_options _ _ _ _ _ _ _ _ _ _ _ _ Hrc) as (T & W & H & Hall).
  pose proof (Hall vo) as Hvo. rewrite Hrc in Hvo. inversion Hvo as [Erc].
  eexists. split; [apply (Hall None)|]. cbn [rc_height rc_width rc_window rc_vrt_options].
  split; [reflexivity|]. split; [reflexivity|]. split; [reflexivity|].
  pose proof (computed_keys_lookup (part_dst_crs src dst) T W H) as Hk. cbv zeta in Hk.
  split; [|split].
  - rewrite lookup_dict_update. destruct (Hk "") as [Hc _]. rewrite Hc. reflexivity.
  - intros k Hin. unfold view. rewrite read_vrt_params_lookup.
    rewrite Erc at 1. cbn [rc_vrt_options]. rewrite !lookup_dict_update.
    destruct (Hk "") as (Hc & Ht & Hw & Hh & _).
    destruct Hin as [-> | [-> | [-> | ->]]].
    + rewrite Hc. split; [eexists|]; reflexivity.
    + rewrite Ht. split; [eexists|]; reflexivity.
    + rewrite Hw. split; [eexists|]; reflexivity.
    + rewrite Hh. split; [eexists|]; reflexivity.
  - intros k K1 K2 K3 K4. unfold view. rewrite read_vrt_params_lookup.
    rewrite Erc at 1. cbn [rc_vrt_options]. rewrite lookup_dict_update.
    destruct (Hk k) as (_ & _ & _ & _ & Hn). rewrite (Hn K1 K2 K3 K4).
    rewrite or_empty_lookup. rewrite (read_vrt_params_lookup env src nd rm vo k).
    destruct vo as [o|]; [|reflexivity]. reflexivity.
Qed.

Lemma part_computed_keys_win_witness :
  exists rc,
    part_call Demo.gray_env Demo.small Demo.bounds None None 0 None None None
      (Some Demo.width_override) None = Ok rc
    /\ read_vrt_params Demo.gray_env Demo.small None nearest (Some (rc_vrt_options rc))
         !! "width" = Some (VInt 200).
Proof.
  destruct (part_call Demo.gray_env Demo.small Demo.bounds None None 0 None None None
              (Some Demo.width_override) None) as [rc|e] eqn:Hrc;
    [|vm_compute in Hrc; discriminate Hrc].
  exists rc. split; [reflexivity|].
  destruct (part_computed_keys_win Demo.gray_env Demo.small Demo.bounds None None 0 None None
              None (Some Demo.width_override) None None nearest rc Hrc)
    as (rc0 & Hrc0 & _ & _ & _ & _ & Hk & _).
  assert (Hin : "width" = "crs" \/ "width" = "transform" \/ "width" = "width"
                \/ "width" = "height") by (right; right; left; reflexivity).
  destruct (Hk "width" Hin) as [_ Hw]. rewrite Hw.
  assert (E : part_call Demo.gray_env Demo.small Demo.bounds None None 0 None None None
                None None
              = Ok (mkReadCall 100 200 (mkWindow 0 0 200 100)
                      (<["crs" := VCrs "EPSG:3857"]>
                         (<["transform" := VAffine Demo.transform]>
                            (<["width" := VInt 200]> (<["height" := VInt 100]> ∅))))))
    by (vm_compute; reflexivity).
  rewrite E in Hrc0. inversion Hrc0. vm_compute. reflexivity.
Defined.

(** X8 ([part], lines 187-226): when [padding] is zero or negative, or
    the requested grid is aligned with the internal tiling, [part] leaves
    the computed grid alone: the window is the whole computed grid from
    the origin, and the view receives the target CRS and the computed
    transform, width and height. *)
Theorem part_without_padding env src bounds h w p dst bcrs mo vo ms T vw vh h' w' :
  let dst_crs := part_dst_crs src dst in
  let bounds' := part_bounds env bounds dst_crs bcrs in
  overlap_check env src dst_crs bounds' mo = Ok () ->
  get_vrt_transform env src bounds' h w dst_crs = (T, vw, vh) ->
  clamp_max_size ms h w vw vh = Ok (h', w') ->
  p <= 0 \/ is_aligned env src bounds' (int_or h' vh) (int_or w' vw) dst_crs = true ->
  exists rc,
    part_call env src bounds h w p dst bcrs mo vo ms = Ok rc
    /\ rc_height rc = int_or h' vh /\ rc_width rc = int_or w' vw
    /\ rc_window rc = mkWindow 0 0 vw vh
    /\ rc_vrt_options rc !! "crs" = Some (VCrs dst_crs)
    /\ rc_vrt_options rc !! "transform" = Some (VAffine T)
    /\ rc_vrt_options rc !! "width" = Some (VInt vw)
    /\ rc_vrt_options rc !! "height" = Some (VInt vh).
Proof.
  intros dst_crs bounds' Hc Hg Hk Hp.
  unfold part_call. fold dst_crs. fold bounds'. rewrite Hc, Hg, Hk. run_bind.
  assert (Hif : (0 <? p) && negb (is_aligned env src bounds' (int_or h' vh) (int_or w' vw) dst_crs)
                = false).
  { destruct Hp as [Hp|Hp].
    - apply Z.ltb_ge in Hp. rewrite Hp. reflexivity.
    - rewrite Hp. apply andb_false_r. }
  rewrite Hif. eexists. split; [reflexivity|]. cbn [rc_height rc_width rc_window rc_vrt_options].
  split; [reflexivity|]. split; [reflexivity|]. split; [reflexivity|].
  rewrite !lookup_dict_update.
  destruct (computed_keys_lookup dst_crs T vw vh "") as (K1 & K2 & K3 & K4 & _).
  rewrite K1, K2, K3, K4. repeat split; reflexivity.
Qed.

Lemma part_without_padding_witness :
  -3 <= 0
  /\ exists rc,
       part_call Demo.gray_env Demo.small Demo.bounds None None (-3) None None None None None
       = Ok rc
       /\ rc_window rc = mkWindow 0 0 200 100
       /\ rc_vrt_options rc !! "width" = Some (VInt 200)
       /\ rc_vrt_options rc !! "height" = Some (VInt 100).
Proof.
  assert (Hp : -3 <= 0) by lia.
  split; [exact Hp|].
  destruct (part_without_padding Demo.gray_env Demo.small Demo.bounds None None (-3) None None
              None None None Demo.transform 200 100 None None eq_refl eq_refl eq_refl
              (or_introl Hp))
    as (rc & Hrc & _ & _ & Hwin & _ & _ & Hw & Hh).
  exists rc. repeat split; assumption.
Defined.

(** ** The overlap test of [part] on boxes apart and on boxes within *)

Lemma bbox_valid_fields b :
  bbox_valid b = true ->
  valid64 (left b) = true /\ valid64 (bottom b) = true
  /\ valid64 (right b) = true /\ valid64 (top b) = true.
Proof.
  unfold bbox_valid. intros V.
  apply andb_true_iff in V as [V V3]. apply andb_true_iff in V as [V V2].
  apply andb_true_iff in V as [V0 V1]. repeat split; assumption.
Qed.

Lemma bbox_numbers_fields b :
  bbox_numbers b = true ->
  is_nan (left b) = false /\ is_nan (bottom b) = false
  /\ is_nan (right b) = false /\ is_nan (top b) = false.
Proof.
  unfold bbox_numbers. intros V.
  apply andb_true_iff in V as [V V3]. apply andb_true_iff in V as [V V2].
  apply andb_true_iff in V as [V0 V1].
  apply negb_true_iff in V0, V1, V2, V3. repeat split; assumption.
Qed.

(** One axis of lines 172-177 when the two extents share no length. *)
Lemma empty_overlap_axis s0 s2 b0 b2 :
  valid64 s0 = true -> valid64 s2 = true -> valid64 b0 = true -> valid64 b2 = true ->
  is_nan s0 = false -> is_nan s2 = false -> is_nan b0 = false -> is_nan b2 = false ->
  Z.min (fval s2) (fval b2) <= Z.max (fval s0) (fval b0) ->
  PyFloat.max PyFloat.zero (PyFloat.sub (PyFloat.min s2 b2) (PyFloat.max s0 b0))
  = PyFloat.zero.
Proof.
  intros Vs0 Vs2 Vb0 Vb2 Ns0 Ns2 Nb0 Nb2 H.
  set (a := PyFloat.min s2 b2). set (c := PyFloat.max s0 b0).
  assert (Va : valid64 a = true) by (unfold a, PyFloat.min; destruct (PyFloat.ltb b2 s2); assumption).
  assert (Vc : valid64 c = true) by (unfold c, PyFloat.max; destruct (PyFloat.ltb s0 b0); assumption).
  assert (Ha : fval a <= Z.min (fval s2) (fval b2)).
  { unfold a, PyFloat.min. destruct (PyFloat.ltb b2 s2) eqn:E.
    - pose proof (fval_lt_of_ltb _ _ Vb2 Vs2 E). lia.
    - pose proof (fval_le_of_not_ltb _ _ Vb2 Vs2 Nb2 Ns2 E). lia. }
  assert (Hc : Z.max (fval s0) (fval b0) <= fval c).
  { unfold c, PyFloat.max. destruct (PyFloat.ltb s0 b0) eqn:E.
    - pose proof (fval_lt_of_ltb _ _ Vs0 Vb0 E). lia.
    - pose proof (fval_le_of_not_ltb _ _ Vs0 Vb0 Ns0 Nb0 E). lia. }
  unfold PyFloat.max at 1. rewrite ltb_zero_fpos.
  destruct (fpos (PyFloat.sub a c)) eqn:P; [|reflexivity].
  destruct (sub_sign a c Va Vc) as [Hpos _]. destruct (Hpos P) as (_ & _ & Hlt). lia.
Qed.

(** A product with the int 0, then a quotient: a zero or a NaN. *)
Lemma zero_product_ratio x y d r :
  x = PyFloat.zero \/ y = PyFloat.zero ->
  PyFloat.truediv (PyFloat.mul x y) d = Ok r ->
  is_nan r = true \/ r = S754_zero false \/ r = S754_zero true.
Proof.
  unfold PyFloat.truediv. destruct (SFeqb d PyFloat.zero) eqn:Ed; [discriminate|].
  intros Hz Hr. inversion Hr as [Er]. clear Hr Er.
  unfold PyFloat.mul, PyFloat.zero in *.
  destruct Hz as [-> | ->].
  - destruct y as [[|]|[|]| |[|] my ey], d as [[|]|[|]| |[|] md ed];
      try discriminate Ed; cbn; auto.
  - destruct x as [[|]|[|]| |[|] mx ex], d as [[|]|[|]| |[|] md ed];
      try discriminate Ed; cbn; auto.
Qed.

Lemma fpos_truthy t : fpos t = true -> PyFloat.truthy t = true.
Proof. destruct t as [s|[|]| |[|] m e]; try discriminate; reflexivity. Qed.

Lemma fneg_truthy t : fneg t = true -> PyFloat.truthy t = true.
Proof. destruct t as [s|[|]| |[|] m e]; try discriminate; reflexivity. Qed.

Lemma ltb_zero_any_fpos s t : PyFloat.ltb (S754_zero s) t = fpos t.
Proof. destruct t as [s'|[|]| |[|] m e]; reflexivity. Qed.

Lemma ltb_not_fneg_fneg r t : fneg r = false -> fneg t = true -> PyFloat.ltb r t = false.
Proof.
  destruct r as [sr|[|]| |[|] mr er], t as [st|[|]| |[|] mt et];
    try discriminate; reflexivity.
Qed.

Lemma part_overlap_raise env src bounds h w p dst bcrs mo vo ms kw e :
  overlap_check env src (part_dst_crs src dst)
    (part_bounds env bounds (part_dst_crs src dst) bcrs) mo = Raise e ->
  part env src bounds h w p dst bcrs mo vo ms kw = Raise e.
Proof.
  intros H. unfold part.
  rewrite (part_call_check_raise env src bounds h w p dst bcrs mo vo ms e H). reflexivity.
Qed.

(** X9 ([part], lines 168-185): a box that shares no area with the
    dataset is rejected by every positive threshold.  On well-formed
    bounds without NaN, if the dataset bounds and the requested bounds
    share no length along x or along y, the cover ratio, when the
    division succeeds, is a zero or a NaN; when it is a zero, [part] with
    a positive [minimum_overlap] raises TileOutsideBounds with the
    message "Dataset covers less than 0% of tile", or "-0%" for the
    negative zero that a box inverted on one axis gives. *)
Theorem part_no_common_area env src bounds h w p dst bcrs mo vo ms kw r :
  let dst_crs := part_dst_crs src dst in
  let bounds' := part_bounds env bounds dst_crs bcrs in
  let src_bounds := transform_bounds env (ds_crs src) dst_crs (ds_bounds src) in
  bbox_valid src_bounds = true -> bbox_valid bounds' = true ->
  bbox_numbers src_bounds = true -> bbox_numbers bounds' = true ->
  no_common_area src_bounds bounds' = true ->
  cover_ratio src_bounds bounds' = Ok r ->
  (is_nan r = true \/ r = S754_zero false \/ r = S754_zero true)
  /\ (forall t, mo = Some t -> fpos t = true ->
        (r = S754_zero false ->
         part env src bounds h w p dst bcrs mo vo ms kw
         = Raise (TileOutsideBounds "Dataset covers less than 0% of tile"))
        /\ (r = S754_zero true ->
            part env src bounds h w p dst bcrs mo vo ms kw
            = Raise (TileOutsideBounds "Dataset covers less than -0% of tile"))).
Proof.
  intros dst_crs bounds' src_bounds Vs Vb Ns Nb Hapart Hr.
  destruct (bbox_valid_fields _ Vs) as (Vs0 & Vs1 & Vs2 & Vs3).
  destruct (bbox_valid_fields _ Vb) as (Vb0 & Vb1 & Vb2 & Vb3).
  destruct (bbox_numbers_fields _ Ns) as (Ns0 & Ns1 & Ns2 & Ns3).
  destruct (bbox_numbers_fields _ Nb) as (Nb0 & Nb1 & Nb2 & Nb3).
  split.
  - unfold cover_ratio in Hr. refine (zero_product_ratio _ _ _ _ _ Hr).
    unfold no_common_area in Hapart.
    apply orb_true_iff in Hapart as [H|H]; apply Z.leb_le in H; [left|right];
      apply empty_overlap_axis; assumption.
  - intros t -> Ht.
    assert (Hcheck : forall s, r = S754_zero s ->
              overlap_check env src dst_crs bounds' (Some t)
              = Raise (TileOutsideBounds (overlap_message (S754_zero s)))).
    { intros s ->. rewrite (overlap_check_truthy _ _ _ _ _ (fpos_truthy _ Ht)).
      fold src_bounds. rewrite Hr, ltb_zero_any_fpos, Ht. reflexivity. }
    split; intros Er; apply part_overlap_raise; fold dst_crs; fold bounds';
      rewrite (Hcheck _ Er); reflexivity.
Qed.

Lemma part_no_common_area_witness :
  (bbox_valid Demo.bounds = true /\ bbox_valid Cases.outside_bounds = true
   /\ bbox_numbers Demo.bounds = true /\ bbox_numbers Cases.outside_bounds = true
   /\ no_common_area Demo.bounds Cases.outside_bounds = true
   /\ cover_ratio Demo.bounds Cases.outside_bounds = Ok (S754_zero false)
   /\ fpos Demo.half = true)
  /\ part Demo.gray_env Demo.small Cases.outside_bounds None None 0 None None
       (Some Demo.half) None None default_options
     = Raise (TileOutsideBounds "Dataset covers less than 0% of tile").
Proof.
  assert (Vs : bbox_valid Demo.bounds = true) by (vm_compute; reflexivity).
  assert (Vb : bbox_valid Cases.outside_bounds = true) by (vm_compute; reflexivity).
  assert (Ns : bbox_numbers Demo.bounds = true) by (vm_compute; reflexivity).
  assert (Nb : bbox_numbers Cases.outside_bounds = true) by (vm_compute; reflexivity).
  assert (Ha : no_common_area Demo.bounds Cases.outside_bounds = true)
    by (vm_compute; reflexivity).
  assert (Hr : cover_ratio Demo.bounds Cases.outside_bounds = Ok (S754_zero false))
    by (vm_compute; reflexivity).
  assert (Hp : fpos Demo.half = true) by reflexivity.
  split; [repeat split; assumption|].
  destruct (part_no_common_area Demo.gray_env Demo.small Cases.outside_bounds None None 0
              None None (Some Demo.half) None None default_options (S754_zero false)
              Vs Vb Ns Nb Ha Hr) as [_ H].
  destruct (H Demo.half eq_refl Hp) as [H0 _]. exact (H0 eq_refl).
Defined.

(** X10 ([part], lines 168-185): a negative [minimum_overlap] rejects
    nothing.  On well-formed bounds the overlap test with a negative
    threshold passes, or stops on the division by a zero area; [part]
    never raises TileOutsideBounds. *)
Theorem part_negative_threshold env src bounds h w p dst bcrs mo vo ms kw t :
  let dst_crs := part_dst_crs src dst in
  let bounds' := part_bounds env bounds dst_crs bcrs in
  let src_bounds := transform_bounds env (ds_crs src) dst_crs (ds_bounds src) in
  bbox_valid src_bounds = true -> bbox_valid bounds' = true ->
  mo = Some t -> fneg t = true ->
  (overlap_check env src dst_crs bounds' mo = Ok ()
   \/ overlap_check env src dst_crs bounds' mo = Raise ZeroDivisionError)
  /\ forall msg,
       part env src bounds h w p dst bcrs mo vo ms kw <> Raise (TileOutsideBounds msg).
Proof.
  intros dst_crs bounds' src_bounds Vs Vb -> Ht.
  assert (Hc : overlap_check env src dst_crs bounds' (Some t) = Ok ()
               \/ overlap_check env src dst_crs bounds' (Some t) = Raise ZeroDivisionError).
  { rewrite (overlap_check_truthy _ _ _ _ _ (fneg_truthy _ Ht)). fold src_bounds.
    destruct (cover_ratio src_bounds bounds') as [r|e] eqn:Er.
    - left. pose proof (cover_ratio_not_negative _ _ _ Vs Vb Er) as Hn.
      rewrite (ltb_not_fneg_fneg _ _ Hn Ht). reflexivity.
    - right. rewrite (cover_ratio_raise _ _ _ Er). reflexivity. }
  split; [exact Hc|]. intros msg H.
  apply part_raise in H as [H|H]; [|discriminate H].
  destruct Hc as [Hc|Hc].
  - pose proof (part_call_after_check _ _ _ _ _ _ _ _ _ _ _ _ Hc H) as Hf. discriminate Hf.
  - rewrite (part_call_check_raise _ _ _ _ _ _ _ _ _ _ _ _ Hc) in H. discriminate H.
Qed.

Lemma part_negative_threshold_witness :
  (bbox_valid Demo.bounds = true /\ bbox_valid Cases.outside_bounds = true
   /\ fneg Cases.minus_one = true)
  /\ forall msg,
       part Demo.gray_env Demo.small Cases.outside_bounds None None 0 None None
         (Some Cases.minus_one) None None default_options
       <> Raise (TileOutsideBounds msg).
Proof.
  assert (Vs : bbox_valid Demo.bounds = true) by (vm_compute; reflexivity).
  assert (Vb : bbox_valid Cases.outside_bounds = true) by (vm_compute; reflexivity).
  assert (Ht : fneg Cases.minus_one = true) by (vm_compute; reflexivity).
  split; [repeat split; assumption|].
  destruct (part_negative_threshold Demo.gray_env Demo.small Cases.outside_bounds None None 0
              None None (Some Cases.minus_one) None None default_options Cases.minus_one
              Vs Vb eq_refl Ht) as [_ H].
  exact H.
Defined.

(** A finite number divided by itself is exactly 1.0. *)
Lemma div_self s m e :
  SFdiv 53 1024 (S754_finite s m e) (S754_finite s m e) = PyFloat.of_int 1.
Proof.
  unfold SFdiv, SFdiv_core_binary.
  replace (Zdigits2 (Zpos m) + e - (Zdigits2 (Zpos m) + e)) with 0 by lia.
  replace (e - e) with 0 by lia.
  change (Z.min (fexp 53 1024 0) 0) with (-53).
  change (0 - -53) with 53.
  cbv beta iota zeta.
  rewrite Z.shiftl_mul_pow2 by lia.
  pose proof (Z_div_mod (Zpos m * 2 ^ 53) (Zpos m) (Zgt_pos_0 m)) as Hd.
  destruct (Z.div_eucl (Zpos m * 2 ^ 53) (Zpos m)) as [q r].
  destruct Hd as [Hq Hr].
  assert (q = 2 ^ 53 /\ r = 0) as [-> ->].
  { assert (Hm : r = Zpos m * (2 ^ 53 - q)) by lia.
    set (k := 2 ^ 53 - q) in *.
    assert (Hk : k = 0).
    { destruct (Z.lt_trichotomy k 0) as [Hn|[Hz|Hp]]; [|exact Hz|].
      - assert (Zpos m * k <= Zpos m * (-1)) by (apply Z.mul_le_mono_nonneg_l; lia). lia.
      - assert (Zpos m * 1 <= Zpos m * k) by (apply Z.mul_le_mono_nonneg_l; lia). lia. }
    rewrite Hk in Hm. unfold k in Hk. lia. }
  rewrite new_location_exact. destruct s; vm_compute; reflexivity.
Qed.

Lemma truediv_self x :
  is_finite x = true -> PyFloat.truediv x x = Ok (PyFloat.of_int 1).
Proof.
  destruct x as [s|s| |s m e]; try discriminate. intros _.
  unfold PyFloat.truediv.
  assert (E : SFeqb (S754_finite s m e) PyFloat.zero = false) by (destruct s; reflexivity).
  rewrite E. f_equal. apply div_self.
Qed.

Lemma mul_finite x y :
  is_finite (PyFloat.mul x y) = true -> is_finite x = true /\ is_finite y = true.
Proof.
  destruct x as [[|]|[|]| |[|] mx ex], y as [[|]|[|]| |[|] my ey];
    try discriminate; split; reflexivity.
Qed.

Lemma finite_not_fneg_fpos v : is_finite v = true -> fneg v = false -> fpos v = true.
Proof. destruct v as [s|[|]| |[|] m e]; try discriminate; reflexivity. Qed.

Lemma min_not_above hi bhi :
  valid64 hi = true -> valid64 bhi = true -> is_nan hi = false -> is_nan bhi = false ->
  not_above bhi hi -> PyFloat.min hi bhi = bhi.
Proof.
  intros Vh Vb Nh Nb [->|H]; unfold PyFloat.min.
  - rewrite ltb_irrefl. reflexivity.
  - rewrite (ltb_of_fval_lt _ _ Vb Vh Nb Nh H). reflexivity.
Qed.

Lemma max_not_above lo blo :
  valid64 lo = true -> valid64 blo = true -> is_nan lo = false -> is_nan blo = false ->
  not_above lo blo -> PyFloat.max lo blo = blo.
Proof.
  intros Vl Vb Nl Nb [->|H]; unfold PyFloat.max.
  - rewrite ltb_irrefl. reflexivity.
  - rewrite (ltb_of_fval_lt _ _ Vl Vb Nl Nb H). reflexivity.
Qed.

(** One axis of lines 172-177 when the requested extent lies within the
    extent of the dataset and has a positive length: the overlap is the
    requested length itself. *)
Lemma full_overlap_axis s0 s2 b0 b2 :
  valid64 s0 = true -> valid64 s2 = true -> valid64 b0 = true -> valid64 b2 = true ->
  is_nan s0 = false -> is_nan s2 = false -> is_nan b0 = false -> is_nan b2 = false ->
  not_above s0 b0 -> not_above b2 s2 -> fval b0 <= fval b2 ->
  is_finite (PyFloat.sub b2 b0) = true ->
  PyFloat.max PyFloat.zero (PyFloat.sub (PyFloat.min s2 b2) (PyFloat.max s0 b0))
  = PyFloat.sub b2 b0.
Proof.
  intros Vs0 Vs2 Vb0 Vb2 Ns0 Ns2 Nb0 Nb2 H0 H2 Hle Hf.
  rewrite (min_not_above _ _ Vs2 Vb2 Ns2 Nb2 H2), (max_not_above _ _ Vs0 Vb0 Ns0 Nb0 H0).
  destruct (sub_sign b2 b0 Vb2 Vb0) as [_ Hneg].
  pose proof (finite_not_fneg_fpos _ Hf (Hneg Nb2 Nb0 Hle)) as Hp.
  unfold PyFloat.max. rewrite ltb_zero_fpos, Hp. reflexivity.
Qed.

(** X11 ([part], lines 168-185): a box within the dataset is covered for
    exactly 100%.  On well-formed bounds without NaN, if the requested
    box lies within the dataset bounds, is not inverted and has a finite
    area, the cover ratio is exactly 1.0; the overlap test then fails
    only for a threshold above 1, with the message "Dataset covers less
    than 100% of tile", and [part] never raises TileOutsideBounds for a
    threshold that is not above 1. *)
Theorem part_tile_within_dataset env src bounds h w p dst bcrs mo vo ms kw :
  let dst_crs := part_dst_crs src dst in
  let bounds' := part_bounds env bounds dst_crs bcrs in
  let src_bounds := transform_bounds env (ds_crs src) dst_crs (ds_bounds src) in
  bbox_valid src_bounds = true -> bbox_valid bounds' = true ->
  bbox_numbers src_bounds = true -> bbox_numbers bounds' = true ->
  box_within bounds' src_bounds ->
  fval (left bounds') <= fval (right bounds') ->
  fval (bottom bounds') <= fval (top bounds') ->
  is_finite (box_area bounds') = true ->
  cover_ratio src_bounds bounds' = Ok (PyFloat.of_int 1)
  /\ forall t, mo = Some t ->
       overlap_check env src dst_crs bounds' mo
       = (if PyFloat.truthy t && PyFloat.ltb (PyFloat.of_int 1) t
          then Raise (TileOutsideBounds "Dataset covers less than 100% of tile")
          else Ok ())
       /\ (PyFloat.ltb (PyFloat.of_int 1) t = false ->
           forall msg,
             part env src bounds h w p dst bcrs mo vo ms kw
             <> Raise (TileOutsideBounds msg)).
Proof.
  intros dst_crs bounds' src_bounds Vs Vb Ns Nb Hin Hx Hy Hf.
  destruct (bbox_valid_fields _ Vs) as (Vs0 & Vs1 & Vs2 & Vs3).
  destruct (bbox_valid_fields _ Vb) as (Vb0 & Vb1 & Vb2 & Vb3).
  destruct (bbox_numbers_fields _ Ns) as (Ns0 & Ns1 & Ns2 & Ns3).
  destruct (bbox_numbers_fields _ Nb) as (Nb0 & Nb1 & Nb2 & Nb3).
  destruct Hin as (H0 & H2 & H1 & H3).
  destruct (mul_finite _ _ Hf) as [Fx Fy].
  assert (Hr : cover_ratio src_bounds bounds' = Ok (PyFloat.of_int 1)).
  { unfold cover_ratio.
    rewrite (full_overlap_axis (left src_bounds) (right src_bounds)) by assumption.
    rewrite (full_overlap_axis (bottom src_bounds) (top src_bounds)) by assumption.
    apply truediv_self. exact Hf. }
  split; [exact Hr|]. intros t ->.
  assert (Hc : overlap_check env src dst_crs bounds' (Some t)
               = (if PyFloat.truthy t && PyFloat.ltb (PyFloat.of_int 1) t
                  then Raise (TileOutsideBounds "Dataset covers less than 100% of tile")
                  else Ok ())).
  { destruct (PyFloat.truthy t) eqn:Et.
    - rewrite (overlap_check_truthy _ _ _ _ _ Et). fold src_bounds. rewrite Hr.
      cbn [andb]. destruct (PyFloat.ltb (PyFloat.of_int 1) t); [|reflexivity].
      f_equal.
    - cbn [andb]. apply overlap_check_skipped. exact Et. }
  split; [exact Hc|]. intros Hlt msg H.
  rewrite Hlt, andb_false_r in Hc.
  apply part_raise in H as [H|H]; [|discriminate H].
  pose proof (part_call_after_check _ _ _ _ _ _ _ _ _ _ _ _ Hc H) as Hfalse.
  discriminate Hfalse.
Qed.

Lemma part_tile_within_dataset_witness :
  (bbox_valid Demo.bounds = true /\ bbox_valid Cases.inner_bounds = true
   /\ bbox_numbers Demo.bounds = true /\ bbox_numbers Cases.inner_bounds = true
   /\ box_within Cases.inner_bounds Demo.bounds
   /\ fval (left Cases.inner_bounds) <= fval (right Cases.inner_bounds)
   /\ fval (bottom Cases.inner_bounds) <= fval (top Cases.inner_bounds)
   /\ is_finite (box_area Cases.inner_bounds) = true)
  /\ cover_ratio Demo.bounds Cases.inner_bounds = Ok (PyFloat.of_int 1)
  /\ forall msg,
       part Demo.gray_env Demo.small Cases.inner_bounds None None 0 None None
         (Some Demo.half) None None default_options
       <> Raise (TileOutsideBounds msg).
Proof.
  assert (Vs : bbox_valid Demo.bounds = true) by (vm_compute; reflexivity).
  assert (Vb : bbox_valid Cases.inner_bounds = true) by (vm_compute; reflexivity).
  assert (Ns : bbox_numbers Demo.bounds = true) by (vm_compute; reflexivity).
  assert (Nb : bbox_numbers Cases.inner_bounds = true) by (vm_compute; reflexivity).
  assert (Hin : box_within Cases.inner_bounds Demo.bounds)
    by (repeat split; right; vm_compute; reflexivity).
  assert (Hx : fval (left Cases.inner_bounds) <= fval (right Cases.inner_bounds))
    by (vm_compute; discriminate).
  assert (Hy : fval (bottom Cases.inner_bounds) <= fval (top Cases.inner_bounds))
    by (vm_compute; discriminate).
  assert (Hf : is_finite (box_area Cases.inner_bounds) = true) by (vm_compute; reflexivity).
  split; [repeat split; try assumption; right; vm_compute; reflexivity|].
  destruct (part_tile_within_dataset Demo.gray_env Demo.small Cases.inner_bounds None None 0
              None None (Some Demo.half) None None default_options
              Vs Vb Ns Nb Hin Hx Hy Hf) as [Hr H].
  split; [exact Hr|].
  destruct (H Demo.half eq_refl) as [_ Hpass]. apply Hpass. vm_compute. reflexivity.
Defined.

(** ** [max_size] in [part] *)

(** X12 ([part], lines 193-204): when [max_size] applies in [part] (it
    is given and not zero, [height] and [width] are not both given, and
    the larger computed dimension exceeds it), for computed dimensions
    that are positive and below [2^53] the longer computed axis gets
    [max_size]: if the computed grid is taller than wide, the output
    height is [max_size] and the output width the ceiling of the binary64
    quotient of [max_size] by the ratio; otherwise the output width is
    [max_size] and the output height the ceiling of the binary64 product
    of [max_size] by the ratio (a ceiling of 0 falls back to the computed
    dimension). *)
Theorem part_clamp_longer_axis env src bounds h w p dst bcrs mo vo ms T vw vh m :
  let dst_crs := part_dst_crs src dst in
  let bounds' := part_bounds env bounds dst_crs bcrs in
  overlap_check env src dst_crs bounds' mo = Ok () ->
  get_vrt_transform env src bounds' h w dst_crs = (T, vw, vh) ->
  ms = Some m -> m <> 0 ->
  int_truthy w && int_truthy h = false ->
  m < Z.max vw vh ->
  0 < vh < 2 ^ 53 -> 0 < vw < 2 ^ 53 ->
  exists ratio,
    PyFloat.truediv (PyFloat.of_int vh) (PyFloat.of_int vw) = Ok ratio
    /\ (vw < vh ->
        match PyFloat.ceil (SFdiv PyFloat.prec PyFloat.emax (PyFloat.of_int m) ratio) with
        | Ok w' =>
            exists rc,
              part_call env src bounds h w p dst bcrs mo vo ms = Ok rc
              /\ rc_height rc = m /\ rc_width rc = int_or (Some w') vw
        | Raise e => part_call env src bounds h w p dst bcrs mo vo ms = Raise e
        end)
    /\ (vh <= vw ->
        match PyFloat.ceil (PyFloat.mul (PyFloat.of_int m) ratio) with
        | Ok h' =>
            exists rc,
              part_call env src bounds h w p dst bcrs mo vo ms = Ok rc
              /\ rc_height rc = int_or (Some h') vh /\ rc_width rc = m
        | Raise e => part_call env src bounds h w p dst bcrs mo vo ms = Raise e
        end).
Proof.
  intros dst_crs bounds' Hc Hg -> Hm Hb Hlt Hvh Hvw.
  pose proof (part_call_sizes env src bounds h w p dst bcrs mo vo (Some m) T vw vh Hc Hg) as Hs.
  assert (Hk : clamp_max_size (Some m) h w vw vh
               = ('(h', w') ← scale_to_max_size vh vw m; Ok (Some h', Some w'))).
  { unfold clamp_max_size. rewrite Hb. cbn [int_truthy negb andb].
    apply Z.eqb_neq in Hm. rewrite Hm. cbn [negb].
    apply Z.ltb_lt in Hlt. rewrite Hlt. reflexivity. }
  rewrite Hk in Hs. clear Hk.
  assert (Hm' : int_or (Some m) vh = m /\ int_or (Some m) vw = m).
  { unfold int_or. apply Z.eqb_neq in Hm. rewrite Hm. split; reflexivity. }
  destruct Hm' as [Hmh Hmw].
  destruct (scale_to_max_size_longer vh vw m Hvh Hvw) as (ratio & Hr & Htall & Hwide).
  exists ratio. split; [exact Hr|]. split.
  - intros Hgt. rewrite (Htall Hgt) in Hs. run_bind.
    destruct (PyFloat.ceil _) as [w'|e]; [|exact Hs].
    destruct Hs as (rc & Hrc & Hh & Hw). exists rc. rewrite Hmh in Hh. auto.
  - intros Hle. rewrite (Hwide Hle) in Hs. run_bind.
    destruct (PyFloat.ceil _) as [h'|e]; [|exact Hs].
    destruct Hs as (rc & Hrc & Hh & Hw). exists rc. rewrite Hmw in Hw. auto.
Qed.

Lemma part_clamp_longer_axis_witness :
  (50 <> 0 /\ 50 < Z.max 200 100 /\ 0 < 100 < 2 ^ 53 /\ 0 < 200 < 2 ^ 53 /\ 100 <= 200)
  /\ exists rc,
       part_call Demo.gray_env Demo.small Demo.bounds None None 0 None None None None
         (Some 50) = Ok rc
       /\ rc_height rc = 25 /\ rc_width rc = 50.
Proof.
  assert (Hm : 50 <> 0) by lia.
  assert (Hlt : 50 < Z.max 200 100) by (vm_compute; reflexivity).
  assert (HH : 0 < 100 < 2 ^ 53) by (vm_compute; split; reflexivity).
  assert (HW : 0 < 200 < 2 ^ 53) by (vm_compute; split; reflexivity).
  assert (Hle : 100 <= 200) by lia.
  split; [repeat split; try assumption; lia|].
  destruct (part_clamp_longer_axis Demo.gray_env Demo.small Demo.bounds None None 0 None None
              None None (Some 50) Demo.transform 200 100 50 eq_refl eq_refl eq_refl Hm eq_refl
              Hlt HH HW) as (ratio & Hr & _ & Hwide).
  specialize (Hwide Hle).
  assert (Er : ratio = Demo.half).
  { assert (E : PyFloat.truediv (PyFloat.of_int 100) (PyFloat.of_int 200) = Ok Demo.half)
      by (vm_compute; reflexivity).
    rewrite E in Hr. inversion Hr. reflexivity. }
  rewrite Er in Hwide.
  assert (Ec : PyFloat.ceil (PyFloat.mul (PyFloat.of_int 50) Demo.half) = Ok 25)
    by (vm_compute; reflexivity).
  rewrite Ec in Hwide. destruct Hwide as (rc & Hrc & Hh & Hw).
  exists rc. split; [exact Hrc|]. split; [exact Hh|exact Hw].
Defined.
